(** * ytranscribe: a shallow embedding of [youtube_transcript_summarizer.py]

    The script resolves a video title, fetches or reuses a transcript file,
    chooses a prompt, posts prompt and transcript to a local Ollama endpoint
    and writes the answer to a summary file.

    Python [str] values are sequences of Unicode code points, and
    [str.strip] is defined on code points, so a string is a list of code
    points here.  The three network collaborators are oracles of an
    environment record; [print] appends to a list of printed strings.

    The file system is a finite map from paths, as they are spelled, to
    nodes.  It stands for a Linux file system without links, in which the
    process may read and write every node, seen from the working directory
    of the process.  Paths are not resolved: two spellings are two keys.  A
    path that is [plain] (relative, with no empty component and no
    component [.] or [..]) names one file, and two plain paths name the
    same file only when they are equal; the statements about what a run
    writes, or leaves as it was, are made for plain paths.  Files are read
    and written as UTF-8 text, and standard output is a UTF-8 stream. *)

From Stdlib Require Import ZArith NArith List Ascii String Bool Lia.
From stdpp Require Import base option gmap list pretty.

Local Open Scope N_scope.
Local Open Scope list_scope.

(** ** Strings *)

(** A code point, and a string of code points. *)
Abbreviation char := N (only parsing).
Abbreviation str := (list N) (only parsing).

(** ASCII literals of the source, as code points. *)
Definition lit (s : string) : str :=
  List.map N_of_ascii (list_ascii_of_string s).

(** [str.isspace] of one code point: CPython's [_PyUnicode_IsWhitespace]. *)
Definition isspace (c : char) : bool :=
  ((9 <=? c) && (c <=? 13)) || ((28 <=? c) && (c <=? 32))
  || (c =? 133) || (c =? 160) || (c =? 5760)
  || ((8192 <=? c) && (c <=? 8202))
  || (c =? 8232) || (c =? 8233) || (c =? 8239) || (c =? 8287)
  || (c =? 12288).

Fixpoint drop_while (f : char -> bool) (s : str) : str :=
  match s with
  | [] => []
  | c :: t => if f c then drop_while f t else s
  end.

Definition lstrip (s : str) : str := drop_while isspace s.

Definition rstrip (s : str) : str := rev (lstrip (rev s)).

(** [s.strip()] with no argument. *)
Definition strip (s : str) : str := rstrip (lstrip s).

(** *** Text as the interpreter reads and writes it *)

(** A file opened for reading in text mode has its line ends translated:
    a carriage return followed by a line feed, and a carriage return alone,
    both become one line feed. *)
Fixpoint universal_newlines (s : str) : str :=
  match s with
  | [] => []
  | c :: rest =>
      if c =? 13 then
        10 :: match rest with
              | d :: rest' =>
                  if d =? 10 then universal_newlines rest'
                  else universal_newlines rest
              | [] => []
              end
      else c :: universal_newlines rest
  end.

(** The surrogate code points U+D800 to U+DFFF have no UTF-8 encoding. *)
Definition surrogate (c : char) : bool := (55296 <=? c) && (c <=? 57343).

(** [s.encode("utf-8")] succeeds: [s] holds no surrogate.  This is the text
    that [print] and [f.write] accept. *)
Definition encodable (s : str) : bool :=
  forallb (fun c => negb (surrogate c)) s.

(** Number of bytes of the UTF-8 encoding of one code point. *)
Definition utf8_len (c : char) : N :=
  if c <? 128 then 1 else if c <? 2048 then 2 else if c <? 65536 then 3 else 4.

Definition hex_digit (n : N) : char := if n <? 10 then 48 + n else 87 + n.

(** [n] in hexadecimal, on [digits] digits. *)
Fixpoint hex_fixed (digits : nat) (n : N) : str :=
  match digits with
  | O => []
  | S k => hex_fixed k (n / 16) ++ [hex_digit (n mod 16)]
  end.

(** [str.isprintable] of one code point, as far as it is fixed here: the
    ASCII and Latin-1 controls, the soft hyphen, the separators that
    [isspace] lists and the surrogates are not printable.  The interpreter
    also escapes the format, private-use and unassigned code points of its
    Unicode tables, which this definition takes as printable. *)
Definition printable (c : char) : bool :=
  if c <? 32 then false
  else if c <? 127 then true
  else if c <? 161 then false
  else if c =? 173 then false
  else negb (surrogate c || isspace c).

(** One character of [repr(s)] between quotes [quote]. *)
Definition repr_char (quote c : char) : str :=
  if (c =? quote) || (c =? 92) then [92; c]
  else if c =? 9 then [92; 116]
  else if c =? 10 then [92; 110]
  else if c =? 13 then [92; 114]
  else if printable c then [c]
  else if c <? 256 then [92; 120] ++ hex_fixed 2 c
  else if c <? 65536 then [92; 117] ++ hex_fixed 4 c
  else [92; 85] ++ hex_fixed 8 c.

(** [repr(s)]: single quotes, unless [s] holds a single quote and no double
    quote. *)
Definition py_repr (s : str) : str :=
  let quote :=
    if existsb (N.eqb 39) s && negb (existsb (N.eqb 34) s) then 34 else 39 in
  [quote] ++ concat (List.map (repr_char quote) s) ++ [quote].

(** The character class of the pattern on line 22: backslash, slash, star,
    question mark, colon, double quote, less-than, greater-than, bar. *)
Definition forbidden (c : char) : bool :=
  (c =? 92) || (c =? 47) || (c =? 42) || (c =? 63) || (c =? 58)
  || (c =? 34) || (c =? 60) || (c =? 62) || (c =? 124).

(** [re.sub] of line 22: every character of the class is deleted. *)
Definition re_sub_forbidden (name : str) : str :=
  List.filter (fun c => negb (forbidden c)) name.

(** [s.replace] of line 22: each space becomes an underscore. *)
Definition replace_space (s : str) : str :=
  List.map (fun c => if c =? 32 then 95 else c) s.

(** [sanitize_filename], line 21. *)
Definition sanitize_filename (name : str) : str :=
  replace_space (strip (re_sub_forbidden name)).

(** What the specification's sentence describes: every listed character
    removed and every space turned into an underscore. *)
Definition spec_sanitize (name : str) : str :=
  replace_space (re_sub_forbidden name).

(** ** Python values, exceptions *)

(** Values that [json.loads] and the metadata extractor hand back; a dict is
    kept as its list of items (keys distinct, as in a Python dict). *)
#[local] Set Warnings "-register-all".
Inductive pyval :=
| PyNone
| PyBool (b : bool)
| PyInt (z : Z)
| PyFloat (digits : str)
| PyStr (s : str)
| PyList (items : list pyval)
| PyDict (items : list (str * pyval)).

Definition type_name (v : pyval) : str :=
  match v with
  | PyNone => lit "NoneType"
  | PyBool _ => lit "bool"
  | PyInt _ => lit "int"
  | PyFloat _ => lit "float"
  | PyStr _ => lit "str"
  | PyList _ => lit "list"
  | PyDict _ => lit "dict"
  end.

Inductive exn_class :=
| RuntimeError | AttributeError | TypeError
| FileNotFoundError | IsADirectoryError | NotADirectoryError | FileExistsError
| OSError | ValueError | UnicodeEncodeError | UnicodeDecodeError
| ServiceError (name : str).

(** An exception object: its class and [str(e)]. *)
Record exn := Exn { exn_kind : exn_class; exn_str : str }.

Definition str_eqb (a b : str) : bool := bool_decide (a = b).

(** The value stored under [key], if any. *)
Fixpoint dict_lookup (d : list (str * pyval)) (key : str) : option pyval :=
  match d with
  | [] => None
  | (k, v) :: d' => if str_eqb k key then Some v else dict_lookup d' key
  end.

(** [d.get(key, default)] *)
Definition dict_get (d : list (str * pyval)) (key : str) (default : pyval) : pyval :=
  match dict_lookup d key with
  | Some v => v
  | None => default
  end.

Definition no_attribute (v : pyval) (attr : string) : exn :=
  Exn AttributeError
      (lit "'" ++ type_name v ++ lit "' object has no attribute '" ++ lit attr ++ lit "'").

(** ** The world: files, printed output, calls made to the collaborators *)

(** A node of the file system: a file whose bytes are the UTF-8 encoding of
    [content]; a directory; a file whose bytes are not valid UTF-8, which
    carries the text [why] of the [UnicodeDecodeError] that decoding them
    raises. *)
Inductive node := File (content : str) | Dir | Binary (why : str).

Record request := Request { req_model : str; req_prompt : str; req_stream : bool }.

(** An HTTP reply: [status_code], [text], and what [json()] gives for the
    body (the decoded value, or the decoding error it raises). *)
Record response := Response {
  status_code : Z;
  resp_text : str;
  resp_json : exn + pyval
}.

(** A transcript snippet; the script reads its [text] only. *)
Record snippet := Snippet { text : str }.

Inductive call :=
| CallExtractInfo (url : str)
| CallFetch (video_id : str)
| CallPost (url : str) (body : request).

(** The collaborators, as they answer during one run: yt_dlp's
    [extract_info], [YouTubeTranscriptApi().fetch], [requests.post]. *)
Record env := Env {
  extract_info : str -> exn + pyval;
  fetch : str -> exn + list snippet;
  post : str -> request -> exn + response
}.

Record world := World {
  fs : gmap str node;
  stdout : list str;
  calls : list call
}.

Definition set_fs (f : gmap str node -> gmap str node) (w : world) : world :=
  World (f (fs w)) (stdout w) (calls w).

(** ** Computations that may raise *)

Definition M (A : Type) : Type := world -> (exn + A) * world.

Definition ret {A} (a : A) : M A := fun w => (inr a, w).

Definition bind {A B} (m : M A) (k : A -> M B) : M B := fun w =>
  match m w with
  | (inr a, w') => k a w'
  | (inl e, w') => (inl e, w')
  end.

Definition raise {A} (e : exn) : M A := fun w => (inl e, w).

(** [try: body except Exception as e: handler e] *)
Definition try_except {A} (body : M A) (handler : exn -> M A) : M A := fun w =>
  match body w with
  | (inr a, w') => (inr a, w')
  | (inl e, w') => handler e w'
  end.

Notation "x <~ m ;; k" := (bind m (fun x => k))
  (at level 100, m at level 99, right associativity).
Notation "m ;;; k" := (bind m (fun _ => k))
  (at level 100, right associativity).

Definition lift {A} (r : exn + A) : M A := fun w => (r, w).

(** [print(s)].  The real call raises [UnicodeEncodeError] when [s] is not
    [encodable], which this definition leaves out: [run_text_ok] and the
    hypotheses on [encodable] describe the runs that print such text only. *)
Definition print (s : str) : M unit := fun w =>
  (inr tt, World (fs w) (stdout w ++ [s]) (calls w)).

Definition log_call (c : call) : M unit := fun w =>
  (inr tt, World (fs w) (stdout w) (calls w ++ [c])).

(** ** Paths and files

    Paths are looked up as written.  A node that is in the map has a name
    that the file system accepted; a name is checked when a node is
    created.  The messages of the interpreter's own errors are those of
    CPython 3.12 on Linux. *)

Definition slash : char := 47.
Definition is_slash (c : char) : bool := c =? slash.

(** [OSError.__str__] with a file name. *)
Definition os_error (k : exn_class) (errno : string) (p : str) : exn :=
  Exn k (lit errno ++ lit ": " ++ py_repr p).

Definition ENOENT (p : str) := os_error FileNotFoundError "[Errno 2] No such file or directory" p.
Definition EISDIR (p : str) := os_error IsADirectoryError "[Errno 21] Is a directory" p.
Definition ENOTDIR (p : str) := os_error NotADirectoryError "[Errno 20] Not a directory" p.
Definition EEXIST (p : str) := os_error FileExistsError "[Errno 17] File exists" p.
Definition ENAMETOOLONG (p : str) := os_error OSError "[Errno 36] File name too long" p.

(** The components of a path: the parts between slashes. *)
Fixpoint components_from (acc rest : str) : list str :=
  match rest with
  | [] => [acc]
  | c :: rest' =>
      if is_slash c then acc :: components_from [] rest'
      else components_from (acc ++ [c]) rest'
  end.

Definition components (p : str) : list str := components_from [] p.

(** A relative path in normal form: no component is empty, [.] or [..]. *)
Definition plain_name (n : str) : bool :=
  negb (str_eqb n [] || str_eqb n [46] || str_eqb n [46; 46]).

Definition plain (p : str) : bool := forallb plain_name (components p).

(** Every path of [m] is plain. *)
Definition normal (m : gmap str node) : Prop :=
  forall q, is_Some (m !! q) -> plain q = true.

(** A path is handed to the system in the file-system encoding, UTF-8 with
    the [surrogateescape] handler: a code point U+DC80 to U+DCFF stands for
    one raw byte, any other surrogate is refused. *)
Definition escaped_byte (c : char) : bool := (56448 <=? c) && (c <=? 56575).

Definition byte_length (p : str) : N :=
  fold_right (fun c n => (if escaped_byte c then 1 else utf8_len c) + n) 0 p.

Definition NAME_MAX : N := 255.
Definition PATH_MAX : N := 4096.

Fixpoint take_while (f : char -> bool) (s : str) : str :=
  match s with
  | [] => []
  | c :: t => if f c then c :: take_while f t else []
  end.

(** The text of the [UnicodeEncodeError] for the surrogates [run] found at
    position [start]. *)
Definition encode_error_text (start : nat) (run : str) : str :=
  match run with
  | [c] =>
      lit "'utf-8' codec can't encode character '" ++ [92; 117] ++ hex_fixed 4 c
      ++ lit "' in position " ++ lit (pretty start) ++ lit ": surrogates not allowed"
  | _ =>
      lit "'utf-8' codec can't encode characters in position " ++ lit (pretty start)
      ++ lit "-" ++ lit (pretty (start + length run - 1)%nat)
      ++ lit ": surrogates not allowed"
  end.

(** The first surrogate of [p] that is not an escaped byte, with the run of
    surrogates that starts there. *)
Fixpoint encode_error_from (start : nat) (p : str) : option exn :=
  match p with
  | [] => None
  | c :: t =>
      if surrogate c && negb (escaped_byte c)
      then Some (Exn UnicodeEncodeError
                   (encode_error_text start (take_while surrogate p)))
      else encode_error_from (S start) t
  end.

(** Why the interpreter refuses the path [p] before it calls the system, if
    it does: the path does not encode, or it holds a null character. *)
Definition arg_error (p : str) : option exn :=
  match encode_error_from 0 p with
  | Some e => Some e
  | None =>
      if existsb (N.eqb 0) p then Some (Exn ValueError (lit "embedded null byte"))
      else None
  end.

(** The path is longer than [PATH_MAX] allows, or has a component of more
    than [NAME_MAX] bytes. *)
Definition too_long (p : str) : bool :=
  (PATH_MAX <=? byte_length p)
  || existsb (fun n => NAME_MAX <? byte_length n) (components p).

(** Why the path [p] cannot name a new node, if it cannot. *)
Definition path_error (p : str) : option exn :=
  match arg_error p with
  | Some e => Some e
  | None => if too_long p then Some (ENAMETOOLONG p) else None
  end.

(** [os.path.join(a, b)] of posixpath. *)
Definition os_path_join (a b : str) : str :=
  match b with
  | c :: _ =>
      if is_slash c then b
      else match last a with
           | None => a ++ b
           | Some l => if is_slash l then a ++ b else a ++ [slash] ++ b
           end
  | [] =>
      match last a with
      | None => a ++ b
      | Some l => if is_slash l then a ++ b else a ++ [slash] ++ b
      end
  end.

(** [os.path.dirname(p)] of posixpath: the part up to the last slash, its
    trailing slashes removed unless it consists of slashes only. *)
Definition dirname (p : str) : str :=
  let head := rev (drop_while (fun c => negb (is_slash c)) (rev p)) in
  if forallb is_slash head then head
  else rev (drop_while is_slash (rev head)).

(** The directories [os.makedirs(d)] visits: every proper prefix of [d] that
    ends before a slash, then [d] itself. *)
Fixpoint dir_chain_from (acc rest : str) : list str :=
  match rest with
  | [] => [acc]
  | c :: rest' =>
      (if is_slash c
       then match last acc with
            | None => []
            | Some l => if is_slash l then [] else [acc]
            end
       else [])
      ++ dir_chain_from (acc ++ [c]) rest'
  end.

Definition dir_chain (d : str) : list str := dir_chain_from [] d.

(** The directories on the way to [p], outermost first. *)
Definition dirs_to (p : str) : list str :=
  match dirname p with
  | [] => []
  | d => dir_chain d
  end.

(** The system walks to [p] through the directories [l]: the first of them
    that is a file, or is missing, stops the walk. *)
Fixpoint walk_dirs (m : gmap str node) (p : str) (l : list str) : option exn :=
  match l with
  | [] => None
  | a :: rest =>
      match m !! a with
      | Some Dir => walk_dirs m p rest
      | Some _ => Some (ENOTDIR p)
      | None => Some (if too_long a then ENAMETOOLONG p else ENOENT p)
      end
  end.

(** What stands in the way of a node at the path [p], where there is none:
    the refusal of the interpreter, the error of the walk to its directory,
    or its own name; nothing when the node can be created. *)
Definition missing_error (m : gmap str node) (p : str) : option exn :=
  match arg_error p with
  | Some e => Some e
  | None =>
      if PATH_MAX <=? byte_length p then Some (ENAMETOOLONG p)
      else match walk_dirs m p (dirs_to p) with
           | Some e => Some e
           | None => if too_long p then Some (ENAMETOOLONG p) else None
           end
  end.

(** [os.path.exists(p)] *)
Definition os_path_exists (p : str) : M bool := fun w =>
  (inr (match p with [] => false | _ => bool_decide (is_Some (fs w !! p)) end), w).

(** [with open(p, "r", encoding="utf-8") as f: f.read()]: the text of the
    file with its line ends translated. *)
Definition read_file (p : str) : M str := fun w =>
  match p with
  | [] => (inl (ENOENT p), w)
  | _ => match fs w !! p with
         | Some (File c) => (inr (universal_newlines c), w)
         | Some (Binary why) => (inl (Exn UnicodeDecodeError why), w)
         | Some Dir => (inl (EISDIR p), w)
         | None =>
             (inl (match missing_error (fs w) p with
                   | Some e => e
                   | None => ENOENT p
                   end), w)
         end
  end.

(** [open(p, "w", encoding="utf-8")]: a file that is there is truncated;
    where there is none, one is created if nothing stands in the way. *)
Definition open_w (p : str) : M unit := fun w =>
  match p with
  | [] => (inl (ENOENT p), w)
  | _ =>
      match fs w !! p with
      | Some Dir => (inl (EISDIR p), w)
      | Some _ => (inr tt, set_fs (insert p (File [])) w)
      | None =>
          match missing_error (fs w) p with
          | Some e => (inl e, w)
          | None => (inr tt, set_fs (insert p (File [])) w)
          end
      end
  end.

(** [f.write(s)] on the file opened at [p].  The real call raises
    [UnicodeEncodeError] when [s] is not [encodable], which this definition
    leaves out: the hypotheses on [encodable] describe the runs that write
    such text only. *)
Definition f_write (p : str) (s : str) : M unit := fun w =>
  match fs w !! p with
  | Some (File c) => (inr tt, set_fs (insert p (File (c ++ s))) w)
  | _ => (inl (Exn OSError (lit "[Errno 9] Bad file descriptor")), w)
  end.

Definition is_file (n : option node) : bool :=
  match n with
  | Some (File _) => true
  | Some (Binary _) => true
  | _ => false
  end.

Definition add_dirs (l : list str) (m : gmap str node) : gmap str node :=
  fold_right (fun a m' => <[a := Dir]> m') m l.

(** [os.makedirs] along the chain [l], outermost directory first: a
    directory that exists is passed, one that is missing is made if its name
    is accepted.  A file where the last directory should be is reported as
    existing; a file on the way makes the [mkdir] of the next directory
    fail.  The directories made before a failure stay. *)
Fixpoint mkdir_each (l : list str) : M unit :=
  match l with
  | [] => ret tt
  | a :: rest => fun w =>
      match fs w !! a with
      | Some Dir => mkdir_each rest w
      | Some _ =>
          (inl (match rest with
                | [] => EEXIST a
                | b :: _ => ENOTDIR b
                end), w)
      | None =>
          match path_error a with
          | Some e => (inl e, w)
          | None => mkdir_each rest (set_fs (insert a Dir) w)
          end
      end
  end.

(** [os.makedirs(d, exist_ok=True)] *)
Definition makedirs (d : str) : M unit :=
  match d with
  | [] => raise (ENOENT d)
  | _ => mkdir_each (dir_chain d)
  end.

(** ** The script *)

Definition DEFAULT_OLLAMA_MODEL : str := lit "gemma3".

(** The dash between 5 and 7 is U+2013. *)
Definition DEFAULT_PROMPT : str :=
  lit "You are an assistant summarizing a YouTube transcript. "
  ++ lit "Please provide a concise summary of the video and list 5" ++ [8211]
  ++ lit "7 key takeaways as bullet points. "
  ++ lit "Here is the transcript:".

Definition OLLAMA_URL : str := lit "http://localhost:11434/api/generate".

Definition TRANSCRIPTS_DIR : str := lit "transcripts".
Definition SUMMARIES_DIR : str := lit "summaries".

Definition unknown_title : str := lit "unknown_title".

(** The collaborators, called through the log. *)
Definition ydl_extract_info (E : env) (url : str) : M pyval :=
  log_call (CallExtractInfo url) ;;; lift (extract_info E url).

Definition ytt_fetch (E : env) (video_id : str) : M (list snippet) :=
  log_call (CallFetch video_id) ;;; lift (fetch E video_id).

Definition requests_post (E : env) (url : str) (body : request) : M response :=
  log_call (CallPost url body) ;;; lift (post E url body).

(** Attribute access on a dynamically typed value. *)
Definition py_get (v : pyval) (key : str) (default : pyval) : M pyval :=
  match v with
  | PyDict d => ret (dict_get d key default)
  | _ => raise (no_attribute v "get")
  end.

Definition py_strip (v : pyval) : M str :=
  match v with
  | PyStr s => ret (strip s)
  | _ => raise (no_attribute v "strip")
  end.

(** [re.sub] refuses an argument that is not a string. *)
Definition as_str (v : pyval) : M str :=
  match v with
  | PyStr s => ret s
  | _ => raise (Exn TypeError
                  (lit "expected string or bytes-like object, got '"
                   ++ type_name v ++ lit "'"))
  end.

(** [get_video_title], lines 24-31. *)
Definition get_video_title (E : env) (video_url : str) : M str :=
  try_except
    (info <~ ydl_extract_info E video_url ;;
     title <~ py_get info (lit "title") (PyStr unknown_title) ;;
     name <~ as_str title ;;
     ret (sanitize_filename name))
    (fun e =>
       print ([9888; 65039] ++ lit " Failed to fetch video title: " ++ exn_str e) ;;;
       ret unknown_title).

(** The loop of lines 36-37. *)
Fixpoint write_snippets (filepath : str) (transcript : list snippet) : M unit :=
  match transcript with
  | [] => ret tt
  | snip :: rest =>
      f_write filepath (strip (text snip) ++ lit " ") ;;;
      write_snippets filepath rest
  end.

(** [save_transcript], lines 33-38. *)
Definition save_transcript (filepath : str) (transcript : list snippet) : M unit :=
  makedirs (dirname filepath) ;;;
  open_w filepath ;;;
  write_snippets filepath transcript ;;;
  print ([128196] ++ lit " Transcript saved as " ++ filepath).

(** [load_prompt], lines 40-47. *)
Definition load_prompt (prompt_file : str) : M str :=
  try_except
    (c <~ read_file prompt_file ;; ret (strip c))
    (fun e =>
       print ([9888; 65039] ++ lit " Failed to load prompt file: " ++ exn_str e) ;;;
       print (lit "Using default prompt instead.") ;;;
       ret DEFAULT_PROMPT).

(** [summarize_with_ollama], lines 49-61. *)
Definition summarize_with_ollama (E : env) (prompt transcript_text model : str) : M str :=
  let full_prompt := prompt ++ [10; 10] ++ transcript_text in
  response <~ requests_post E OLLAMA_URL (Request model full_prompt false) ;;
  if (status_code response =? 200)%Z then
    result <~ lift (resp_json response) ;;
    r <~ py_get result (lit "response") (PyStr []) ;;
    py_strip r
  else
    raise (Exn RuntimeError (lit "Ollama request failed: " ++ resp_text response)).

Definition transcript_path (video_title : str) : str :=
  os_path_join TRANSCRIPTS_DIR (video_title ++ lit "_transcript.txt").

Definition summary_path (video_title ollama_model : str) : str :=
  os_path_join SUMMARIES_DIR
    (video_title ++ lit "_summary_" ++ ollama_model ++ lit ".txt").

(** Lines 79-91 of [main]: reuse the transcript file or fetch and save it,
    then read it. *)
Definition fetch_or_reuse_transcript (E : env) (video_id video_title : str) : M str :=
  let transcript_path := transcript_path video_title in
  found <~ os_path_exists transcript_path ;;
  (if found : bool then
     print ([128193] ++ lit " Found existing transcript: " ++ transcript_path)
   else
     print ([9203] ++ lit " Fetching transcript...") ;;;
     fetched_transcript <~ ytt_fetch E video_id ;;
     print ([9989] ++ lit " Retrieved "
            ++ lit (pretty (length fetched_transcript))
            ++ lit " transcript snippets.") ;;;
     save_transcript transcript_path fetched_transcript) ;;;
  read_file transcript_path.

(** Line 94: [load_prompt(prompt_file) if prompt_file else DEFAULT_PROMPT];
    [None] and the empty string are both false. *)
Definition choose_prompt (prompt_file : option str) : M str :=
  match prompt_file with
  | Some (c :: p) => load_prompt (c :: p)
  | Some [] => ret DEFAULT_PROMPT
  | None => ret DEFAULT_PROMPT
  end.

(** Lines 101-105 of [main]. *)
Definition write_summary (video_title ollama_model summary : str) : M unit :=
  let summary_path := summary_path video_title ollama_model in
  makedirs (dirname summary_path) ;;;
  open_w summary_path ;;;
  f_write summary_path summary ;;;
  print ([10; 9989] ++ lit " Summary saved as " ++ summary_path).

Definition video_url_of (video_id : str) : str :=
  lit "https://www.youtube.com/watch?v=" ++ video_id.

Definition underscores_to_spaces (s : str) : str :=
  List.map (fun c => if c =? 95 then 32 else c) s.

(** Lines 96-105 of [main]: ask the model, print and save the summary. *)
Definition summarize_and_save (E : env) (video_title ollama_model prompt
    transcript_text : str) : M unit :=
  print ([10; 129504] ++ lit " Sending transcript to Ollama (" ++ ollama_model
         ++ lit ") for summarization...") ;;;
  summary <~ summarize_with_ollama E prompt transcript_text ollama_model ;;
  print ([10; 128221] ++ lit " Summary:" ++ [10]) ;;;
  print summary ;;;
  write_summary video_title ollama_model summary.

(** The body of the [try] of [main], lines 75-105. *)
Definition main_try (E : env) (video_id : str) (prompt_file : option str)
    (ollama_model : str) : M unit :=
  let video_url := video_url_of video_id in
  print ([128269] ++ lit " Fetching title for video: " ++ video_url) ;;;
  video_title <~ get_video_title E video_url ;;
  print ([127916] ++ lit " Video Title: " ++ underscores_to_spaces video_title) ;;;
  transcript_text <~ fetch_or_reuse_transcript E video_id video_title ;;
  print ([10; 128229] ++ lit " Loading prompt...") ;;;
  prompt <~ choose_prompt prompt_file ;;
  summarize_and_save E video_title ollama_model prompt transcript_text.

Definition error_prefix : str := [10060] ++ lit " Error: ".

Definition usage : str :=
  lit "Usage: python youtube_transcript_summarizer.py <video_id> [prompt_file] [ollama_model]".

(** Lines 68-70: the arguments of the run. *)
Definition video_id_of (argv : list str) : str := nth 1 argv [].

Definition prompt_file_of (argv : list str) : option str :=
  if (3 <=? length argv)%nat then Some (nth 2 argv []) else None.

Definition model_of (argv : list str) : str :=
  if (4 <=? length argv)%nat then nth 3 argv [] else DEFAULT_OLLAMA_MODEL.

(** [main], lines 63-108, on [sys.argv]; the result is the exit status of the
    process and the world it leaves. *)
Definition main (E : env) (argv : list str) (w : world) : Z * world :=
  if (length argv <? 2)%nat then
    (1%Z, snd (print usage w))
  else
    (0%Z,
     snd (try_except
            (main_try E (video_id_of argv) (prompt_file_of argv) (model_of argv))
            (fun e => print (error_prefix ++ exn_str e)) w)).

(** ** Scenarios used below *)

Definition world0 : world := World ∅ [] [].

(** The body [{"response": reply}] as text, and as [json()] decodes it. *)
Definition json_text (reply : str) : str :=
  lit "{" ++ [34] ++ lit "response" ++ [34] ++ lit ": " ++ [34] ++ reply ++ [34] ++ lit "}".

Definition talk_info : pyval :=
  PyDict [(lit "title", PyStr (lit "My Talk: part 1"))].

Definition talk_snippets : list snippet :=
  [Snippet (lit " hi "); Snippet (lit "there")].

(** A video with a title and two snippets; the endpoint answers 200 with
    [reply] in the response field. *)
Definition env_ok (reply : str) : env :=
  Env (fun _ => inr talk_info)
      (fun _ => inr talk_snippets)
      (fun _ _ => inr (Response 200 (json_text reply)
                         (inr (PyDict [(lit "response", PyStr reply)])))).

(** The same video; the endpoint answers 200 with an object that has no
    response field. *)
Definition env_no_field : env :=
  Env (fun _ => inr talk_info)
      (fun _ => inr talk_snippets)
      (fun _ _ => inr (Response 200 (lit "{}") (inr (PyDict [])))).

(** The same video; the endpoint answers 500 with the body ["boom"]. *)
Definition boom : str := [34] ++ lit "boom" ++ [34].

Definition env_500 : env :=
  Env (fun _ => inr talk_info)
      (fun _ => inr talk_snippets)
      (fun _ _ => inr (Response 500 boom (inr (PyStr (lit "boom"))))).



(** A video whose title tries to leave the cache directory. *)
Definition env_slash_title : env :=
  Env (fun _ => inr (PyDict [(lit "title", PyStr (lit "../../etc/passwd"))]))
      (fun _ => inr talk_snippets)
      (fun _ _ => inr (Response 200 (json_text (lit "hello"))
                         (inr (PyDict [(lit "response", PyStr (lit "hello"))])))).

Definition talk_title : str := lit "My_Talk_part_1".

Definition argv0 : list str := [lit "prog"; lit "abc123"].

(** A video whose title is 300 letters long: the name of its transcript
    file has more than [NAME_MAX] bytes. *)
Definition long_title : str := repeat 97 300.

Definition env_long_title : env :=
  Env (fun _ => inr (PyDict [(lit "title", PyStr long_title)]))
      (fun _ => inr talk_snippets)
      (fun _ _ => inr (Response 200 (json_text (lit "hello"))
                         (inr (PyDict [(lit "response", PyStr (lit "hello"))])))).

(** A video whose title is 80 times the character U+4E2D, of three bytes:
    the name of its transcript file has 255 bytes, the name of its summary
    file for the default model has 259. *)
Definition cjk_title : str := repeat 20013 80.

Definition env_cjk_title : env :=
  Env (fun _ => inr (PyDict [(lit "title", PyStr cjk_title)]))
      (fun _ => inr talk_snippets)
      (fun _ _ => inr (Response 200 (json_text (lit "hello"))
                         (inr (PyDict [(lit "response", PyStr (lit "hello"))])))).

Definition world_with_cjk : world :=
  World {[TRANSCRIPTS_DIR := Dir;
          transcript_path cjk_title := File (lit "old text")]} [] [].

(** A world with a transcript file saved with Windows line ends. *)
Definition world_with_crlf : world :=
  World {[transcript_path talk_title := File (lit "old" ++ [13; 10] ++ lit "text")]} [] [].

(** A world with a cached transcript and a prompt file, and a run that
    names the prompt file. *)
Definition world_with_prompt : world :=
  World {[transcript_path talk_title := File (lit "old text");
          lit "prompt.txt" := File (lit "  Summarise in one line:  ")]} [] [].

Definition argv_with_prompt : list str :=
  [lit "prog"; lit "abc123"; lit "prompt.txt"].

(** ** Notions used in the statements *)

(** The request that [summarize_with_ollama] sends, and the world after a
    call has been logged. *)
Definition ollama_request (prompt transcript_text model : str) : request :=
  Request model (prompt ++ [10; 10] ++ transcript_text) false.

Definition posted (w : world) (c : call) : world :=
  World (fs w) (stdout w) (calls w ++ [c]).

(** A title without any character of the class of line 22. *)
Definition clean (T : str) : Prop :=
  forallb (fun c => negb (forbidden c)) T = true.

(** What the loop of [save_transcript] writes: each trimmed text followed
    by one space. *)
Definition rendered (transcript : list snippet) : str :=
  concat (List.map (fun snip => strip (text snip) ++ lit " ") transcript).

(** [" ".join(l)]: the strings of [l] separated by single spaces, as the
    specification describes the transcript file. *)
Fixpoint join_space (l : list str) : str :=
  match l with
  | [] => []
  | [x] => x
  | x :: rest => x ++ lit " " ++ join_space rest
  end.

Definition trimmed_texts (transcript : list snippet) : list str :=
  List.map (fun snip => strip (text snip)) transcript.

(** The cases in which the prompt file gives nothing: the path is empty, or
    no text file is there. *)
Definition no_prompt_text (p : str) (m : gmap str node) : Prop :=
  p = [] \/ m !! p = None \/ m !! p = Some Dir \/ exists why, m !! p = Some (Binary why).

(** The texts that a run prints whatever happens later can be printed: the
    video identifier, the resolved title, the model name, and the error of
    the title lookup when it fails. *)
Definition run_text_ok (E : env) (argv : list str) (T : str) : Prop :=
  encodable (video_id_of argv) = true
  /\ encodable T = true
  /\ encodable (model_of argv) = true
  /\ (forall e, extract_info E (video_url_of (video_id_of argv)) = inl e ->
               encodable (exn_str e) = true).

(** The prompt file, when one is named, is named by a plain path. *)
Definition plain_prompt (argv : list str) : Prop :=
  forall p, prompt_file_of argv = Some p -> p <> [] -> plain p = true.

(** The transcript step can deliver: the file is there and is text, or it is
    absent, the service answers with text that can be written, the
    transcripts directory can be made and the file can be created. *)
Definition transcript_available (E : env) (video_id T : str) (m : gmap str node) : Prop :=
  (exists c, m !! transcript_path T = Some (File c))
  \/ (m !! transcript_path T = None
      /\ (exists tr, fetch E video_id = inr tr /\ encodable (rendered tr) = true)
      /\ is_file (m !! TRANSCRIPTS_DIR) = false
      /\ path_error (transcript_path T) = None).

(** The summary file can be written: its path is plain, the system accepts
    its name and the names of the directories on the way, no file sits
    where one of these directories is needed, and no directory sits at the
    path itself. *)
Definition summary_writable (T model : str) (m : gmap str node) : Prop :=
  plain (summary_path T model) = true
  /\ path_error (summary_path T model) = None
  /\ (forall a, In a (dir_chain (dirname (summary_path T model))) ->
                is_file (m !! a) = false /\ path_error a = None)
  /\ m !! summary_path T model <> Some Dir.

(** The run [main E argv w] posts [req] to the endpoint, as the last of its
    calls. *)
Definition sends (E : env) (argv : list str) (w : world) (req : request) : Prop :=
  exists before,
    calls (snd (main E argv w)) = calls w ++ before ++ [CallPost OLLAMA_URL req].

(** The endpoint answers [req] with status 200 and a JSON object whose
    response field is [found]: a string, or no field at all. *)
Definition answers_200 (E : env) (req : request) (found : option str) : Prop :=
  exists resp d,
    post E OLLAMA_URL req = inr resp
    /\ status_code resp = 200%Z
    /\ resp_json resp = inr (PyDict d)
    /\ dict_lookup d (lit "response") = option_map PyStr found.

(** The endpoint answers [req] with another status and the body [body]. *)
Definition answers_error (E : env) (req : request) (body : str) : Prop :=
  exists resp,
    post E OLLAMA_URL req = inr resp
    /\ status_code resp <> 200%Z
    /\ resp_text resp = body.

(** ** Notions for the effects of a run *)

(** [q] lies below [D]: it is [D] followed by anything. *)
Definition under (D q : str) : Prop := exists rest, q = D ++ rest.

(** [m'] comes from [m] by creating nodes or rewriting files at paths of [P]
    only: no path disappears, a directory stays a directory and a file stays
    a file. *)
Definition grows_on (P : str -> Prop) (m m' : gmap str node) : Prop :=
  forall q,
    (m !! q = Some Dir -> m' !! q = Some Dir)
    /\ (forall c, m !! q = Some (File c) -> exists c', m' !! q = Some (File c'))
    /\ (~ P q -> m' !! q = m !! q).

(** A computation that changes the files in that way only, whether it
    returns or raises. *)
Definition keeps {A} (P : str -> Prop) (c : M A) : Prop :=
  forall w, grows_on P (fs w) (fs (snd (c w))).

(** A computation that calls no collaborator. *)
Definition quiet {A} (c : M A) : Prop :=
  forall w, calls (snd (c w)) = calls w.

(** The paths a run may write for the title [T] and the model [model]. *)
Definition transcript_paths (T : str) (q : str) : Prop :=
  q = TRANSCRIPTS_DIR \/ q = transcript_path T.

Definition summary_paths (T model : str) (q : str) : Prop :=
  In q (dir_chain (dirname (summary_path T model))) \/ q = summary_path T model.

(** The calls a run can add to the log: the title lookup, then at most one
    fetch of the transcript, then at most one request to the model. *)
Definition new_calls_shape (video_id model : str) (new : list call) : Prop :=
  exists rest,
    new = CallExtractInfo (video_url_of video_id) :: rest
    /\ (rest = []
        \/ rest = [CallFetch video_id]
        \/ (exists prompt text,
               rest = [CallPost OLLAMA_URL (ollama_request prompt text model)])
        \/ (exists prompt text,
               rest = [CallFetch video_id;
                       CallPost OLLAMA_URL (ollama_request prompt text model)])).


Definition prompt_warning (e : exn) : str :=
  [9888; 65039] ++ lit " Failed to load prompt file: " ++ exn_str e.


(** * Theorems *)

Ltac case_lookup H :=
  match goal with
  | |- context [@lookup ?K ?V ?M ?I ?k ?m] =>
      let content := fresh "content" in
      let why := fresh "why" in
      destruct (@lookup K V M I k m) as [[content| |why]|] eqn:H
  end.

(** ** Strings *)

Section DropWhile.
Variable f : char -> bool.

Lemma drop_while_split (s : str) :
  exists pre, s = pre ++ drop_while f s /\ forallb f pre = true.
Proof.
  induction s as [|c t [pre [Heq Hpre]]]; simpl.
  - exists []. split; reflexivity.
  - destruct (f c) eqn:Hc.
    + exists (c :: pre). simpl. rewrite Hc, Hpre. split; [congruence | reflexivity].
    + exists []. split; reflexivity.
Qed.

Lemma drop_while_head (s : str) (c : char) :
  head (drop_while f s) = Some c -> f c = false.
Proof.
  induction s as [|a t IH]; simpl; [discriminate|].
  destruct (f a) eqn:Ha; [exact IH|].
  simpl. intros [= <-]. exact Ha.
Qed.

Lemma drop_while_id (s : str) :
  (forall c, head s = Some c -> f c = false) -> drop_while f s = s.
Proof.
  destruct s as [|a t]; [reflexivity|].
  intros H. simpl. rewrite (H a eq_refl). reflexivity.
Qed.
End DropWhile.

Lemma last_rev {A} (l : list A) : last (rev l) = head l.
Proof.
  destruct l as [|a l]; [reflexivity|].
  simpl. apply last_snoc.
Qed.

Lemma head_rev {A} (l : list A) : head (rev l) = last l.
Proof. rewrite <- (rev_involutive l) at 2. symmetry. apply last_rev. Qed.

Lemma forallb_rev {A} (g : A -> bool) (l : list A) :
  forallb g (rev l) = forallb g l.
Proof.
  induction l as [|a l IH]; [reflexivity|].
  simpl. rewrite forallb_app, IH. simpl. rewrite andb_true_r. apply andb_comm.
Qed.

Lemma head_app_cons {A} (l k : list A) (a : A) :
  head l = Some a -> head (l ++ k) = Some a.
Proof. destruct l; simpl; [discriminate | auto]. Qed.

(** [strip] cuts a run of whitespace at each end and nothing else. *)
Lemma strip_split (s : str) :
  exists pre post,
    s = pre ++ strip s ++ post
    /\ forallb isspace pre = true /\ forallb isspace post = true.
Proof.
  unfold strip, rstrip, lstrip.
  destruct (drop_while_split isspace s) as [pre [H1 Hpre]].
  destruct (drop_while_split isspace (rev (drop_while isspace s))) as [q [H2 Hq]].
  exists pre, (rev q). repeat split; [|exact Hpre|rewrite forallb_rev; exact Hq].
  rewrite <- rev_app_distr, <- H2, rev_involutive. exact H1.
Qed.

Lemma strip_last (s : str) (c : char) :
  last (strip s) = Some c -> isspace c = false.
Proof.
  unfold strip, rstrip. rewrite last_rev. apply drop_while_head.
Qed.

Lemma strip_head (s : str) (c : char) :
  head (strip s) = Some c -> isspace c = false.
Proof.
  unfold strip, rstrip, lstrip. intros H.
  destruct (drop_while_split isspace (rev (drop_while isspace s))) as [q [H2 _]].
  apply (f_equal (@rev char)) in H2. rewrite rev_involutive, rev_app_distr in H2.
  apply (drop_while_head isspace s). rewrite H2.
  apply head_app_cons. exact H.
Qed.

Lemma strip_id (s : str) :
  (forall c, head s = Some c -> isspace c = false) ->
  (forall c, last s = Some c -> isspace c = false) ->
  strip s = s.
Proof.
  intros Hh Hl. unfold strip, rstrip, lstrip.
  rewrite (drop_while_id isspace s Hh).
  rewrite drop_while_id; [apply rev_involutive|].
  intros c. rewrite head_rev. apply Hl.
Qed.

Lemma replace_space_char (x : char) :
  forbidden x = false ->
  let c := if x =? 32 then 95 else x in forbidden c = false /\ c <> 32.
Proof.
  intros Hx. simpl. destruct (x =? 32) eqn:E.
  - split; [reflexivity | discriminate].
  - split; [exact Hx | apply N.eqb_neq; exact E].
Qed.

Lemma replace_space_keeps (x : char) :
  isspace x = false -> (if x =? 32 then 95 else x) = x.
Proof.
  intros Hx. destruct (x =? 32) eqn:E; [|reflexivity].
  apply N.eqb_eq in E. subst x. discriminate Hx.
Qed.

Lemma sanitize_filename_chars (name : str) (c : char) :
  In c (sanitize_filename name) -> forbidden c = false /\ c <> 32.
Proof.
  unfold sanitize_filename, replace_space. intros Hc.
  apply in_map_iff in Hc. destruct Hc as [x [<- Hx]].
  apply replace_space_char.
  destruct (strip_split (re_sub_forbidden name)) as [pre [post [Heq _]]].
  assert (Hin : In x (re_sub_forbidden name)).
  { rewrite Heq. apply in_or_app. right. apply in_or_app. left. exact Hx. }
  unfold re_sub_forbidden in Hin. apply filter_In in Hin.
  destruct Hin as [_ Hn]. apply negb_true_iff in Hn. exact Hn.
Qed.

Lemma head_map {A B} (g : A -> B) (l : list A) (b : B) :
  head (List.map g l) = Some b -> exists a, head l = Some a /\ b = g a.
Proof. destruct l as [|a l]; simpl; [discriminate|]. intros [= <-]. eauto. Qed.

Lemma last_map {A B} (g : A -> B) (l : list A) (b : B) :
  last (List.map g l) = Some b -> exists a, last l = Some a /\ b = g a.
Proof.
  rewrite <- !head_rev, <- map_rev. apply head_map.
Qed.

Lemma sanitize_filename_head (name : str) (c : char) :
  head (sanitize_filename name) = Some c -> isspace c = false.
Proof.
  unfold sanitize_filename, replace_space. intros H.
  apply head_map in H. destruct H as [x [Hx ->]].
  apply strip_head in Hx.
  rewrite replace_space_keeps; assumption.
Qed.

Lemma sanitize_filename_last (name : str) (c : char) :
  last (sanitize_filename name) = Some c -> isspace c = false.
Proof.
  unfold sanitize_filename, replace_space. intros H.
  apply last_map in H. destruct H as [x [Hx ->]].
  apply strip_last in Hx.
  rewrite replace_space_keeps; assumption.
Qed.

Lemma filter_all {A} (g : A -> bool) (l : list A) :
  (forall x, In x l -> g x = true) -> List.filter g l = l.
Proof.
  induction l as [|a l IH]; intros H; [reflexivity|].
  simpl. rewrite (H a (or_introl eq_refl)). f_equal.
  apply IH. intros x Hx. apply H. right. exact Hx.
Qed.

Lemma map_all {A} (g : A -> A) (l : list A) :
  (forall x, In x l -> g x = x) -> List.map g l = l.
Proof.
  induction l as [|a l IH]; intros H; [reflexivity|].
  simpl. rewrite (H a (or_introl eq_refl)). f_equal.
  apply IH. intros x Hx. apply H. right. exact Hx.
Qed.

(** A string that is already clean is left alone. *)
Lemma sanitize_filename_fixed (r : str) :
  (forall c, In c r -> forbidden c = false /\ c <> 32) ->
  (forall c, head r = Some c -> isspace c = false) ->
  (forall c, last r = Some c -> isspace c = false) ->
  sanitize_filename r = r.
Proof.
  intros Hc Hh Hl. unfold sanitize_filename, re_sub_forbidden, replace_space.
  rewrite filter_all.
  2:{ intros x Hx. apply negb_true_iff. apply (Hc x Hx). }
  rewrite (strip_id r Hh Hl).
  apply map_all. intros x Hx.
  destruct (x =? 32) eqn:E; [|reflexivity].
  apply N.eqb_eq in E. destruct (Hc x Hx) as [_ Hne]. contradiction.
Qed.

(** C3, as the specification states it, at the title [" a"]: the leading
    space is dropped, not replaced by an underscore. *)
Lemma sanitize_filename_drops_outer_space :
  sanitize_filename (lit " a") = lit "a"
  /\ spec_sanitize (lit " a") = lit "_a"
  /\ sanitize_filename (lit " a") <> spec_sanitize (lit " a").
Proof. repeat split. discriminate. Qed.

Lemma forbidden_listed (c : char) :
  forbidden c = existsb (N.eqb c) [92; 47; 42; 63; 58; 34; 60; 62; 124].
Proof.
  unfold forbidden. cbn [existsb]. rewrite orb_false_r, <- !orb_assoc. reflexivity.
Qed.

(** C3, amended: [sanitize_filename] deletes every occurrence of the nine
    listed characters, drops the whitespace at both ends of what is left,
    and turns each space of the middle part into an underscore: what is
    left after the deletion splits into leading whitespace, a middle part
    that neither starts nor ends with whitespace, and trailing whitespace,
    and the result is the middle part with its spaces replaced.  The result
    holds none of the listed characters and no space, and neither starts
    nor ends with whitespace. *)
Theorem sanitize_filename_spec (name : str) :
  let listed := [92; 47; 42; 63; 58; 34; 60; 62; 124] in
  (exists pre mid post,
      List.filter (fun c => negb (existsb (N.eqb c) listed)) name = pre ++ mid ++ post
      /\ forallb isspace pre = true /\ forallb isspace post = true
      /\ (forall c, head mid = Some c -> isspace c = false)
      /\ (forall c, last mid = Some c -> isspace c = false)
      /\ sanitize_filename name = List.map (fun c => if c =? 32 then 95 else c) mid)
  /\ (forall c, In c (sanitize_filename name) -> ~ In c listed /\ c <> 32)
  /\ (forall c, head (sanitize_filename name) = Some c -> isspace c = false)
  /\ (forall c, last (sanitize_filename name) = Some c -> isspace c = false).
Proof.
  intros listed.
  assert (Hre : List.filter (fun c => negb (existsb (N.eqb c) listed)) name
                = re_sub_forbidden name).
  { unfold re_sub_forbidden. apply filter_ext. intros c.
    rewrite forbidden_listed. reflexivity. }
  split.
  { rewrite Hre.
    destruct (strip_split (re_sub_forbidden name)) as [pre [post [Heq [Hpre Hpost]]]].
    exists pre, (strip (re_sub_forbidden name)), post.
    split; [exact Heq|]. split; [exact Hpre|]. split; [exact Hpost|].
    split; [apply strip_head|]. split; [apply strip_last | reflexivity]. }
  split.
  { intros c Hc. destruct (sanitize_filename_chars name c Hc) as [Hf Hne].
    split; [|exact Hne]. intros Hin.
    rewrite forbidden_listed in Hf. fold listed in Hf.
    assert (Ht : existsb (N.eqb c) listed = true).
    { apply existsb_exists. exists c. split; [exact Hin | apply N.eqb_refl]. }
    congruence. }
  split; [apply sanitize_filename_head | apply sanitize_filename_last].
Qed.

(** C10: [sanitize_filename] is idempotent. *)
Theorem sanitize_filename_idempotent (s : str) :
  sanitize_filename (sanitize_filename s) = sanitize_filename s.
Proof.
  apply sanitize_filename_fixed.
  - apply sanitize_filename_chars.
  - apply sanitize_filename_head.
  - apply sanitize_filename_last.
Qed.

(** ** The title resolver *)

Lemma sanitize_unknown_title : sanitize_filename unknown_title = unknown_title.
Proof. reflexivity. Qed.

(** The value of [get_video_title] depends on the extractor's answer only;
    the world gains the logged call and, on failure, one warning. *)
Lemma get_video_title_run (E : env) (url : str) :
  exists title out,
    (forall w, get_video_title E url w
               = (inr title,
                  World (fs w) (stdout w ++ out) (calls w ++ [CallExtractInfo url])))
    /\ (title = unknown_title
        \/ exists d t, extract_info E url = inr (PyDict d)
                       /\ dict_lookup d (lit "title") = Some (PyStr t)
                       /\ title = sanitize_filename t)
    /\ (forall e, extract_info E url = inl e -> title = unknown_title)
    /\ (forall d, extract_info E url = inr (PyDict d) ->
                  dict_lookup d (lit "title") = None -> title = unknown_title)
    /\ (forall d t, extract_info E url = inr (PyDict d) ->
                    dict_lookup d (lit "title") = Some (PyStr t) ->
                    title = sanitize_filename t /\ out = []).
Proof.
  unfold get_video_title, try_except, bind, ydl_extract_info, log_call, lift.
  destruct (extract_info E url) as [e|info] eqn:HE.
  { exists unknown_title. eexists. split; [intros w; simpl; reflexivity|].
    split; [left; reflexivity|]. repeat split; congruence. }
  destruct info as [| | | | |l|d];
    try (exists unknown_title; eexists; split; [intros w; simpl; reflexivity|];
         split; [left; reflexivity|]; repeat split; congruence).
  unfold py_get, dict_get.
  destruct (dict_lookup d (lit "title")) as [v|] eqn:Hd.
  2:{ exists unknown_title, []. split.
      - intros w. simpl. rewrite Hd. simpl. rewrite app_nil_r. reflexivity.
      - split; [left; reflexivity|]. repeat split; congruence. }
  destruct v as [| | | |t| |];
    try (exists unknown_title; eexists; split;
         [intros w; simpl; rewrite Hd; simpl; reflexivity|];
         split; [left; reflexivity|]; repeat split; congruence).
  exists (sanitize_filename t), []. split.
  - intros w. simpl. rewrite Hd. simpl. rewrite app_nil_r. reflexivity.
  - split; [right; exists d, t; auto|]. repeat split; congruence.
Qed.


(** ** The prompt loader *)

Lemma read_file_world (p : str) (w : world) : snd (read_file p w) = w.
Proof.
  unfold read_file. destruct p as [|a p]; [reflexivity|].
  case_lookup H; reflexivity.
Qed.

Lemma read_file_ok (p c : str) (w : world) :
  p <> [] -> fs w !! p = Some (File c) ->
  read_file p w = (inr (universal_newlines c), w).
Proof.
  intros Hp H. unfold read_file. destruct p as [|a p]; [congruence|].
  rewrite H. reflexivity.
Qed.

Lemma read_file_dir (p : str) (w : world) :
  p <> [] -> fs w !! p = Some Dir -> read_file p w = (inl (EISDIR p), w).
Proof.
  intros Hp H. unfold read_file. destruct p as [|a p]; [congruence|].
  rewrite H. reflexivity.
Qed.

Lemma read_file_binary (p why : str) (w : world) :
  p <> [] -> fs w !! p = Some (Binary why) ->
  read_file p w = (inl (Exn UnicodeDecodeError why), w).
Proof.
  intros Hp H. unfold read_file. destruct p as [|a p]; [congruence|].
  rewrite H. reflexivity.
Qed.

(** Reading returns exactly when a text file is there. *)
Lemma read_file_cases (p : str) (w : world) :
  (exists c, p <> [] /\ fs w !! p = Some (File c)
             /\ read_file p w = (inr (universal_newlines c), w))
  \/ (exists e, (forall c, p <> [] -> fs w !! p <> Some (File c))
                /\ read_file p w = (inl e, w)).
Proof.
  unfold read_file. destruct p as [|a p].
  - right. eexists. split; [congruence | reflexivity].
  - case_lookup H.
    + left. exists content. split; [discriminate|]. split; reflexivity.
    + right. eexists. split; [congruence | reflexivity].
    + right. eexists. split; [congruence | reflexivity].
    + right. eexists. split; [congruence | reflexivity].
Qed.

Lemma load_prompt_run (p : str) (w : world) :
  exists prompt out,
    load_prompt p w = (inr prompt, World (fs w) (stdout w ++ out) (calls w))
    /\ (forall c, p <> [] -> fs w !! p = Some (File c) ->
                  prompt = strip (universal_newlines c) /\ out = [])
    /\ (forall e, fst (read_file p w) = inl e ->
                  prompt = DEFAULT_PROMPT
                  /\ out = [prompt_warning e; lit "Using default prompt instead."]).
Proof.
  unfold load_prompt, try_except, bind.
  destruct (read_file_cases p w) as [[c [Hp [Hc ->]]]|[e [Hn ->]]].
  - exists (strip (universal_newlines c)), []. split.
    + unfold ret. rewrite app_nil_r. destruct w; reflexivity.
    + split; [|discriminate].
      intros c' _ Hc'. rewrite Hc in Hc'. injection Hc' as ->. auto.
  - exists DEFAULT_PROMPT. eexists. split.
    + unfold print, ret. cbn [fs stdout calls]. rewrite <- app_assoc. reflexivity.
    + split.
      * intros c Hp Hc. destruct (Hn c Hp Hc).
      * intros e' [= <-]. split; reflexivity.
Qed.

Lemma no_prompt_text_raises (p : str) (w : world) :
  no_prompt_text p (fs w) -> exists e, fst (read_file p w) = inl e.
Proof.
  intros H. destruct (read_file_cases p w) as [[c [Hp [Hc _]]]|[e [_ ->]]];
    [|eexists; reflexivity].
  destruct H as [H|[H|[H|[why H]]]]; congruence.
Qed.

Lemma choose_prompt_run (prompt_file : option str) (w : world) :
  exists prompt out,
    choose_prompt prompt_file w
    = (inr prompt, World (fs w) (stdout w ++ out) (calls w))
    /\ (forall p c, prompt_file = Some p -> p <> [] ->
                    fs w !! p = Some (File c) -> prompt = strip (universal_newlines c))
    /\ (prompt_file = None -> prompt = DEFAULT_PROMPT)
    /\ (forall p, prompt_file = Some p -> no_prompt_text p (fs w) ->
                  prompt = DEFAULT_PROMPT).
Proof.
  destruct prompt_file as [[|a p]|]; simpl.
  - exists DEFAULT_PROMPT, []. unfold ret. rewrite app_nil_r.
    split; [destruct w; reflexivity|]. repeat split; congruence.
  - destruct (load_prompt_run (a :: p) w) as [prompt [out [Hrun [H1 H2]]]].
    exists prompt, out. split; [exact Hrun|].
    split; [|split; [discriminate|]].
    + intros p' c [= <-] Hne Hc. apply (H1 c Hne Hc).
    + intros p' [= <-] H. destruct (no_prompt_text_raises _ w H) as [e He].
      apply (H2 e He).
  - exists DEFAULT_PROMPT, []. unfold ret. rewrite app_nil_r.
    split; [destruct w; reflexivity|]. repeat split; congruence.
Qed.

(** C8: the prompt chosen on line 94 is the trimmed text of the prompt file,
    read in text mode, when a path is given and a text file is there, and
    the default prompt in every other case: no path, an empty path, a
    missing file, a directory, a file that is not valid UTF-8.  Choosing
    the prompt never raises and leaves the files alone. *)
Theorem choose_prompt_spec (prompt_file : option str) (w : world) :
  exists prompt w',
    choose_prompt prompt_file w = (inr prompt, w')
    /\ fs w' = fs w
    /\ (forall p c, prompt_file = Some p -> p <> [] ->
                    fs w !! p = Some (File c) -> prompt = strip (universal_newlines c))
    /\ (prompt_file = None -> prompt = DEFAULT_PROMPT)
    /\ (forall p, prompt_file = Some p ->
                  p = [] \/ fs w !! p = None \/ fs w !! p = Some Dir
                  \/ (exists why, fs w !! p = Some (Binary why)) ->
                  prompt = DEFAULT_PROMPT).
Proof.
  destruct (choose_prompt_run prompt_file w) as [prompt [out [Hrun H]]].
  exists prompt. eexists. split; [exact Hrun|]. split; [reflexivity | exact H].
Qed.

(** ** The summarizer client *)

Lemma summarize_non_200 (E : env) (prompt text model : str) (resp : response) (w : world) :
  post E OLLAMA_URL (ollama_request prompt text model) = inr resp ->
  status_code resp <> 200%Z ->
  summarize_with_ollama E prompt text model w
  = (inl (Exn RuntimeError (lit "Ollama request failed: " ++ resp_text resp)),
     posted w (CallPost OLLAMA_URL (ollama_request prompt text model))).
Proof.
  intros Hp Hs. unfold summarize_with_ollama, bind, requests_post, log_call, lift, bind.
  simpl. unfold ollama_request in Hp. simpl in Hp. rewrite Hp.
  apply Z.eqb_neq in Hs. rewrite Hs. reflexivity.
Qed.

Lemma summarize_200 (E : env) (prompt text model : str) (resp : response)
    (d : list (str * pyval)) (w : world) :
  post E OLLAMA_URL (ollama_request prompt text model) = inr resp ->
  status_code resp = 200%Z ->
  resp_json resp = inr (PyDict d) ->
  summarize_with_ollama E prompt text model w
  = (match dict_lookup d (lit "response") with
     | Some (PyStr r) => inr (strip r)
     | Some v => inl (no_attribute v "strip")
     | None => inr []
     end,
     posted w (CallPost OLLAMA_URL (ollama_request prompt text model))).
Proof.
  intros Hp Hs Hj. unfold summarize_with_ollama, bind, requests_post, log_call, lift, bind.
  simpl. unfold ollama_request in Hp. simpl in Hp. rewrite Hp, Hs. simpl.
  rewrite Hj. unfold py_get, dict_get, ret.
  destruct (dict_lookup d (lit "response")) as [[]|]; reflexivity.
Qed.

(** ** Paths *)

Lemma drop_while_app (f : char -> bool) (a b : str) :
  exists q, drop_while f (a ++ b) = q ++ drop_while f b.
Proof.
  induction a as [|c a [q IH]]; simpl.
  - exists []. reflexivity.
  - destruct (f c).
    + exists q. exact IH.
    + destruct (drop_while_split f b) as [pre [Hb _]].
      exists (c :: a ++ pre). simpl. rewrite <- app_assoc, <- Hb. reflexivity.
Qed.

Lemma drop_while_app_all (f : char -> bool) (a b : str) :
  forallb f a = true -> drop_while f (a ++ b) = drop_while f b.
Proof.
  induction a as [|c a IH]; simpl; [reflexivity|].
  intros H. apply andb_true_iff in H. destruct H as [Hc Ha].
  rewrite Hc. apply IH. exact Ha.
Qed.

Lemma drop_while_length (f : char -> bool) (s : str) :
  (length (drop_while f s) <= length s)%nat.
Proof.
  destruct (drop_while_split f s) as [pre [H _]].
  rewrite H at 2. rewrite length_app. lia.
Qed.

Lemma is_slash_forbidden (c : char) : is_slash c = true -> forbidden c = true.
Proof.
  unfold is_slash, slash. intros H. apply N.eqb_eq in H. subst c. reflexivity.
Qed.

Lemma clean_no_slash (T : str) :
  clean T -> forallb (fun c => negb (is_slash c)) T = true.
Proof.
  unfold clean. intros H. apply forallb_forall. intros c Hc.
  rewrite forallb_forall in H. specialize (H c Hc).
  destruct (is_slash c) eqn:E; [|reflexivity].
  rewrite (is_slash_forbidden c E) in H. discriminate.
Qed.

Lemma clean_sanitize (t : str) : clean (sanitize_filename t).
Proof.
  unfold clean. apply forallb_forall. intros c Hc.
  destruct (sanitize_filename_chars t c Hc) as [H _]. rewrite H. reflexivity.
Qed.

Lemma join_under (D x : str) (l : char) :
  last D = Some l -> is_slash l = false ->
  (forall c, head x = Some c -> is_slash c = false) ->
  os_path_join D x = D ++ slash :: x.
Proof.
  intros HD Hl Hx. unfold os_path_join. rewrite HD, Hl.
  destruct x as [|c x]; [reflexivity|].
  rewrite (Hx c eq_refl). reflexivity.
Qed.

Lemma head_clean_app (T s : str) (c0 : char) :
  clean T -> is_slash c0 = false ->
  forall c, head (T ++ c0 :: s) = Some c -> is_slash c = false.
Proof.
  intros HT H0 c. destruct T as [|t T]; simpl.
  - intros [= <-]. exact H0.
  - intros [= <-]. apply clean_no_slash in HT. simpl in HT.
    apply andb_true_iff in HT. destruct HT as [HT _].
    apply negb_true_iff in HT. exact HT.
Qed.

Lemma transcript_path_eq (T : str) :
  clean T ->
  transcript_path T = TRANSCRIPTS_DIR ++ slash :: T ++ lit "_transcript.txt".
Proof.
  intros HT. unfold transcript_path.
  apply (join_under TRANSCRIPTS_DIR _ 115); [reflexivity | reflexivity |].
  apply (head_clean_app T _ 95 HT). reflexivity.
Qed.

Lemma summary_path_eq (T model : str) :
  clean T ->
  summary_path T model
  = SUMMARIES_DIR ++ slash :: T ++ lit "_summary_" ++ model ++ lit ".txt".
Proof.
  intros HT. unfold summary_path.
  apply (join_under SUMMARIES_DIR _ 115); [reflexivity | reflexivity |].
  apply (head_clean_app T _ 95 HT). reflexivity.
Qed.

(** Below a directory [D] whose name does not end in a slash, [dirname]
    stays below [D] and is strictly shorter than the path. *)
Lemma dirname_under (D x : str) (l : char) :
  last D = Some l -> is_slash l = false ->
  exists z, dirname (D ++ slash :: x) = D ++ z
            /\ (length (D ++ z) < length (D ++ slash :: x))%nat.
Proof.
  intros HD Hl. apply last_Some in HD. destruct HD as [D0 ->].
  set (D := D0 ++ [l]). set (ns := fun c => negb (is_slash c)).
  assert (HrD : rev D = l :: rev D0) by (unfold D; rewrite rev_app_distr; reflexivity).
  assert (Hrev : rev (D ++ slash :: x) = rev x ++ slash :: rev D).
  { rewrite rev_app_distr. simpl. rewrite <- app_assoc. reflexivity. }
  destruct (drop_while_app ns (rev x) (slash :: rev D)) as [q Hq].
  simpl in Hq.
  destruct (drop_while_app is_slash q (slash :: rev D)) as [q' Hq'].
  simpl in Hq'. rewrite HrD in Hq'. simpl in Hq'. rewrite Hl in Hq'.
  rewrite <- HrD in Hq'.
  unfold dirname. fold ns. rewrite Hrev, Hq.
  assert (Hall : forallb is_slash (rev (q ++ slash :: rev D)) = false).
  { rewrite rev_app_distr. simpl. rewrite rev_involutive. unfold D.
    rewrite !forallb_app. simpl. rewrite Hl.
    rewrite andb_false_r. reflexivity. }
  rewrite Hall, rev_involutive, Hq', rev_app_distr, rev_involutive.
  exists (rev q'). split; [reflexivity|].
  rewrite <- (length_rev (D ++ slash :: x)), Hrev.
  assert (Hlen : (length (q' ++ rev D) < length (q ++ slash :: rev D))%nat).
  { rewrite <- Hq'.
    pose proof (drop_while_head ns (rev x ++ slash :: rev D)) as Hh.
    simpl in Hq. rewrite Hq in Hh.
    destruct q as [|c q0].
    - simpl. pose proof (drop_while_length is_slash (rev D)). lia.
    - simpl in Hh. specialize (Hh c eq_refl). unfold ns in Hh.
      apply negb_false_iff in Hh. simpl. rewrite Hh.
      pose proof (drop_while_length is_slash (q0 ++ slash :: rev D)). lia. }
  pose proof (drop_while_length ns (rev x ++ slash :: rev D)) as Hle.
  simpl in Hq. rewrite Hq in Hle.
  rewrite !length_app in Hlen, Hle. rewrite !length_app. simpl in *.
  rewrite ?length_rev in Hlen. rewrite ?length_rev in Hle. rewrite ?length_rev.
  lia.
Qed.

Lemma dirname_transcript_path (T : str) :
  clean T -> dirname (transcript_path T) = TRANSCRIPTS_DIR.
Proof.
  intros HT. rewrite (transcript_path_eq T HT).
  unfold dirname.
  assert (Hrev : rev (TRANSCRIPTS_DIR ++ slash :: T ++ lit "_transcript.txt")
                 = rev (T ++ lit "_transcript.txt") ++ slash :: rev TRANSCRIPTS_DIR).
  { rewrite rev_app_distr. simpl. rewrite <- app_assoc. reflexivity. }
  rewrite Hrev, drop_while_app_all.
  - reflexivity.
  - rewrite forallb_rev, forallb_app, (clean_no_slash T HT). reflexivity.
Qed.

Lemma dir_chain_from_prefix (rest acc a : str) :
  In a (dir_chain_from acc rest) ->
  (exists z, acc ++ rest = a ++ z) /\ (acc ++ rest <> [] -> a <> []).
Proof.
  revert acc. induction rest as [|c rest IH]; intros acc; simpl.
  - intros [<-|[]]. split; [exists []; reflexivity|].
    rewrite app_nil_r. auto.
  - intros H. apply in_app_or in H. destruct H as [H|H].
    + destruct (is_slash c); [|destruct H].
      destruct (last acc) as [l|] eqn:Hl; [|destruct H].
      destruct (is_slash l); [destruct H|].
      destruct H as [<-|[]]. split; [eexists; reflexivity|].
      intros _ ->. discriminate.
    + apply IH in H. rewrite <- app_assoc in H. exact H.
Qed.

Lemma dir_chain_from_self (rest acc : str) :
  In (acc ++ rest) (dir_chain_from acc rest).
Proof.
  revert acc. induction rest as [|c rest IH]; intros acc; simpl.
  - left. symmetry. apply app_nil_r.
  - apply in_or_app. right.
    replace (acc ++ c :: rest) with ((acc ++ [c]) ++ rest)
      by (rewrite <- app_assoc; reflexivity).
    apply IH.
Qed.

Lemma dir_chain_self (d : str) : In d (dir_chain d).
Proof. apply (dir_chain_from_self d []). Qed.

Lemma dir_chain_prefix (d a : str) :
  d <> [] -> In a (dir_chain d) -> a <> [] /\ exists z, d = a ++ z.
Proof.
  intros Hd Ha. destruct (dir_chain_from_prefix d [] a Ha) as [Hz Hne].
  split; [apply Hne; exact Hd | exact Hz].
Qed.

Lemma head_prefix (a z : str) (c : char) :
  a <> [] -> head (a ++ z) = Some c -> head a = Some c.
Proof. destruct a; [congruence | simpl; auto]. Qed.

(** ** Files *)

Lemma lookup_add_dirs_in (l : list str) (m : gmap str node) (p : str) :
  In p l -> add_dirs l m !! p = Some Dir.
Proof.
  induction l as [|a l IH]; simpl; [intros []|].
  intros H. destruct (decide (a = p)) as [->|Hne].
  - apply lookup_insert_eq.
  - rewrite lookup_insert_ne by exact Hne. destruct H; [contradiction | auto].
Qed.

Lemma lookup_add_dirs_out (l : list str) (m : gmap str node) (p : str) :
  ~ In p l -> add_dirs l m !! p = m !! p.
Proof.
  induction l as [|a l IH]; simpl; [reflexivity|].
  intros H. rewrite lookup_insert_ne by (intros ->; apply H; left; reflexivity).
  apply IH. intros Hin. apply H. right. exact Hin.
Qed.

Lemma lookup_add_dirs_dir (l : list str) (m : gmap str node) (p : str) :
  m !! p = Some Dir -> add_dirs l m !! p = Some Dir.
Proof.
  intros H. destruct (in_dec (fun a b : list N => decide (a = b)) p l) as [Hin|Hout].
  - apply lookup_add_dirs_in. exact Hin.
  - rewrite lookup_add_dirs_out; assumption.
Qed.

Lemma add_dirs_insert (l : list str) (a : str) (m : gmap str node) :
  add_dirs l (<[a := Dir]> m) = <[a := Dir]> (add_dirs l m).
Proof.
  induction l as [|b l IH]; [reflexivity|].
  cbn [add_dirs fold_right]. fold (add_dirs l (<[a := Dir]> m)).
  fold (add_dirs l m). rewrite IH.
  destruct (decide (b = a)) as [->|Hne]; [reflexivity|].
  apply insert_insert_ne. exact Hne.
Qed.

Lemma add_dirs_id (l : list str) (m : gmap str node) :
  (forall a, In a l -> m !! a = Some Dir) -> add_dirs l m = m.
Proof.
  induction l as [|a l IH]; intros H; [reflexivity|].
  simpl. rewrite IH by (intros x Hx; apply H; right; exact Hx).
  apply insert_id. apply H. left. reflexivity.
Qed.

(** *** How computations change the files and the call log *)

Lemma grows_on_refl (P : str -> Prop) (m : gmap str node) : grows_on P m m.
Proof. intros q. repeat split; eauto. Qed.

Lemma grows_on_trans (P : str -> Prop) (m1 m2 m3 : gmap str node) :
  grows_on P m1 m2 -> grows_on P m2 m3 -> grows_on P m1 m3.
Proof.
  intros H12 H23 q. destruct (H12 q) as [Hd [Hf Hu]]. destruct (H23 q) as [Hd' [Hf' Hu']].
  split; [auto|]. split.
  - intros c Hc. destruct (Hf c Hc) as [c' Hc']. apply (Hf' c' Hc').
  - intros Hq. rewrite (Hu' Hq). apply Hu. exact Hq.
Qed.

Lemma grows_on_weaken (P Q : str -> Prop) (m m' : gmap str node) :
  (forall q, P q -> Q q) -> grows_on P m m' -> grows_on Q m m'.
Proof.
  intros HPQ H q. destruct (H q) as [Hd [Hf Hu]].
  split; [exact Hd|]. split; [exact Hf|]. intros Hq. apply Hu. auto.
Qed.

Lemma grows_on_insert_file (P : str -> Prop) (m : gmap str node) (p s : str) :
  P p -> m !! p <> Some Dir -> grows_on P m (<[p := File s]> m).
Proof.
  intros HP Hn q. destruct (decide (p = q)) as [<-|Hne].
  - rewrite lookup_insert_eq. split; [intros H; contradiction|].
    split; [eauto | intros H; contradiction].
  - rewrite lookup_insert_ne by exact Hne. repeat split; eauto.
Qed.

Lemma grows_on_insert_dir (P : str -> Prop) (m : gmap str node) (p : str) :
  P p -> m !! p = None -> grows_on P m (<[p := Dir]> m).
Proof.
  intros HP Hn q. destruct (decide (p = q)) as [<-|Hne].
  - rewrite lookup_insert_eq, Hn. split; [discriminate|].
    split; [discriminate | intros H; contradiction].
  - rewrite lookup_insert_ne by exact Hne. repeat split; eauto.
Qed.

Section Closure.
Context {A B : Type}.
Variable P : str -> Prop.

Lemma keeps_bind (c : M A) (k : A -> M B) :
  keeps P c -> (forall a, keeps P (k a)) -> keeps P (bind c k).
Proof.
  intros Hc Hk w. unfold bind. specialize (Hc w).
  destruct (c w) as [[e|a] w1]; [exact Hc|].
  apply (grows_on_trans P _ (fs w1)); [exact Hc | apply Hk].
Qed.

Lemma quiet_bind (c : M A) (k : A -> M B) :
  quiet c -> (forall a, quiet (k a)) -> quiet (bind c k).
Proof.
  intros Hc Hk w. unfold bind. specialize (Hc w).
  destruct (c w) as [[e|a] w1]; [exact Hc|].
  rewrite (Hk a w1). exact Hc.
Qed.
End Closure.

Lemma keeps_weaken {A} (P Q : str -> Prop) (c : M A) :
  (forall q, P q -> Q q) -> keeps P c -> keeps Q c.
Proof. intros HPQ H w. apply (grows_on_weaken P Q _ _ HPQ (H w)). Qed.

Lemma keeps_pure {A} (P : str -> Prop) (c : M A) :
  (forall w, fs (snd (c w)) = fs w) -> keeps P c.
Proof. intros H w. rewrite H. apply grows_on_refl. Qed.

Lemma keeps_print (P : str -> Prop) (s : str) : keeps P (print s).
Proof. intros w. apply grows_on_refl. Qed.

Lemma quiet_print (s : str) : quiet (print s).
Proof. intros w. reflexivity. Qed.

Lemma keeps_read_file (P : str -> Prop) (p : str) : keeps P (read_file p).
Proof. intros w. rewrite read_file_world. apply grows_on_refl. Qed.

Lemma quiet_read_file (p : str) : quiet (read_file p).
Proof. intros w. rewrite read_file_world. reflexivity. Qed.

(** *** Making directories *)

Lemma mkdir_each_ok (l : list str) :
  forall w : world,
    (forall a, In a l -> is_file (fs w !! a) = false /\ path_error a = None) ->
    mkdir_each l w = (inr tt, set_fs (add_dirs l) w).
Proof.
  induction l as [|a l IH]; intros w H.
  - destruct w; reflexivity.
  - cbn [mkdir_each]. destruct (H a (or_introl eq_refl)) as [Hf Hp].
    case_lookup Ha.
    + discriminate Hf.
    + rewrite IH by (intros b Hb; apply H; right; exact Hb).
      unfold set_fs. cbn [add_dirs fold_right]. fold (add_dirs l (fs w)).
      rewrite insert_id; [reflexivity|].
      apply lookup_add_dirs_dir. exact Ha.
    + discriminate Hf.
    + rewrite Hp. rewrite IH.
      * unfold set_fs. cbn [fs stdout calls add_dirs fold_right].
        fold (add_dirs l (<[a := Dir]> (fs w))). fold (add_dirs l (fs w)).
        rewrite add_dirs_insert. reflexivity.
      * intros b Hb. destruct (H b (or_intror Hb)) as [Hfb Hpb].
        split; [|exact Hpb]. unfold set_fs. cbn [fs].
        destruct (decide (a = b)) as [<-|Hne].
        -- rewrite lookup_insert_eq. reflexivity.
        -- rewrite lookup_insert_ne by exact Hne. exact Hfb.
Qed.

Lemma makedirs_ok (d : str) (w : world) :
  d <> [] ->
  (forall a, In a (dir_chain d) -> is_file (fs w !! a) = false /\ path_error a = None) ->
  makedirs d w = (inr tt, set_fs (add_dirs (dir_chain d)) w).
Proof.
  intros Hd Hc. unfold makedirs. destruct d as [|c d]; [congruence|].
  apply mkdir_each_ok. exact Hc.
Qed.

Lemma keeps_mkdir_each (l : list str) : keeps (fun q => In q l) (mkdir_each l).
Proof.
  induction l as [|a l IH]; intros w.
  - apply grows_on_refl.
  - cbn [mkdir_each].
    assert (Hrest : forall w', grows_on (fun q => In q (a :: l)) (fs w')
                                 (fs (snd (mkdir_each l w')))).
    { intros w'. apply (grows_on_weaken (fun q => In q l)); [|apply IH].
      intros q Hq. right. exact Hq. }
    case_lookup Ha.
    + apply grows_on_refl.
    + apply Hrest.
    + apply grows_on_refl.
    + destruct (path_error a); [apply grows_on_refl|].
      apply (grows_on_trans _ _ (fs (set_fs (insert a Dir) w))).
      * unfold set_fs. cbn [fs].
        apply grows_on_insert_dir; [left; reflexivity | exact Ha].
      * apply Hrest.
Qed.

Lemma quiet_mkdir_each (l : list str) : quiet (mkdir_each l).
Proof.
  induction l as [|a l IH]; intros w; [reflexivity|].
  cbn [mkdir_each]. case_lookup Ha; try reflexivity.
  - apply IH.
  - destruct (path_error a); [reflexivity|]. rewrite IH. reflexivity.
Qed.

Lemma keeps_makedirs (d : str) : keeps (fun q => In q (dir_chain d)) (makedirs d).
Proof.
  unfold makedirs. destruct d as [|c d].
  - intros w. apply grows_on_refl.
  - apply keeps_mkdir_each.
Qed.

Lemma quiet_makedirs (d : str) : quiet (makedirs d).
Proof.
  unfold makedirs. destruct d as [|c d]; [intros w; reflexivity|].
  apply quiet_mkdir_each.
Qed.

(** *** Opening and writing *)

Lemma walk_dirs_none (m : gmap str node) (p : str) (l : list str) :
  (forall a, In a l -> m !! a = Some Dir) -> walk_dirs m p l = None.
Proof.
  induction l as [|a l IH]; intros H; [reflexivity|].
  cbn [walk_dirs]. rewrite (H a (or_introl eq_refl)). apply IH.
  intros b Hb. apply H. right. exact Hb.
Qed.

Lemma path_error_none (p : str) :
  path_error p = None -> arg_error p = None /\ too_long p = false.
Proof.
  unfold path_error. destruct (arg_error p); [discriminate|].
  destruct (too_long p); [discriminate | auto].
Qed.

(** Nothing stands in the way of a node whose name is accepted and whose
    directories are there. *)
Lemma missing_error_none (m : gmap str node) (p : str) :
  path_error p = None ->
  (forall a, In a (dirs_to p) -> m !! a = Some Dir) ->
  missing_error m p = None.
Proof.
  intros Hp Hd. destruct (path_error_none p Hp) as [Ha Hl].
  unfold missing_error. rewrite Ha, (walk_dirs_none m p _ Hd), Hl.
  unfold too_long in Hl. apply orb_false_iff in Hl. destruct Hl as [-> _].
  reflexivity.
Qed.

Lemma read_file_not_found (p : str) (w : world) :
  p <> [] -> fs w !! p = None -> path_error p = None ->
  (forall a, In a (dirs_to p) -> fs w !! a = Some Dir) ->
  read_file p w = (inl (ENOENT p), w).
Proof.
  intros Hp H Hfit Hd. unfold read_file. destruct p as [|c p]; [congruence|].
  rewrite H, (missing_error_none _ _ Hfit Hd). reflexivity.
Qed.

Lemma open_w_ok (p : str) (w : world) :
  p <> [] -> fs w !! p <> Some Dir ->
  (forall a, In a (dirs_to p) -> fs w !! a = Some Dir) ->
  (fs w !! p = None -> path_error p = None) ->
  open_w p w = (inr tt, set_fs (insert p (File [])) w).
Proof.
  intros Hp Hn Hd Hfit. unfold open_w. destruct p as [|c p]; [congruence|].
  destruct (fs w !! (c :: p)) as [[content| |why]|] eqn:H;
    [reflexivity | congruence | reflexivity |].
  rewrite (missing_error_none _ _ (Hfit eq_refl) Hd). reflexivity.
Qed.

Lemma open_w_cases (p : str) (w : world) :
  (exists e, open_w p w = (inl e, w))
  \/ (fs w !! p <> Some Dir /\ open_w p w = (inr tt, set_fs (insert p (File [])) w)).
Proof.
  unfold open_w. destruct p as [|c p]; [left; eauto|].
  destruct (fs w !! (c :: p)) as [[content| |why]|] eqn:H.
  - right. split; [discriminate | reflexivity].
  - left. eauto.
  - right. split; [discriminate | reflexivity].
  - destruct (missing_error (fs w) (c :: p)) as [e|]; [left; eauto|].
    right. split; [discriminate | reflexivity].
Qed.

Lemma keeps_open_w (p : str) : keeps (fun q => q = p) (open_w p).
Proof.
  intros w. destruct (open_w_cases p w) as [[e ->]|[Hn ->]].
  - apply grows_on_refl.
  - apply grows_on_insert_file; [reflexivity | exact Hn].
Qed.

Lemma quiet_open_w (p : str) : quiet (open_w p).
Proof.
  intros w. destruct (open_w_cases p w) as [[e ->]|[_ ->]]; reflexivity.
Qed.

Lemma f_write_ok (p s c : str) (w : world) :
  fs w !! p = Some (File c) ->
  f_write p s w = (inr tt, set_fs (insert p (File (c ++ s))) w).
Proof. intros H. unfold f_write. rewrite H. reflexivity. Qed.

Lemma f_write_cases (p s : str) (w : world) :
  (exists e, f_write p s w = (inl e, w))
  \/ exists c, fs w !! p = Some (File c)
               /\ f_write p s w = (inr tt, set_fs (insert p (File (c ++ s))) w).
Proof.
  unfold f_write. case_lookup H; [right; eauto | left; eauto | left; eauto | left; eauto].
Qed.

Lemma keeps_f_write (p s : str) : keeps (fun q => q = p) (f_write p s).
Proof.
  intros w. destruct (f_write_cases p s w) as [[e ->]|[c [Hc ->]]].
  - apply grows_on_refl.
  - apply grows_on_insert_file; [reflexivity | rewrite Hc; discriminate].
Qed.

Lemma quiet_f_write (p s : str) : quiet (f_write p s).
Proof.
  intros w. destruct (f_write_cases p s w) as [[e ->]|[c [_ ->]]]; reflexivity.
Qed.

Lemma set_fs_insert_twice (p : str) (n1 n2 : node) (w : world) :
  set_fs (insert p n2) (set_fs (insert p n1) w) = set_fs (insert p n2) w.
Proof. unfold set_fs. simpl. rewrite insert_insert_eq. reflexivity. Qed.

Lemma write_snippets_ok (p : str) (tr : list snippet) :
  forall (c : str) (w : world),
    fs w !! p = Some (File c) ->
    write_snippets p tr w = (inr tt, set_fs (insert p (File (c ++ rendered tr))) w).
Proof.
  induction tr as [|snip tr IH]; intros c w Hc; simpl.
  - unfold ret, rendered, set_fs. simpl. rewrite app_nil_r.
    rewrite (insert_id _ _ _ Hc). destruct w; reflexivity.
  - unfold bind. rewrite (f_write_ok p _ c w Hc).
    rewrite (IH (c ++ strip (text snip) ++ lit " ")).
    + rewrite set_fs_insert_twice. unfold rendered. simpl.
      rewrite <- !app_assoc. reflexivity.
    + simpl. apply lookup_insert_eq.
Qed.

Lemma keeps_write_snippets (p : str) (tr : list snippet) :
  keeps (fun q => q = p) (write_snippets p tr).
Proof.
  induction tr as [|snip tr IH]; simpl.
  - intros w. apply grows_on_refl.
  - apply keeps_bind; [apply keeps_f_write | intros _; exact IH].
Qed.

Lemma quiet_write_snippets (p : str) (tr : list snippet) :
  quiet (write_snippets p tr).
Proof.
  induction tr as [|snip tr IH]; simpl.
  - intros w. reflexivity.
  - apply quiet_bind; [apply quiet_f_write | intros _; exact IH].
Qed.

(** Writing a file below a directory that can be made. *)
Lemma makedirs_open_ok {A} (p : str) (k : M A) (w : world) :
  p <> [] -> dirname p <> [] ->
  (forall a, In a (dir_chain (dirname p)) ->
             is_file (fs w !! a) = false /\ path_error a = None) ->
  ~ In p (dir_chain (dirname p)) ->
  fs w !! p <> Some Dir ->
  (fs w !! p = None -> path_error p = None) ->
  (makedirs (dirname p) ;;; open_w p ;;; k) w
  = k (set_fs (fun m => <[p := File []]> (add_dirs (dir_chain (dirname p)) m)) w).
Proof.
  intros Hp Hd Hc Hnot Hn Hfit. unfold bind. rewrite (makedirs_ok _ _ Hd Hc).
  rewrite open_w_ok; [reflexivity | exact Hp | | |].
  - simpl. rewrite lookup_add_dirs_out; assumption.
  - intros a Ha. simpl. apply lookup_add_dirs_in.
    unfold dirs_to in Ha. destruct (dirname p); [congruence | exact Ha].
  - simpl. rewrite lookup_add_dirs_out by assumption. exact Hfit.
Qed.

(** ** The transcript cache *)

Lemma transcripts_chain : dir_chain TRANSCRIPTS_DIR = [TRANSCRIPTS_DIR].
Proof. reflexivity. Qed.

Lemma transcripts_dir_fits : path_error TRANSCRIPTS_DIR = None.
Proof. vm_compute. reflexivity. Qed.

Lemma transcript_path_nonempty (T : str) : transcript_path T <> [].
Proof.
  unfold transcript_path, os_path_join.
  destruct (T ++ lit "_transcript.txt") as [|c b]; [discriminate|].
  destruct (is_slash c); discriminate.
Qed.

Lemma transcript_path_not_dir (T : str) :
  clean T -> transcript_path T <> TRANSCRIPTS_DIR.
Proof.
  intros HT. rewrite (transcript_path_eq T HT). intros H.
  apply (f_equal (@length char)) in H. rewrite length_app in H. simpl in H. lia.
Qed.

Lemma transcript_path_head (T : str) :
  clean T -> head (transcript_path T) = Some 116.
Proof. intros HT. rewrite (transcript_path_eq T HT). reflexivity. Qed.

(** Saving over whatever file is at the path, or creating it. *)
Lemma save_transcript_over (T : str) (tr : list snippet) (w : world) :
  clean T ->
  fs w !! transcript_path T <> Some Dir ->
  is_file (fs w !! TRANSCRIPTS_DIR) = false ->
  (fs w !! transcript_path T = None -> path_error (transcript_path T) = None) ->
  save_transcript (transcript_path T) tr w
  = (inr tt,
     World (<[transcript_path T := File (rendered tr)]>
              (<[TRANSCRIPTS_DIR := Dir]> (fs w)))
           (stdout w ++ [[128196] ++ lit " Transcript saved as " ++ transcript_path T])
           (calls w)).
Proof.
  intros HT Hn Hdir Hfit. unfold save_transcript.
  rewrite makedirs_open_ok.
  - rewrite (dirname_transcript_path T HT), transcripts_chain.
    unfold bind. rewrite (write_snippets_ok _ tr []).
    + unfold set_fs, print. cbn [fs stdout calls add_dirs fold_right app].
      rewrite insert_insert_eq. reflexivity.
    + unfold set_fs. cbn [fs]. apply lookup_insert_eq.
  - apply transcript_path_nonempty.
  - rewrite (dirname_transcript_path T HT). discriminate.
  - rewrite (dirname_transcript_path T HT), transcripts_chain.
    intros a [<-|[]]. split; [exact Hdir | exact transcripts_dir_fits].
  - rewrite (dirname_transcript_path T HT), transcripts_chain.
    intros [Heq|[]]. apply (transcript_path_not_dir T HT). symmetry. exact Heq.
  - exact Hn.
  - exact Hfit.
Qed.

Lemma os_path_exists_run (p : str) (w : world) :
  p <> [] ->
  os_path_exists p w = (inr (bool_decide (is_Some (fs w !! p))), w).
Proof. intros Hp. unfold os_path_exists. destruct p; [congruence | reflexivity]. Qed.

Lemma fetch_or_reuse_hit (E : env) (video_id T c : str) (w : world) :
  fs w !! transcript_path T = Some (File c) ->
  fetch_or_reuse_transcript E video_id T w
  = (inr (universal_newlines c),
     World (fs w)
           (stdout w ++ [[128193] ++ lit " Found existing transcript: " ++ transcript_path T])
           (calls w)).
Proof.
  intros H. unfold fetch_or_reuse_transcript, bind.
  rewrite (os_path_exists_run _ _ (transcript_path_nonempty T)), H.
  cbn [bool_decide decide_rel is_Some_dec]. unfold print.
  rewrite (read_file_ok _ c); [reflexivity | apply transcript_path_nonempty | exact H].
Qed.

Lemma fetch_or_reuse_miss (E : env) (video_id T : str) (tr : list snippet) (w : world) :
  clean T ->
  fs w !! transcript_path T = None ->
  fetch E video_id = inr tr ->
  is_file (fs w !! TRANSCRIPTS_DIR) = false ->
  path_error (transcript_path T) = None ->
  fetch_or_reuse_transcript E video_id T w
  = (inr (universal_newlines (rendered tr)),
     World (<[transcript_path T := File (rendered tr)]>
              (<[TRANSCRIPTS_DIR := Dir]> (fs w)))
           (stdout w
            ++ [[9203] ++ lit " Fetching transcript...";
                [9989] ++ lit " Retrieved " ++ lit (pretty (length tr))
                ++ lit " transcript snippets.";
                [128196] ++ lit " Transcript saved as " ++ transcript_path T])
           (calls w ++ [CallFetch video_id])).
Proof.
  intros HT Hmiss Hf Hdir Hfit. unfold fetch_or_reuse_transcript, bind.
  rewrite (os_path_exists_run _ _ (transcript_path_nonempty T)), Hmiss.
  cbn [bool_decide decide_rel is_Some_dec]. unfold print, ytt_fetch, log_call, lift, bind.
  rewrite Hf. rewrite save_transcript_over;
    [| exact HT | cbn [fs]; rewrite Hmiss; discriminate | exact Hdir
     | intros _; exact Hfit].
  rewrite read_file_ok with (c := rendered tr).
  - cbn [fs stdout calls]. rewrite <- !app_assoc. reflexivity.
  - apply transcript_path_nonempty.
  - cbn [fs]. apply lookup_insert_eq.
Qed.


(** A node at the transcript path is read, whatever it is. *)
Lemma fetch_or_reuse_found (E : env) (video_id T : str) (n : node) (w : world) :
  fs w !! transcript_path T = Some n ->
  fetch_or_reuse_transcript E video_id T w
  = read_file (transcript_path T)
      (World (fs w)
         (stdout w ++ [[128193] ++ lit " Found existing transcript: " ++ transcript_path T])
         (calls w)).
Proof.
  intros H. unfold fetch_or_reuse_transcript, bind.
  rewrite (os_path_exists_run _ _ (transcript_path_nonempty T)), H.
  cbn [bool_decide decide_rel is_Some_dec]. unfold print. reflexivity.
Qed.

Lemma rendered_join (snip : snippet) (tr : list snippet) :
  rendered (snip :: tr) = join_space (trimmed_texts (snip :: tr)) ++ lit " ".
Proof.
  revert snip. induction tr as [|s2 tr IH]; intros snip.
  - unfold rendered. simpl. rewrite app_nil_r. reflexivity.
  - change (rendered (snip :: s2 :: tr))
      with ((strip (text snip) ++ lit " ") ++ rendered (s2 :: tr)).
    rewrite IH. simpl. rewrite <- !app_assoc. reflexivity.
Qed.

Lemma keeps_save_transcript (T : str) (tr : list snippet) :
  clean T -> keeps (transcript_paths T) (save_transcript (transcript_path T) tr).
Proof.
  intros HT. unfold save_transcript.
  apply keeps_bind.
  { apply (keeps_weaken (fun q => In q (dir_chain (dirname (transcript_path T)))));
      [|apply keeps_makedirs].
    rewrite (dirname_transcript_path T HT), transcripts_chain.
    intros q [<-|[]]. left. reflexivity. }
  intros _. apply keeps_bind.
  { apply (keeps_weaken (fun q => q = transcript_path T)); [|apply keeps_open_w].
    intros q ->. right. reflexivity. }
  intros _. apply keeps_bind.
  { apply (keeps_weaken (fun q => q = transcript_path T)); [|apply keeps_write_snippets].
    intros q ->. right. reflexivity. }
  intros _. apply keeps_print.
Qed.

Lemma quiet_save_transcript (p : str) (tr : list snippet) :
  quiet (save_transcript p tr).
Proof.
  unfold save_transcript.
  apply quiet_bind; [apply quiet_makedirs|]. intros _.
  apply quiet_bind; [apply quiet_open_w|]. intros _.
  apply quiet_bind; [apply quiet_write_snippets|]. intros _.
  apply quiet_print.
Qed.

(** The transcript step, whatever its outcome. *)
Lemma keeps_fetch_or_reuse (E : env) (video_id T : str) :
  clean T ->
  keeps (transcript_paths T) (fetch_or_reuse_transcript E video_id T).
Proof.
  intros HT. unfold fetch_or_reuse_transcript.
  apply keeps_bind; [apply keeps_pure; reflexivity|]. intros found.
  apply keeps_bind; [|intros _; apply keeps_read_file].
  destruct found; [apply keeps_print|].
  apply keeps_bind; [apply keeps_print|]. intros _.
  apply keeps_bind.
  { apply keeps_pure. intros w. unfold ytt_fetch, bind, log_call, lift. reflexivity. }
  intros tr. apply keeps_bind; [apply keeps_print|]. intros _.
  apply keeps_save_transcript. exact HT.
Qed.

Lemma fetch_or_reuse_calls (E : env) (video_id T : str) (w : world) :
  (is_Some (fs w !! transcript_path T)
   /\ calls (snd (fetch_or_reuse_transcript E video_id T w)) = calls w)
  \/ (fs w !! transcript_path T = None
      /\ calls (snd (fetch_or_reuse_transcript E video_id T w))
         = calls w ++ [CallFetch video_id]).
Proof.
  destruct (fs w !! transcript_path T) as [n|] eqn:Hn.
  - left. split; [eauto|].
    rewrite (fetch_or_reuse_found E video_id T n w Hn), read_file_world. reflexivity.
  - right. split; [reflexivity|].
    unfold fetch_or_reuse_transcript, bind.
    rewrite (os_path_exists_run _ _ (transcript_path_nonempty T)), Hn.
    cbn [bool_decide decide_rel is_Some_dec].
    unfold print at 1. unfold ytt_fetch, bind, log_call, lift.
    cbn [fs stdout calls].
    destruct (fetch E video_id) as [e|tr]; [reflexivity|].
    unfold print at 1. cbn [fs stdout calls].
    match goal with
    | |- context [save_transcript ?p tr ?w1] =>
        pose proof (quiet_save_transcript p tr w1) as Hq;
        destruct (save_transcript p tr w1) as [[e|[]] w2]
    end.
    + exact Hq.
    + rewrite read_file_world. exact Hq.
Qed.

(** ** The summary file *)

Lemma summary_path_facts (T model : str) :
  clean T ->
  summary_path T model <> []
  /\ dirname (summary_path T model) <> []
  /\ ~ In (summary_path T model) (dir_chain (dirname (summary_path T model)))
  /\ head (summary_path T model) = Some 115
  /\ (forall a, In a (dir_chain (dirname (summary_path T model))) ->
                head a = Some 115).
Proof.
  intros HT. rewrite (summary_path_eq T model HT).
  set (x := T ++ lit "_summary_" ++ model ++ lit ".txt").
  destruct (dirname_under SUMMARIES_DIR x 115 eq_refl eq_refl) as [z [Hd Hlen]].
  assert (Hne : dirname (SUMMARIES_DIR ++ slash :: x) <> []).
  { rewrite Hd. discriminate. }
  split; [discriminate|]. split; [exact Hne|]. split; [|split; [reflexivity|]].
  - intros Hin. destruct (dir_chain_prefix _ _ Hne Hin) as [_ [z' Hz]].
    rewrite Hd in Hz.
    apply (f_equal (@length N)) in Hz. rewrite (length_app _ z') in Hz. lia.
  - intros a Hin. destruct (dir_chain_prefix _ _ Hne Hin) as [Ha [z' Hz]].
    apply (head_prefix a z' 115 Ha). rewrite <- Hz, Hd. reflexivity.
Qed.

Lemma lookup_summary_written (T model s q : str) (m : gmap str node) :
  clean T -> head q <> Some 115 ->
  (<[summary_path T model := File s]>
     (add_dirs (dir_chain (dirname (summary_path T model))) m)) !! q
  = m !! q.
Proof.
  intros HT Hq. destruct (summary_path_facts T model HT) as [_ [_ [_ [Hh Hc]]]].
  rewrite lookup_insert_ne by (intros <-; contradiction).
  apply lookup_add_dirs_out. intros Hin. apply Hq. apply Hc. exact Hin.
Qed.

Lemma write_summary_ok (T model s : str) (w : world) :
  clean T ->
  summary_writable T model (fs w) ->
  write_summary T model s w
  = (inr tt,
     World (<[summary_path T model := File s]>
              (add_dirs (dir_chain (dirname (summary_path T model))) (fs w)))
           (stdout w ++ [[10; 9989] ++ lit " Summary saved as " ++ summary_path T model])
           (calls w)).
Proof.
  intros HT [_ [Hfit [Hc Hn]]].
  destruct (summary_path_facts T model HT) as [Hp [Hd [Hnot _]]].
  unfold write_summary. rewrite makedirs_open_ok; try assumption; [|intros _; exact Hfit].
  unfold bind. rewrite (f_write_ok _ s []).
  - unfold set_fs, print. cbn [fs stdout calls app].
    rewrite insert_insert_eq. reflexivity.
  - unfold set_fs. cbn [fs]. apply lookup_insert_eq.
Qed.

Lemma keeps_write_summary (T model s : str) :
  keeps (summary_paths T model) (write_summary T model s).
Proof.
  unfold write_summary.
  apply keeps_bind.
  { apply (keeps_weaken (fun q => In q (dir_chain (dirname (summary_path T model)))));
      [|apply keeps_makedirs].
    intros q Hq. left. exact Hq. }
  intros _. apply keeps_bind.
  { apply (keeps_weaken (fun q => q = summary_path T model)); [|apply keeps_open_w].
    intros q ->. right. reflexivity. }
  intros _. apply keeps_bind.
  { apply (keeps_weaken (fun q => q = summary_path T model)); [|apply keeps_f_write].
    intros q ->. right. reflexivity. }
  intros _. apply keeps_print.
Qed.

Lemma quiet_write_summary (T model s : str) : quiet (write_summary T model s).
Proof.
  unfold write_summary.
  apply quiet_bind; [apply quiet_makedirs|]. intros _.
  apply quiet_bind; [apply quiet_open_w|]. intros _.
  apply quiet_bind; [apply quiet_f_write|]. intros _.
  apply quiet_print.
Qed.

Lemma summary_paths_head (T model q : str) :
  clean T -> summary_paths T model q -> head q = Some 115.
Proof.
  intros HT Hq. destruct (summary_path_facts T model HT) as [_ [_ [_ [Hh Hc]]]].
  destruct Hq as [Hq| ->]; [apply Hc; exact Hq | exact Hh].
Qed.

(** Whatever happens, [write_summary] touches only paths that start like
    the summaries directory, and calls nobody. *)
Lemma write_summary_frame (T model s : str) (w : world) :
  clean T ->
  calls (snd (write_summary T model s w)) = calls w
  /\ (forall q, head q <> Some 115 ->
                fs (snd (write_summary T model s w)) !! q = fs w !! q).
Proof.
  intros HT. split; [apply quiet_write_summary|].
  intros q Hq. destruct (keeps_write_summary T model s w q) as [_ [_ Hu]].
  apply Hu. intros Hs. apply Hq. apply (summary_paths_head T model q HT Hs).
Qed.

Lemma dir_chain_from_extends (rest acc a : str) :
  In a (dir_chain_from acc rest) -> under acc a.
Proof.
  revert acc. induction rest as [|c rest IH]; intros acc; simpl.
  - intros [<-|[]]. exists []. symmetry. apply app_nil_r.
  - intros H. apply in_app_or in H. destruct H as [H|H].
    + destruct (is_slash c); [|destruct H].
      destruct (last acc) as [l|]; [|destruct H].
      destruct (is_slash l); [destruct H|].
      destruct H as [<-|[]]. exists []. symmetry. apply app_nil_r.
    + destruct (IH _ H) as [r ->]. exists (c :: r).
      rewrite <- app_assoc. reflexivity.
Qed.

Lemma summaries_chain (z : str) :
  dir_chain (SUMMARIES_DIR ++ z) = dir_chain_from SUMMARIES_DIR z.
Proof. reflexivity. Qed.

Lemma transcript_paths_under (T q : str) :
  clean T -> transcript_paths T q -> under TRANSCRIPTS_DIR q.
Proof.
  intros HT [->| ->].
  - exists []. symmetry. apply app_nil_r.
  - rewrite (transcript_path_eq T HT). eexists. reflexivity.
Qed.

Lemma summary_paths_under (T model q : str) :
  clean T -> summary_paths T model q -> under SUMMARIES_DIR q.
Proof.
  intros HT [Hq| ->].
  - rewrite (summary_path_eq T model HT) in Hq.
    destruct (dirname_under SUMMARIES_DIR
                (T ++ lit "_summary_" ++ model ++ lit ".txt") 115 eq_refl eq_refl)
      as [z [Hd _]].
    rewrite Hd, summaries_chain in Hq.
    apply (dir_chain_from_extends z SUMMARIES_DIR q Hq).
  - rewrite (summary_path_eq T model HT). eexists. reflexivity.
Qed.

Lemma summary_dir_flat (T model : str) :
  clean T ->
  (forall c, In c model -> is_slash c = false) ->
  dirname (summary_path T model) = SUMMARIES_DIR.
Proof.
  intros HT Hm. rewrite (summary_path_eq T model HT). unfold dirname.
  assert (Hrev : rev (SUMMARIES_DIR ++ slash :: T ++ lit "_summary_" ++ model ++ lit ".txt")
                 = rev (T ++ lit "_summary_" ++ model ++ lit ".txt")
                   ++ slash :: rev SUMMARIES_DIR).
  { rewrite rev_app_distr. simpl. rewrite <- app_assoc. reflexivity. }
  rewrite Hrev, drop_while_app_all.
  - reflexivity.
  - rewrite forallb_rev, !forallb_app, (clean_no_slash T HT).
    assert (Hmod : forallb (fun c => negb (is_slash c)) model = true).
    { apply forallb_forall. intros c Hc. rewrite (Hm c Hc). reflexivity. }
    rewrite Hmod. reflexivity.
Qed.

Lemma summary_writable_agree (T model : str) (m m' : gmap str node) :
  clean T ->
  (forall q, head q <> Some 116 -> m' !! q = m !! q) ->
  summary_writable T model m -> summary_writable T model m'.
Proof.
  intros HT Hag [Hpl [Hfit [Hc Hn]]].
  destruct (summary_path_facts T model HT) as [_ [_ [_ [Hh Hch]]]].
  split; [exact Hpl|]. split; [exact Hfit|]. split.
  - intros a Ha. rewrite Hag; [apply Hc; exact Ha|].
    rewrite (Hch a Ha). discriminate.
  - rewrite Hag; [exact Hn|]. rewrite Hh. discriminate.
Qed.

(** ** The run *)

Lemma title_of_run (E : env) (url T : str) (w : world) :
  fst (get_video_title E url w) = inr T ->
  clean T
  /\ exists out, forall w0,
       get_video_title E url w0
       = (inr T, World (fs w0) (stdout w0 ++ out) (calls w0 ++ [CallExtractInfo url])).
Proof.
  intros H. destruct (get_video_title_run E url) as [title [out [Hrun [Hc _]]]].
  rewrite Hrun in H. simpl in H. injection H as ->. split.
  - destruct Hc as [->|[d [t [_ [_ ->]]]]]; [reflexivity | apply clean_sanitize].
  - exists out. exact Hrun.
Qed.

Lemma summarize_posts (E : env) (prompt text model : str) (w : world) :
  snd (summarize_with_ollama E prompt text model w)
  = posted w (CallPost OLLAMA_URL (ollama_request prompt text model)).
Proof.
  unfold summarize_with_ollama, bind, requests_post, log_call, lift, bind,
    py_get, py_strip, ret, raise, posted, ollama_request.
  cbn [fs stdout calls].
  destruct (post E OLLAMA_URL _) as [e|resp]; [reflexivity|].
  destruct (status_code resp =? 200)%Z; [|reflexivity].
  destruct (resp_json resp) as [e|[| | | | | |d]]; try reflexivity.
  destruct (dict_get d (lit "response") (PyStr [])); reflexivity.
Qed.

Lemma keeps_summarize_and_save (E : env) (T model prompt text : str) :
  keeps (summary_paths T model) (summarize_and_save E T model prompt text).
Proof.
  unfold summarize_and_save.
  apply keeps_bind; [apply keeps_print|]. intros _.
  apply keeps_bind.
  { intros w. rewrite summarize_posts. apply grows_on_refl. }
  intros summary.
  apply keeps_bind; [apply keeps_print|]. intros _.
  apply keeps_bind; [apply keeps_print|]. intros _.
  apply keeps_write_summary.
Qed.

(** The last stage leaves the transcripts alone and makes one call. *)
Lemma summarize_and_save_frame (E : env) (T model prompt text : str) (w : world) :
  clean T ->
  calls (snd (summarize_and_save E T model prompt text w))
  = calls w ++ [CallPost OLLAMA_URL (ollama_request prompt text model)]
  /\ (forall q, head q <> Some 115 ->
                fs (snd (summarize_and_save E T model prompt text w)) !! q = fs w !! q).
Proof.
  intros HT. unfold summarize_and_save, bind, print.
  set (w0 := World (fs w) _ (calls w)).
  pose proof (summarize_posts E prompt text model w0) as Hs.
  destruct (summarize_with_ollama E prompt text model w0) as [[e|summary] w1].
  - simpl in Hs. subst w1. split; reflexivity.
  - simpl in Hs. subst w1.
    match goal with
    | |- context [write_summary T model summary ?w2] =>
        destruct (write_summary_frame T model summary w2 HT) as [Hc Hf];
        split; [rewrite Hc; reflexivity | intros q Hq; rewrite (Hf q Hq); reflexivity]
    end.
Qed.

Lemma summarize_and_save_non_200 (E : env) (T model prompt text body : str)
    (w : world) :
  answers_error E (ollama_request prompt text model) body ->
  exists w',
    summarize_and_save E T model prompt text w
    = (inl (Exn RuntimeError (lit "Ollama request failed: " ++ body)), w')
    /\ fs w' = fs w.
Proof.
  intros [resp [Hp [Hs <-]]].
  unfold summarize_and_save, bind, print.
  rewrite (summarize_non_200 E prompt text model resp _ Hp Hs).
  eexists. split; reflexivity.
Qed.

Lemma summarize_and_save_200_world (E : env) (T model prompt text : str)
    (found : option str) (w : world) :
  clean T ->
  summary_writable T model (fs w) ->
  answers_200 E (ollama_request prompt text model) found ->
  let summary := match found with Some r => strip r | None => [] end in
  summarize_and_save E T model prompt text w
  = (inr tt,
     World (<[summary_path T model := File summary]>
              (add_dirs (dir_chain (dirname (summary_path T model))) (fs w)))
       (stdout w
        ++ [[10; 129504] ++ lit " Sending transcript to Ollama (" ++ model
            ++ lit ") for summarization...";
            [10; 128221] ++ lit " Summary:" ++ [10];
            summary;
            [10; 9989] ++ lit " Summary saved as " ++ summary_path T model])
       (calls w ++ [CallPost OLLAMA_URL (ollama_request prompt text model)])).
Proof.
  intros HT Hw [resp [d [Hp [Hs [Hj Hd]]]]].
  unfold summarize_and_save, bind, print.
  rewrite (summarize_200 E prompt text model resp d _ Hp Hs Hj), Hd.
  destruct found as [r|]; simpl option_map; cbv iota zeta;
    unfold posted; cbn [fs stdout calls];
    rewrite write_summary_ok by assumption;
    cbn [fs stdout calls]; rewrite <- !app_assoc; reflexivity.
Qed.

Lemma summarize_and_save_200 (E : env) (T model prompt text : str)
    (found : option str) (w : world) :
  clean T ->
  summary_writable T model (fs w) ->
  answers_200 E (ollama_request prompt text model) found ->
  exists w',
    summarize_and_save E T model prompt text w = (inr tt, w')
    /\ fs w'
       = <[summary_path T model := File (match found with Some r => strip r | None => [] end)]>
           (add_dirs (dir_chain (dirname (summary_path T model))) (fs w)).
Proof.
  intros HT Hw Hpost.
  rewrite (summarize_and_save_200_world E T model prompt text found w HT Hw Hpost).
  eexists. split; reflexivity.
Qed.

Lemma main_run (E : env) (argv : list str) (w : world) :
  (2 <= length argv)%nat ->
  main E argv w
  = (0%Z,
     snd (try_except
            (main_try E (video_id_of argv) (prompt_file_of argv) (model_of argv))
            (fun e => print (error_prefix ++ exn_str e)) w)).
Proof.
  intros H. unfold main. apply Nat.ltb_ge in H. rewrite H. reflexivity.
Qed.

Lemma try_print_frame (m : M unit) (pre : str) (w : world) :
  fs (snd (try_except m (fun e => print (pre ++ exn_str e)) w)) = fs (snd (m w))
  /\ calls (snd (try_except m (fun e => print (pre ++ exn_str e)) w)) = calls (snd (m w)).
Proof.
  unfold try_except. destruct (m w) as [[e|a] w']; split; reflexivity.
Qed.

(** The end of a run whose [try] body raised [e] in the world [w1]. *)
Lemma main_aborted (E : env) (argv : list str) (e : exn) (w w1 : world) :
  (2 <= length argv)%nat ->
  main_try E (video_id_of argv) (prompt_file_of argv) (model_of argv) w = (inl e, w1) ->
  main E argv w
  = (0%Z, World (fs w1) (stdout w1 ++ [error_prefix ++ exn_str e]) (calls w1)).
Proof.
  intros Hlen H. rewrite (main_run E argv w Hlen). unfold try_except. rewrite H.
  reflexivity.
Qed.

(** The end of a run whose [try] body returned in the world [w1]. *)
Lemma main_returned (E : env) (argv : list str) (w w1 : world) :
  (2 <= length argv)%nat ->
  main_try E (video_id_of argv) (prompt_file_of argv) (model_of argv) w = (inr tt, w1) ->
  main E argv w = (0%Z, w1).
Proof.
  intros Hlen H. rewrite (main_run E argv w Hlen). unfold try_except. rewrite H.
  reflexivity.
Qed.

Lemma bind_cases {A B} (c : M A) (k : A -> M B) (w : world) :
  (exists e w1, c w = (inl e, w1) /\ bind c k w = (inl e, w1))
  \/ (exists a w1, c w = (inr a, w1) /\ bind c k w = k a w1).
Proof.
  unfold bind. destruct (c w) as [[e|a] w1]; [left | right]; eauto.
Qed.

(** The run after the title has been resolved. *)
Lemma main_try_start (E : env) (video_id model T : str) (prompt_file : option str)
    (w : world) :
  fst (get_video_title E (video_url_of video_id) w) = inr T ->
  exists w0,
    fs w0 = fs w
    /\ calls w0 = calls w ++ [CallExtractInfo (video_url_of video_id)]
    /\ main_try E video_id prompt_file model w
       = bind (fetch_or_reuse_transcript E video_id T)
           (fun text =>
              print ([10; 128229] ++ lit " Loading prompt...") ;;;
              prompt <~ choose_prompt prompt_file ;;
              summarize_and_save E T model prompt text) w0.
Proof.
  intros Ht. destruct (title_of_run E _ T w Ht) as [_ [out Hrun]].
  eexists. split; [|split].
  3:{ unfold main_try. unfold bind at 1 2 3. unfold print at 1 2. rewrite Hrun.
      reflexivity. }
  - reflexivity.
  - reflexivity.
Qed.

(** The run from the transcript step on, once that step has returned
    [text] in the world [w1]: the prompt is chosen, then the model is
    asked. *)
Lemma main_try_rest (E : env) (T model text : str) (prompt_file : option str)
    (w1 : world) :
  exists prompt w2,
    (print ([10; 128229] ++ lit " Loading prompt...") ;;;
     prompt <~ choose_prompt prompt_file ;;
     summarize_and_save E T model prompt text) w1
    = summarize_and_save E T model prompt text w2
    /\ fs w2 = fs w1 /\ calls w2 = calls w1
    /\ (forall p c, prompt_file = Some p -> p <> [] ->
                    fs w1 !! p = Some (File c) -> prompt = strip (universal_newlines c))
    /\ (prompt_file = None -> prompt = DEFAULT_PROMPT)
    /\ (forall p, prompt_file = Some p -> no_prompt_text p (fs w1) ->
                  prompt = DEFAULT_PROMPT).
Proof.
  destruct (choose_prompt_run prompt_file
              (World (fs w1) (stdout w1 ++ [[10; 128229] ++ lit " Loading prompt..."])
                 (calls w1))) as [prompt [out [Hp Hfacts]]].
  cbn [fs stdout calls] in Hp, Hfacts.
  exists prompt. eexists. split.
  - unfold bind at 1. unfold print at 1. unfold bind at 1. rewrite Hp. reflexivity.
  - cbn [fs calls]. split; [reflexivity|]. split; [reflexivity | exact Hfacts].
Qed.

(** Up to the call of the model: the title is resolved, the transcript is
    reused or fetched and saved, then read, and the prompt is chosen. *)
Lemma main_try_prefix (E : env) (video_id model T : str) (prompt_file : option str)
    (w : world) :
  fst (get_video_title E (video_url_of video_id) w) = inr T ->
  transcript_available E video_id T (fs w) ->
  exists c prompt w1 pre,
    main_try E video_id prompt_file model w
    = summarize_and_save E T model prompt (universal_newlines c) w1
    /\ calls w1 = calls w ++ pre
    /\ fs w1 !! transcript_path T = Some (File c)
    /\ (forall q, head q <> Some 116 -> fs w1 !! q = fs w !! q)
    /\ (forall c0, fs w !! transcript_path T = Some (File c0) ->
                   c = c0 /\ fs w1 = fs w
                   /\ pre = [CallExtractInfo (video_url_of video_id)])
    /\ (forall tr, fs w !! transcript_path T = None ->
                   fetch E video_id = inr tr ->
                   c = rendered tr
                   /\ fs w1 = <[transcript_path T := File (rendered tr)]>
                                (<[TRANSCRIPTS_DIR := Dir]> (fs w))
                   /\ pre = [CallExtractInfo (video_url_of video_id);
                             CallFetch video_id])
    /\ (forall p pc, prompt_file = Some p -> p <> [] ->
                     fs w1 !! p = Some (File pc) ->
                     prompt = strip (universal_newlines pc))
    /\ (prompt_file = None -> prompt = DEFAULT_PROMPT)
    /\ (forall p, prompt_file = Some p -> no_prompt_text p (fs w1) ->
                  prompt = DEFAULT_PROMPT).
Proof.
  intros Ht Hav. destruct (title_of_run E _ T w Ht) as [HT _].
  destruct (main_try_start E video_id model T prompt_file w Ht)
    as [w0 [Hfs [Hcs Heq]]].
  unfold bind at 1 in Heq.
  destruct Hav as [[c Hc]|[Hmiss [[tr [Hf _]] [Hdir Hfit]]]].
  - rewrite (fetch_or_reuse_hit E video_id T c w0) in Heq by (rewrite Hfs; exact Hc).
    match type of Heq with
    | _ = _ ?w1 =>
        destruct (main_try_rest E T model (universal_newlines c) prompt_file w1)
          as [prompt [w2 [Hrest [Hfs2 [Hcs2 Hfacts]]]]]
    end.
    rewrite Hrest in Heq. cbn [fs calls] in Hfs2, Hcs2, Hfacts.
    exists c, prompt, w2, [CallExtractInfo (video_url_of video_id)].
    split; [exact Heq|]. split; [rewrite Hcs2; exact Hcs|].
    split; [rewrite Hfs2, Hfs; exact Hc|].
    split; [intros q _; rewrite Hfs2, Hfs; reflexivity|].
    split.
    { intros c0 Hc0. rewrite Hc in Hc0. injection Hc0 as ->.
      split; [reflexivity|]. split; [rewrite Hfs2; exact Hfs | reflexivity]. }
    split; [intros tr' Hn; rewrite Hc in Hn; discriminate|].
    rewrite Hfs2. exact Hfacts.
  - rewrite (fetch_or_reuse_miss E video_id T tr w0 HT) in Heq;
      [| rewrite Hfs; exact Hmiss | exact Hf | rewrite Hfs; exact Hdir | exact Hfit].
    match type of Heq with
    | _ = _ ?w1 =>
        destruct (main_try_rest E T model (universal_newlines (rendered tr))
                    prompt_file w1)
          as [prompt [w2 [Hrest [Hfs2 [Hcs2 Hfacts]]]]]
    end.
    rewrite Hrest in Heq. cbn [fs calls] in Hfs2, Hcs2, Hfacts.
    exists (rendered tr), prompt, w2,
      [CallExtractInfo (video_url_of video_id); CallFetch video_id].
    split; [exact Heq|].
    split; [rewrite Hcs2, Hcs, <- app_assoc; reflexivity|].
    split; [rewrite Hfs2; apply lookup_insert_eq|].
    split.
    { intros q Hq. rewrite Hfs2, !lookup_insert_ne; [rewrite Hfs; reflexivity | |].
      - intros <-. apply Hq. reflexivity.
      - intros <-. apply Hq. apply transcript_path_head. exact HT. }
    split; [intros c0 Hc0; rewrite Hmiss in Hc0; discriminate|].
    split.
    { intros tr' _ Hf'. rewrite Hf in Hf'. injection Hf' as ->.
      split; [reflexivity|]. split; [rewrite Hfs2, Hfs; reflexivity | reflexivity]. }
    rewrite Hfs2. exact Hfacts.
Qed.

(** A run that reaches the model sends the request of its last stage. *)
Lemma run_sends (E : env) (argv : list str) (T prompt text : str) (pre : list call)
    (w w1 : world) :
  (2 <= length argv)%nat -> clean T ->
  main_try E (video_id_of argv) (prompt_file_of argv) (model_of argv) w
  = summarize_and_save E T (model_of argv) prompt text w1 ->
  calls w1 = calls w ++ pre ->
  sends E argv w (ollama_request prompt text (model_of argv)).
Proof.
  intros Hlen HT Heq Hcs. exists pre.
  rewrite (main_run E argv w Hlen). cbn [snd].
  destruct (try_print_frame
              (main_try E (video_id_of argv) (prompt_file_of argv) (model_of argv))
              error_prefix w) as [_ Hk].
  destruct (summarize_and_save_frame E T (model_of argv) prompt text w1 HT) as [Hk2 _].
  rewrite Hk, Heq, Hk2, Hcs, <- app_assoc. reflexivity.
Qed.

(** The first title of the scenarios, on an empty file system. *)
Lemma talk_summary_writable (m : gmap str node) :
  is_file (m !! SUMMARIES_DIR) = false ->
  m !! summary_path talk_title DEFAULT_OLLAMA_MODEL <> Some Dir ->
  summary_writable talk_title DEFAULT_OLLAMA_MODEL m.
Proof.
  intros Hd Hn. split; [vm_compute; reflexivity|]. split; [vm_compute; reflexivity|].
  split; [|exact Hn].
  intros a Ha. change (In a [SUMMARIES_DIR]) in Ha. destruct Ha as [<-|[]].
  split; [exact Hd | vm_compute; reflexivity].
Qed.

Lemma empty_fs_writable : summary_writable talk_title DEFAULT_OLLAMA_MODEL (fs world0).
Proof.
  apply talk_summary_writable; cbn [fs world0]; rewrite lookup_empty;
    [reflexivity | discriminate].
Qed.

Lemma empty_fs_available (E : env) (video_id : str) (tr : list snippet) :
  fetch E video_id = inr tr -> encodable (rendered tr) = true ->
  transcript_available E video_id talk_title (fs world0).
Proof.
  intros H He. right. cbn [fs world0]. rewrite !lookup_empty.
  split; [reflexivity|]. split; [eauto|]. split; [reflexivity|].
  vm_compute. reflexivity.
Qed.

Lemma no_lookup_error (E : env) (url : str) (info : pyval) :
  extract_info E url = inr info ->
  forall e, extract_info E url = inl e -> encodable (exn_str e) = true.
Proof. intros H e He. rewrite H in He. discriminate. Qed.

Lemma talk_text_ok (E : env) (argv : list str) (info : pyval) :
  encodable (video_id_of argv) = true ->
  encodable (model_of argv) = true ->
  extract_info E (video_url_of (video_id_of argv)) = inr info ->
  run_text_ok E argv talk_title.
Proof.
  intros Hv Hm He. split; [exact Hv|]. split; [reflexivity|]. split; [exact Hm|].
  apply (no_lookup_error E _ info He).
Qed.

(** ** Properties of a whole run *)

(** C2, as the specification states it, on a run that finds no transcript
    file and fetches the two snippets [" hi "] and ["there"]: the saved file
    holds ["hi there "], with a space after the last snippet, and not the
    space-joined text ["hi there"]. *)
Lemma transcript_file_ends_with_space :
  let p := transcript_path talk_title in
  let w' := snd (main (env_ok (lit "hello")) argv0 world0) in
  fs world0 !! p = None
  /\ fetch (env_ok (lit "hello")) (video_id_of argv0) = inr talk_snippets
  /\ fs w' !! p = Some (File (lit "hi there "))
  /\ join_space (trimmed_texts talk_snippets) = lit "hi there"
  /\ fs w' !! p <> Some (File (join_space (trimmed_texts talk_snippets))).
Proof. vm_compute. repeat split; discriminate. Qed.

(** C2, amended: on a transcript cache miss the run saves, in the snippets'
    order, each snippet's trimmed text followed by one space; for a
    transcript that is not empty this is the space-joined text with one more
    space at the end.  This is for a title whose transcript file the system
    accepts and for texts that can be printed and written; the file keeps
    that content to the end of a run whose summary path is plain. *)
Theorem transcript_file_content (E : env) (argv : list str) (T : str)
    (tr : list snippet) (w : world) :
  (2 <= length argv)%nat ->
  fst (get_video_title E (video_url_of (video_id_of argv)) w) = inr T ->
  run_text_ok E argv T ->
  fs w !! transcript_path T = None ->
  fetch E (video_id_of argv) = inr tr ->
  encodable (rendered tr) = true ->
  is_file (fs w !! TRANSCRIPTS_DIR) = false ->
  path_error (transcript_path T) = None ->
  plain (summary_path T (model_of argv)) = true ->
  fs (snd (main E argv w)) !! transcript_path T = Some (File (rendered tr))
  /\ rendered tr
     = match tr with
       | [] => []
       | _ => join_space (trimmed_texts tr) ++ lit " "
       end.
Proof.
  intros Hlen Ht _ Hmiss Hf Henc Hdir Hfit _. split.
  - destruct (title_of_run E _ T w Ht) as [HT _].
    assert (Hav : transcript_available E (video_id_of argv) T (fs w)).
    { right. split; [exact Hmiss|]. split; [exists tr; auto|]. auto. }
    destruct (main_try_prefix E (video_id_of argv) (model_of argv) T
                (prompt_file_of argv) w Ht Hav)
      as [c [prompt [w1 [pre [Heq [_ [Htp [_ [_ [Hm _]]]]]]]]]].
    destruct (Hm tr Hmiss Hf) as [-> _].
    rewrite (main_run E argv w Hlen). cbn [snd].
    destruct (try_print_frame
                (main_try E (video_id_of argv) (prompt_file_of argv) (model_of argv))
                error_prefix w) as [Hfr _].
    destruct (summarize_and_save_frame E T (model_of argv) prompt
                (universal_newlines (rendered tr)) w1 HT) as [_ Hf2].
    rewrite Hfr, Heq, Hf2; [exact Htp|].
    rewrite (transcript_path_head T HT). discriminate.
  - destruct tr as [|snip tr]; [reflexivity | apply rendered_join].
Qed.

Lemma transcript_file_content_witness :
  fs (snd (main (env_ok (lit "hello")) argv0 world0)) !! transcript_path talk_title
  = Some (File (lit "hi there ")).
Proof.
  refine (proj1 (transcript_file_content (env_ok (lit "hello")) argv0 talk_title
                   talk_snippets world0 _ _ _ _ _ _ _ _ _)).
  - simpl. lia.
  - reflexivity.
  - apply (talk_text_ok _ _ talk_info); reflexivity.
  - reflexivity.
  - reflexivity.
  - reflexivity.
  - reflexivity.
  - vm_compute. reflexivity.
  - vm_compute. reflexivity.
Defined.

(** C6: when the endpoint answers 200 with a JSON object whose response
    field is the string [r], the summarizer returns [r] trimmed.  A run
    whose texts can be printed and written, whose prompt path is plain,
    whose transcript is available and whose summary file can be written,
    and whose request is answered in that way, sends that request,
    completes and leaves exactly the trimmed [r] in the summary file of the
    title and model. *)
Theorem summary_file_is_trimmed_response (E : env) (argv : list str) (T r : str)
    (w : world) :
  (2 <= length argv)%nat ->
  fst (get_video_title E (video_url_of (video_id_of argv)) w) = inr T ->
  run_text_ok E argv T ->
  plain_prompt argv ->
  encodable r = true ->
  transcript_available E (video_id_of argv) T (fs w) ->
  summary_writable T (model_of argv) (fs w) ->
  (forall req, sends E argv w req -> answers_200 E req (Some r)) ->
  (forall prompt text model w0,
      answers_200 E (ollama_request prompt text model) (Some r) ->
      fst (summarize_with_ollama E prompt text model w0) = inr (strip r))
  /\ (exists req, sends E argv w req)
  /\ fst (main_try E (video_id_of argv) (prompt_file_of argv) (model_of argv) w)
     = inr tt
  /\ fst (main E argv w) = 0%Z
  /\ fs (snd (main E argv w)) !! summary_path T (model_of argv)
     = Some (File (strip r)).
Proof.
  intros Hlen Ht _ _ _ Hav Hw Hpost.
  destruct (title_of_run E _ T w Ht) as [HT _].
  destruct (main_try_prefix E (video_id_of argv) (model_of argv) T
              (prompt_file_of argv) w Ht Hav)
    as [c [prompt [w1 [pre [Heq [Hcs [_ [Hag _]]]]]]]].
  pose proof (run_sends E argv T prompt _ pre w w1 Hlen HT Heq Hcs) as Hsent.
  destruct (summarize_and_save_200 E T (model_of argv) prompt (universal_newlines c)
              (Some r) w1 HT) as [w2 [Hrun Hfs]].
  { apply (summary_writable_agree T (model_of argv) (fs w) (fs w1) HT Hag Hw). }
  { apply Hpost. exact Hsent. }
  rewrite Hrun in Heq.
  split; [|split; [|split; [|split]]].
  - intros prompt' text' model w0 [resp [d [Hp [Hs [Hj Hd]]]]].
    rewrite (summarize_200 E prompt' text' model resp d w0 Hp Hs Hj), Hd. reflexivity.
  - eexists. exact Hsent.
  - rewrite Heq. reflexivity.
  - rewrite (main_run E argv w Hlen). reflexivity.
  - rewrite (main_returned E argv w w2 Hlen Heq). cbn [snd]. rewrite Hfs.
    apply lookup_insert_eq.
Qed.

Lemma summary_file_is_trimmed_response_witness :
  fst (main (env_ok (lit "hello")) argv0 world0) = 0%Z
  /\ fs (snd (main (env_ok (lit "hello")) argv0 world0))
       !! summary_path talk_title DEFAULT_OLLAMA_MODEL
     = Some (File (lit "hello")).
Proof.
  destruct (summary_file_is_trimmed_response (env_ok (lit "hello")) argv0
              talk_title (lit "hello") world0) as [_ [_ [_ [H1 H2]]]].
  - simpl. lia.
  - reflexivity.
  - apply (talk_text_ok _ _ talk_info); reflexivity.
  - intros p Hp. discriminate Hp.
  - reflexivity.
  - apply (empty_fs_available _ _ talk_snippets); reflexivity.
  - apply empty_fs_writable.
  - intros req _. eexists. eexists. repeat split; reflexivity.
  - split; [exact H1 | exact H2].
Defined.

(** C9: when the endpoint answers 200 with a JSON object that has no
    response field, the summarizer returns the empty string without
    raising.  A run whose texts can be printed and written, whose prompt
    path is plain, whose transcript is available and whose summary file can
    be written, and whose request is answered in that way, sends that
    request, completes and writes an empty summary file. *)
Theorem missing_response_gives_empty_summary (E : env) (argv : list str) (T : str)
    (w : world) :
  (2 <= length argv)%nat ->
  fst (get_video_title E (video_url_of (video_id_of argv)) w) = inr T ->
  run_text_ok E argv T ->
  plain_prompt argv ->
  transcript_available E (video_id_of argv) T (fs w) ->
  summary_writable T (model_of argv) (fs w) ->
  (forall req, sends E argv w req -> answers_200 E req None) ->
  (forall prompt text model w0,
      answers_200 E (ollama_request prompt text model) None ->
      fst (summarize_with_ollama E prompt text model w0) = inr [])
  /\ (exists req, sends E argv w req)
  /\ fst (main_try E (video_id_of argv) (prompt_file_of argv) (model_of argv) w)
     = inr tt
  /\ fst (main E argv w) = 0%Z
  /\ fs (snd (main E argv w)) !! summary_path T (model_of argv) = Some (File []).
Proof.
  intros Hlen Ht _ _ Hav Hw Hpost.
  destruct (title_of_run E _ T w Ht) as [HT _].
  destruct (main_try_prefix E (video_id_of argv) (model_of argv) T
              (prompt_file_of argv) w Ht Hav)
    as [c [prompt [w1 [pre [Heq [Hcs [_ [Hag _]]]]]]]].
  pose proof (run_sends E argv T prompt _ pre w w1 Hlen HT Heq Hcs) as Hsent.
  destruct (summarize_and_save_200 E T (model_of argv) prompt (universal_newlines c)
              None w1 HT) as [w2 [Hrun Hfs]].
  { apply (summary_writable_agree T (model_of argv) (fs w) (fs w1) HT Hag Hw). }
  { apply Hpost. exact Hsent. }
  rewrite Hrun in Heq.
  split; [|split; [|split; [|split]]].
  - intros prompt' text' model w0 [resp [d [Hp [Hs [Hj Hd]]]]].
    rewrite (summarize_200 E prompt' text' model resp d w0 Hp Hs Hj), Hd. reflexivity.
  - eexists. exact Hsent.
  - rewrite Heq. reflexivity.
  - rewrite (main_run E argv w Hlen). reflexivity.
  - rewrite (main_returned E argv w w2 Hlen Heq). cbn [snd]. rewrite Hfs.
    apply lookup_insert_eq.
Qed.

Lemma missing_response_gives_empty_summary_witness :
  fst (main_try env_no_field (lit "abc123") None DEFAULT_OLLAMA_MODEL world0) = inr tt
  /\ fs (snd (main env_no_field argv0 world0))
       !! summary_path talk_title DEFAULT_OLLAMA_MODEL
     = Some (File []).
Proof.
  destruct (missing_response_gives_empty_summary env_no_field argv0 talk_title world0)
    as [_ [_ [H1 [_ H2]]]].
  - simpl. lia.
  - reflexivity.
  - apply (talk_text_ok _ _ talk_info); reflexivity.
  - intros p Hp. discriminate Hp.
  - apply (empty_fs_available _ _ talk_snippets); reflexivity.
  - apply empty_fs_writable.
  - intros req _. eexists. eexists. repeat split; reflexivity.
  - split; [exact H1 | exact H2].
Defined.

(** C5: when the endpoint answers with a status other than 200, the
    summarizer raises a [RuntimeError] whose message ends with the raw
    body.  A run whose texts can be printed, whose prompt path is plain,
    whose transcript is available and whose request is answered in that way
    sends that request, prints that message after the error prefix as its
    last line, leaves every plain path of the summaries directory as it
    was, and exits with status 0. *)
Theorem non_200_aborts_before_summary (E : env) (argv : list str) (T body : str)
    (w : world) :
  (2 <= length argv)%nat ->
  fst (get_video_title E (video_url_of (video_id_of argv)) w) = inr T ->
  run_text_ok E argv T ->
  plain_prompt argv ->
  encodable body = true ->
  transcript_available E (video_id_of argv) T (fs w) ->
  (forall req, sends E argv w req -> answers_error E req body) ->
  (forall prompt text model w0,
      answers_error E (ollama_request prompt text model) body ->
      fst (summarize_with_ollama E prompt text model w0)
      = inl (Exn RuntimeError (lit "Ollama request failed: " ++ body)))
  /\ (exists req, sends E argv w req)
  /\ fst (main E argv w) = 0%Z
  /\ last (stdout (snd (main E argv w)))
     = Some (error_prefix ++ lit "Ollama request failed: " ++ body)
  /\ (forall q, under SUMMARIES_DIR q -> plain q = true ->
                fs (snd (main E argv w)) !! q = fs w !! q).
Proof.
  intros Hlen Ht _ _ _ Hav Hpost.
  destruct (title_of_run E _ T w Ht) as [HT _].
  destruct (main_try_prefix E (video_id_of argv) (model_of argv) T
              (prompt_file_of argv) w Ht Hav)
    as [c [prompt [w1 [pre [Heq [Hcs [_ [Hag _]]]]]]]].
  pose proof (run_sends E argv T prompt _ pre w w1 Hlen HT Heq Hcs) as Hsent.
  destruct (summarize_and_save_non_200 E T (model_of argv) prompt
              (universal_newlines c) body w1 (Hpost _ Hsent)) as [w2 [Hrun Hfs]].
  rewrite Hrun in Heq.
  split; [|split; [|split; [|split]]].
  - intros prompt' text' model w0 [resp [Hp [Hs <-]]].
    rewrite (summarize_non_200 E prompt' text' model resp w0 Hp Hs). reflexivity.
  - eexists. exact Hsent.
  - rewrite (main_run E argv w Hlen). reflexivity.
  - rewrite (main_aborted E argv _ w w2 Hlen Heq). cbn [snd stdout exn_str].
    apply last_snoc.
  - intros q [rest ->] _.
    rewrite (main_aborted E argv _ w w2 Hlen Heq). cbn [snd fs].
    rewrite Hfs. apply Hag. discriminate.
Qed.

Lemma non_200_aborts_before_summary_witness :
  fst (main env_500 argv0 world0) = 0%Z
  /\ last (stdout (snd (main env_500 argv0 world0)))
     = Some (error_prefix ++ lit "Ollama request failed: " ++ boom)
  /\ fs (snd (main env_500 argv0 world0))
       !! summary_path talk_title DEFAULT_OLLAMA_MODEL = None.
Proof.
  destruct (non_200_aborts_before_summary env_500 argv0 talk_title boom world0)
    as [_ [_ [H1 [H2 H3]]]].
  - simpl. lia.
  - reflexivity.
  - apply (talk_text_ok _ _ talk_info); reflexivity.
  - intros p Hp. discriminate Hp.
  - reflexivity.
  - apply (empty_fs_available _ _ talk_snippets); reflexivity.
  - intros req _. eexists. repeat split. discriminate.
  - split; [exact H1|]. split; [exact H2|].
    rewrite H3; [reflexivity | | vm_compute; reflexivity].
    rewrite (summary_path_eq talk_title DEFAULT_OLLAMA_MODEL) by reflexivity.
    eexists. reflexivity.
Defined.

(** A run that finds a node at the transcript path: it reads the node and
    goes on to the model when the node is a text file, and stops otherwise.
    Either way it fetches nothing. *)
Lemma found_run (E : env) (argv : list str) (T : str) (n : node) (w : world) :
  (2 <= length argv)%nat ->
  fst (get_video_title E (video_url_of (video_id_of argv)) w) = inr T ->
  fs w !! transcript_path T = Some n ->
  (exists c prompt w1,
      n = File c
      /\ main_try E (video_id_of argv) (prompt_file_of argv) (model_of argv) w
         = summarize_and_save E T (model_of argv) prompt (universal_newlines c) w1
      /\ fs w1 = fs w
      /\ calls w1 = calls w ++ [CallExtractInfo (video_url_of (video_id_of argv))])
  \/ (exists e w1,
        (forall c, n <> File c)
        /\ fst (read_file (transcript_path T) w) = inl e
        /\ main_try E (video_id_of argv) (prompt_file_of argv) (model_of argv) w
           = (inl e, w1)
        /\ fs w1 = fs w
        /\ calls w1 = calls w ++ [CallExtractInfo (video_url_of (video_id_of argv))]).
Proof.
  intros Hlen Ht Hn.
  destruct (main_try_start E (video_id_of argv) (model_of argv) T
              (prompt_file_of argv) w Ht) as [w0 [Hfs [Hcs Heq]]].
  unfold bind at 1 in Heq.
  rewrite (fetch_or_reuse_found E _ T n w0) in Heq by (rewrite Hfs; exact Hn).
  pose proof (transcript_path_nonempty T) as Hne.
  destruct n as [c| |why].
  - left. rewrite (read_file_ok _ c) in Heq;
      [| exact Hne | cbn [fs]; rewrite Hfs; exact Hn].
    match type of Heq with
    | _ = _ ?w1 =>
        destruct (main_try_rest E T (model_of argv) (universal_newlines c)
                    (prompt_file_of argv) w1)
          as [prompt [w2 [Hrest [Hfs2 [Hcs2 _]]]]]
    end.
    rewrite Hrest in Heq. cbn [fs calls] in Hfs2, Hcs2.
    exists c, prompt, w2. split; [reflexivity|]. split; [exact Heq|].
    split; [rewrite Hfs2; exact Hfs | rewrite Hcs2; exact Hcs].
  - right. rewrite read_file_dir in Heq;
      [| exact Hne | cbn [fs]; rewrite Hfs; exact Hn].
    eexists. eexists. split; [discriminate|].
    split; [rewrite (read_file_dir _ w Hne Hn); reflexivity|].
    split; [exact Heq|]. split; [exact Hfs | exact Hcs].
  - right. rewrite (read_file_binary _ why) in Heq;
      [| exact Hne | cbn [fs]; rewrite Hfs; exact Hn].
    eexists. eexists. split; [discriminate|].
    split; [rewrite (read_file_binary _ why w Hne Hn); reflexivity|].
    split; [exact Heq|]. split; [exact Hfs | exact Hcs].
Qed.

(** C4: when a node exists at the transcript path of the resolved title,
    the run never calls the transcript service, whatever the node holds.
    When the node is a text file and the texts of the run can be printed,
    the calls are the title lookup and one request to the model whose
    prompt ends with the text of that file, read in text mode; when the
    summary path is plain the node is left as it was. *)
Theorem cached_transcript_is_reused (E : env) (argv : list str) (T : str) (n : node)
    (w : world) :
  (2 <= length argv)%nat ->
  fst (get_video_title E (video_url_of (video_id_of argv)) w) = inr T ->
  fs w !! transcript_path T = Some n ->
  exists new,
    calls (snd (main E argv w)) = calls w ++ new
    /\ (forall v, ~ In (CallFetch v) new)
    /\ (run_text_ok E argv T ->
        forall c, n = File c ->
        exists prompt,
          new = [CallExtractInfo (video_url_of (video_id_of argv));
                 CallPost OLLAMA_URL
                   (ollama_request prompt (universal_newlines c) (model_of argv))])
    /\ (plain (summary_path T (model_of argv)) = true ->
        fs (snd (main E argv w)) !! transcript_path T = Some n).
Proof.
  intros Hlen Ht Hn.
  destruct (title_of_run E _ T w Ht) as [HT _].
  destruct (try_print_frame
              (main_try E (video_id_of argv) (prompt_file_of argv) (model_of argv))
              error_prefix w) as [Hf Hk].
  rewrite (main_run E argv w Hlen). cbn [snd]. rewrite Hf, Hk.
  destruct (found_run E argv T n w Hlen Ht Hn)
    as [[c [prompt [w1 [-> [Heq [Hfs Hcs]]]]]]|[e [w1 [Hnf [_ [Heq [Hfs Hcs]]]]]]];
    rewrite Heq.
  - destruct (summarize_and_save_frame E T (model_of argv) prompt
                (universal_newlines c) w1 HT) as [Hk2 Hf2].
    eexists. split; [rewrite Hk2, Hcs, <- app_assoc; reflexivity|].
    split; [intros v [H|[H|[]]]; discriminate|]. split.
    + intros _ c' [= <-]. exists prompt. reflexivity.
    + intros _. rewrite Hf2, Hfs; [exact Hn|].
      rewrite (transcript_path_head T HT). discriminate.
  - cbn [snd]. eexists. split; [exact Hcs|].
    split; [intros v [H|[]]; discriminate|]. split.
    + intros _ c Hc. destruct (Hnf c Hc).
    + intros _. rewrite Hfs. exact Hn.
Qed.

Lemma cached_transcript_is_reused_witness :
  exists prompt,
    calls (snd (main (env_ok (lit "hello")) argv0 world_with_crlf))
    = [CallExtractInfo (video_url_of (lit "abc123"));
       CallPost OLLAMA_URL
         (ollama_request prompt (lit "old" ++ [10] ++ lit "text") DEFAULT_OLLAMA_MODEL)].
Proof.
  destruct (cached_transcript_is_reused (env_ok (lit "hello")) argv0 talk_title
              (File (lit "old" ++ [13; 10] ++ lit "text")) world_with_crlf)
    as [new [H1 [_ [H2 _]]]].
  - simpl. lia.
  - reflexivity.
  - vm_compute. reflexivity.
  - destruct (H2 (talk_text_ok (env_ok (lit "hello")) argv0 talk_info
                    eq_refl eq_refl eq_refl) _ eq_refl)
      as [prompt Hnew].
    exists prompt. rewrite H1, Hnew. reflexivity.
Defined.

(** C1, as the specification states it, on two runs with the same video
    identifier and model: the second run posts to the endpoint again, and
    when the model answers differently the summary file of the first run is
    overwritten. *)
Lemma summary_is_rewritten_on_rerun :
  let p := summary_path talk_title DEFAULT_OLLAMA_MODEL in
  let w1 := snd (main (env_ok (lit "hello")) argv0 world0) in
  let w2 := snd (main (env_ok (lit "other")) argv0 w1) in
  let w2' := snd (main (env_ok (lit "hello")) argv0 w1) in
  fs w1 !! p = Some (File (lit "hello"))
  /\ fs w2 !! p = Some (File (lit "other"))
  /\ fs w2 !! p <> fs w1 !! p
  /\ exists req, last (calls w2') = Some (CallPost OLLAMA_URL req)
                 /\ length (calls w2') = (length (calls w1) + 2)%nat.
Proof.
  vm_compute. split; [reflexivity|]. split; [reflexivity|].
  split; [discriminate|]. eexists. split; reflexivity.
Qed.

(** C1, amended: take two runs with the same identifier and model that
    resolve to the same title, on a file system whose paths are plain, with
    a plain prompt path, texts that can be printed and written, an
    available transcript, a summary file that can be written, and an
    endpoint that answers both requests with status 200 and a response
    string.  The second run reuses the transcript file of the first without
    calling the transcript service and leaves it as it was.  The summary is
    not cached: the second run posts the text of the transcript file again
    and sets the summary file to the new trimmed response, changing nothing
    else; the files after the second run are those after the first exactly
    when the two trimmed responses are equal. *)
Theorem rerun_reuses_transcript_rewrites_summary (E1 E2 : env) (argv : list str)
    (T r1 r2 : str) (w : world) :
  (2 <= length argv)%nat ->
  fst (get_video_title E1 (video_url_of (video_id_of argv)) w) = inr T ->
  fst (get_video_title E2 (video_url_of (video_id_of argv)) w) = inr T ->
  run_text_ok E1 argv T ->
  run_text_ok E2 argv T ->
  plain_prompt argv ->
  encodable r1 = true ->
  encodable r2 = true ->
  normal (fs w) ->
  transcript_available E1 (video_id_of argv) T (fs w) ->
  summary_writable T (model_of argv) (fs w) ->
  (forall req, sends E1 argv w req -> answers_200 E1 req (Some r1)) ->
  (forall req, sends E2 argv (snd (main E1 argv w)) req ->
               answers_200 E2 req (Some r2)) ->
  exists text prompt,
    fs (snd (main E1 argv w)) !! transcript_path T = Some (File text)
    /\ fs (snd (main E2 argv (snd (main E1 argv w)))) !! transcript_path T
       = Some (File text)
    /\ calls (snd (main E2 argv (snd (main E1 argv w))))
       = calls (snd (main E1 argv w))
         ++ [CallExtractInfo (video_url_of (video_id_of argv));
             CallPost OLLAMA_URL
               (ollama_request prompt (universal_newlines text) (model_of argv))]
    /\ fs (snd (main E1 argv w)) !! summary_path T (model_of argv)
       = Some (File (strip r1))
    /\ fs (snd (main E2 argv (snd (main E1 argv w))))
       = <[summary_path T (model_of argv) := File (strip r2)]>
           (fs (snd (main E1 argv w)))
    /\ (fs (snd (main E2 argv (snd (main E1 argv w)))) = fs (snd (main E1 argv w))
        <-> strip r2 = strip r1).
Proof.
  intros Hlen Ht1 Ht2 _ _ _ _ _ _ Hav Hw Hp1 Hp2.
  destruct (title_of_run E1 _ T w Ht1) as [HT _].
  destruct (summary_path_facts T (model_of argv) HT) as [_ [_ [Hnot [Hh Hch]]]].
  set (p := summary_path T (model_of argv)) in *.
  set (chain := dir_chain (dirname p)) in *.
  (* the first run *)
  destruct (main_try_prefix E1 (video_id_of argv) (model_of argv) T
              (prompt_file_of argv) w Ht1 Hav)
    as [text [prompt1 [w1a [pre1 [Heq1 [Hcs1 [Htp1 [Hag1 _]]]]]]]].
  pose proof (run_sends E1 argv T prompt1 _ pre1 w w1a Hlen HT Heq1 Hcs1) as Hsent1.
  destruct (summarize_and_save_200 E1 T (model_of argv) prompt1
              (universal_newlines text) (Some r1) w1a HT)
    as [w1 [Hrun1 Hfs1]];
    [apply (summary_writable_agree T (model_of argv) (fs w) (fs w1a) HT Hag1 Hw)
    | apply Hp1; exact Hsent1 |].
  fold p in Hfs1. fold chain in Hfs1.
  rewrite Hrun1 in Heq1.
  assert (Hm1 : snd (main E1 argv w) = w1).
  { rewrite (main_returned E1 argv w w1 Hlen Heq1). reflexivity. }
  rewrite Hm1 in *.
  assert (Htp : fs w1 !! transcript_path T = Some (File text)).
  { rewrite Hfs1. unfold p, chain. rewrite lookup_summary_written; [exact Htp1 | exact HT |].
    rewrite (transcript_path_head T HT). discriminate. }
  assert (Hsp : fs w1 !! p = Some (File (strip r1))).
  { rewrite Hfs1. apply lookup_insert_eq. }
  assert (Hdirs : forall a, In a chain -> fs w1 !! a = Some Dir).
  { intros a Ha. rewrite Hfs1.
    rewrite lookup_insert_ne by (intros <-; contradiction).
    apply lookup_add_dirs_in. exact Ha. }
  (* the second run *)
  assert (Ht2' : fst (get_video_title E2 (video_url_of (video_id_of argv)) w1) = inr T).
  { destruct (title_of_run E2 _ T w Ht2) as [_ [out Hrun]]. rewrite Hrun. reflexivity. }
  destruct (main_try_prefix E2 (video_id_of argv) (model_of argv) T
              (prompt_file_of argv) w1 Ht2' (or_introl (ex_intro _ text Htp)))
    as [text2 [prompt2 [w2a [pre2 [Heq2 [Hcs2 [_ [_ [Hhit _]]]]]]]]].
  destruct (Hhit text Htp) as [-> [Hfs2a ->]].
  pose proof (run_sends E2 argv T prompt2 _ _ w1 w2a Hlen HT Heq2 Hcs2) as Hsent2.
  assert (Hw2 : summary_writable T (model_of argv) (fs w2a)).
  { rewrite Hfs2a. destruct Hw as [Hpl [Hfit [Hc _]]].
    split; [exact Hpl|]. split; [exact Hfit|]. split.
    - intros a Ha. fold p chain in Ha. rewrite (Hdirs a Ha).
      split; [reflexivity | apply (Hc a Ha)].
    - fold p. rewrite Hsp. discriminate. }
  destruct (summarize_and_save_200 E2 T (model_of argv) prompt2
              (universal_newlines text) (Some r2) w2a HT Hw2 (Hp2 _ Hsent2))
    as [w2 [Hrun2 Hfs2]].
  fold p in Hfs2. fold chain in Hfs2.
  destruct (summarize_and_save_frame E2 T (model_of argv) prompt2
              (universal_newlines text) w2a HT) as [Hk2 _].
  rewrite Hrun2 in Hk2. cbn [snd] in Hk2.
  rewrite Hrun2 in Heq2.
  rewrite (main_returned E2 argv w1 w2 Hlen Heq2). cbn [snd].
  assert (Hfs2' : fs w2 = <[p := File (strip r2)]> (fs w1)).
  { rewrite Hfs2, Hfs2a, (add_dirs_id chain (fs w1) Hdirs). reflexivity. }
  exists text, prompt2.
  split; [exact Htp|]. split.
  { rewrite Hfs2'. rewrite lookup_insert_ne; [exact Htp|].
    intros Heq. rewrite Heq, (transcript_path_head T HT) in Hh. discriminate. }
  split.
  { rewrite Hk2, Hcs2, <- app_assoc. reflexivity. }
  split; [exact Hsp|]. split; [exact Hfs2'|].
  rewrite Hfs2'. split.
  - intros Heq. apply (f_equal (fun m : gmap (list N) node => m !! p)) in Heq.
    rewrite lookup_insert_eq, Hsp in Heq. congruence.
  - intros ->. apply insert_id. exact Hsp.
Qed.

Lemma rerun_reuses_transcript_rewrites_summary_witness :
  let w1 := snd (main (env_ok (lit "hello")) argv0 world0) in
  let w2 := snd (main (env_ok (lit " other ")) argv0 w1) in
  exists text,
    fs w1 !! transcript_path talk_title = Some (File text)
    /\ fs w2 !! transcript_path talk_title = Some (File text)
    /\ fs w2 = <[summary_path talk_title DEFAULT_OLLAMA_MODEL := File (lit "other")]> (fs w1).
Proof.
  destruct (rerun_reuses_transcript_rewrites_summary
              (env_ok (lit "hello")) (env_ok (lit " other ")) argv0
              talk_title (lit "hello") (lit " other ") world0)
    as [text [prompt [H1 [H2 [_ [_ [H3 _]]]]]]].
  - simpl. lia.
  - reflexivity.
  - reflexivity.
  - apply (talk_text_ok _ _ talk_info); reflexivity.
  - apply (talk_text_ok _ _ talk_info); reflexivity.
  - intros p Hp. discriminate Hp.
  - reflexivity.
  - reflexivity.
  - intros q [n Hq]. cbn [fs world0] in Hq. rewrite lookup_empty in Hq. discriminate.
  - apply (empty_fs_available _ _ talk_snippets); reflexivity.
  - apply empty_fs_writable.
  - intros req _. eexists. eexists. repeat split; reflexivity.
  - intros req _. eexists. eexists. repeat split; reflexivity.
  - exists text. split; [exact H1|]. split; [exact H2 | exact H3].
Defined.

(** * Further properties of the script *)

(** ** Every run, whatever the collaborators answer *)

Lemma main_try_effects (E : env) (video_id model : str) (prompt_file : option str)
    (w : world) :
  exists T new,
    clean T
    /\ fst (get_video_title E (video_url_of video_id) w) = inr T
    /\ grows_on (fun q => transcript_paths T q \/ summary_paths T model q)
         (fs w) (fs (snd (main_try E video_id prompt_file model w)))
    /\ calls (snd (main_try E video_id prompt_file model w)) = calls w ++ new
    /\ new_calls_shape video_id model new.
Proof.
  destruct (get_video_title_run E (video_url_of video_id)) as [T [out [Hrun [Hc _]]]].
  assert (HT : clean T).
  { destruct Hc as [->|[d [t [_ [_ ->]]]]]; [reflexivity | apply clean_sanitize]. }
  set (w0 := World (fs w)
               ((stdout w ++ [[128269] ++ lit " Fetching title for video: "
                              ++ video_url_of video_id]) ++ out
                ++ [[127916] ++ lit " Video Title: " ++ underscores_to_spaces T])
               (calls w ++ [CallExtractInfo (video_url_of video_id)])).
  assert (Heq : main_try E video_id prompt_file model w
                = bind (fetch_or_reuse_transcript E video_id T)
                    (fun text =>
                       print ([10; 128229] ++ lit " Loading prompt...") ;;;
                       prompt <~ choose_prompt prompt_file ;;
                       summarize_and_save E T model prompt text) w0).
  { unfold main_try. unfold bind at 1 2 3. unfold print at 1 2. rewrite Hrun.
    cbn [fs stdout calls]. unfold w0. rewrite <- !app_assoc. reflexivity. }
  exists T. rewrite Heq. clear Heq.
  pose proof (keeps_fetch_or_reuse E video_id T HT w0) as Hk.
  pose proof (fetch_or_reuse_calls E video_id T w0) as Hcalls.
  match goal with
  | |- context [bind ?c ?k w0] =>
      destruct (bind_cases c k w0) as [[e [w1 [Hr ->]]]|[text [w1 [Hr ->]]]]
  end; rewrite Hr in Hk, Hcalls; cbn [snd] in Hk, Hcalls.
  - cbn [snd]. destruct Hcalls as [[_ Hcs]|[_ Hcs]].
    + exists [CallExtractInfo (video_url_of video_id)].
      split; [exact HT|]. split; [rewrite Hrun; reflexivity|]. split.
      * apply (grows_on_weaken (transcript_paths T)); [tauto | exact Hk].
      * split; [exact Hcs|]. eexists. split; [reflexivity|]. left. reflexivity.
    + exists [CallExtractInfo (video_url_of video_id); CallFetch video_id].
      split; [exact HT|]. split; [rewrite Hrun; reflexivity|]. split.
      * apply (grows_on_weaken (transcript_paths T)); [tauto | exact Hk].
      * split; [rewrite Hcs; unfold w0; cbn [calls]; rewrite <- app_assoc; reflexivity|].
        eexists. split; [reflexivity|]. right. left. reflexivity.
  - destruct (choose_prompt_run prompt_file
                (World (fs w1)
                   (stdout w1 ++ [[10; 128229] ++ lit " Loading prompt..."])
                   (calls w1))) as [prompt [out2 [Hp _]]].
    cbn [fs stdout calls] in Hp.
    set (w3 := World (fs w1)
                 ((stdout w1 ++ [[10; 128229] ++ lit " Loading prompt..."]) ++ out2)
                 (calls w1)) in *.
    assert (Heq2 : (print ([10; 128229] ++ lit " Loading prompt...") ;;;
                    prompt <~ choose_prompt prompt_file ;;
                    summarize_and_save E T model prompt text) w1
                   = summarize_and_save E T model prompt text w3).
    { unfold bind at 1. unfold print at 1. unfold bind at 1. rewrite Hp. reflexivity. }
    rewrite Heq2. clear Heq2.
    pose proof (keeps_summarize_and_save E T model prompt text w3) as Hk3.
    destruct (summarize_and_save_frame E T model prompt text w3 HT) as [Hc3 _].
    assert (Hg : grows_on (fun q => transcript_paths T q \/ summary_paths T model q)
                   (fs w) (fs (snd (summarize_and_save E T model prompt text w3)))).
    { apply (grows_on_trans _ _ (fs w1)).
      - apply (grows_on_weaken (transcript_paths T)); [tauto | exact Hk].
      - apply (grows_on_weaken (summary_paths T model)); [tauto | exact Hk3]. }
    destruct Hcalls as [[_ Hcs]|[_ Hcs]].
    + exists [CallExtractInfo (video_url_of video_id);
              CallPost OLLAMA_URL (ollama_request prompt text model)].
      split; [exact HT|]. split; [rewrite Hrun; reflexivity|]. split; [exact Hg|].
      split.
      * rewrite Hc3. unfold w3. cbn [calls]. rewrite Hcs. unfold w0. cbn [calls].
        rewrite <- app_assoc. reflexivity.
      * eexists. split; [reflexivity|]. right. right. left. eauto.
    + exists [CallExtractInfo (video_url_of video_id); CallFetch video_id;
              CallPost OLLAMA_URL (ollama_request prompt text model)].
      split; [exact HT|]. split; [rewrite Hrun; reflexivity|]. split; [exact Hg|].
      split.
      * rewrite Hc3. unfold w3. cbn [calls]. rewrite Hcs. unfold w0. cbn [calls].
        rewrite <- !app_assoc. reflexivity.
      * eexists. split; [reflexivity|]. right. right. right. eauto.
Qed.

(** X11: a run whose summary path is plain changes no plain path outside
    the transcripts and summaries directories, whatever the collaborators
    answer and wherever it fails. *)
Theorem run_confined_to_cache_dirs (E : env) (argv : list str) (T : str) (w : world)
    (q : str) :
  fst (get_video_title E (video_url_of (video_id_of argv)) w) = inr T ->
  plain (summary_path T (model_of argv)) = true ->
  plain q = true ->
  ~ under TRANSCRIPTS_DIR q ->
  ~ under SUMMARIES_DIR q ->
  fs (snd (main E argv w)) !! q = fs w !! q.
Proof.
  intros _ _ _ Hnt Hns. unfold main. destruct (length argv <? 2)%nat; [reflexivity|].
  cbn [snd].
  destruct (try_print_frame
              (main_try E (video_id_of argv) (prompt_file_of argv) (model_of argv))
              error_prefix w) as [Hf _].
  rewrite Hf.
  destruct (main_try_effects E (video_id_of argv) (model_of argv)
              (prompt_file_of argv) w) as [T' [new [HT [_ [Hg _]]]]].
  destruct (Hg q) as [_ [_ Hu]]. apply Hu.
  intros [Hq|Hq].
  - apply Hnt. apply (transcript_paths_under T' q HT Hq).
  - apply Hns. apply (summary_paths_under T' (model_of argv) q HT Hq).
Qed.

Lemma run_confined_to_cache_dirs_witness :
  fs (snd (main (env_ok (lit "hello")) argv0
             (World {[lit "notes.txt" := File (lit "keep me")]} [] [])))
    !! lit "notes.txt"
  = Some (File (lit "keep me")).
Proof.
  rewrite (run_confined_to_cache_dirs (env_ok (lit "hello")) argv0 talk_title
             (World {[lit "notes.txt" := File (lit "keep me")]} [] [])
             (lit "notes.txt")).
  - vm_compute. reflexivity.
  - reflexivity.
  - vm_compute. reflexivity.
  - vm_compute. reflexivity.
  - intros [rest H]. discriminate H.
  - intros [rest H]. discriminate H.
Defined.

(** X12: a run never removes a path and never changes the kind of a node: a
    directory is still a directory afterwards and a file is still a file,
    possibly with new content. *)
Theorem run_keeps_every_node (E : env) (argv : list str) (w : world) (q : str) :
  (fs w !! q = Some Dir -> fs (snd (main E argv w)) !! q = Some Dir)
  /\ (forall c, fs w !! q = Some (File c) ->
                exists c', fs (snd (main E argv w)) !! q = Some (File c')).
Proof.
  unfold main. destruct (length argv <? 2)%nat; [split; eauto|].
  cbn [snd].
  destruct (try_print_frame
              (main_try E (video_id_of argv) (prompt_file_of argv) (model_of argv))
              error_prefix w) as [Hf _].
  rewrite Hf.
  destruct (main_try_effects E (video_id_of argv) (model_of argv)
              (prompt_file_of argv) w) as [T [new [_ [_ [Hg _]]]]].
  destruct (Hg q) as [Hd [Hfile _]]. split; assumption.
Qed.


(** ** Runs that stop at the transcript step *)



(** X2: a directory at the transcript path passes the existence test of
    line 81, so the run fetches nothing; reading it then fails with
    [IsADirectoryError], the run stops with that error printed last,
    changes no file and never calls the model. *)
Theorem directory_at_transcript_path_blocks_run (E : env) (argv : list str) (T : str)
    (w : world) :
  (2 <= length argv)%nat ->
  fst (get_video_title E (video_url_of (video_id_of argv)) w) = inr T ->
  run_text_ok E argv T ->
  fs w !! transcript_path T = Some Dir ->
  fs (snd (main E argv w)) = fs w
  /\ calls (snd (main E argv w))
     = calls w ++ [CallExtractInfo (video_url_of (video_id_of argv))]
  /\ exists e,
       exn_kind e = IsADirectoryError
       /\ fst (main_try E (video_id_of argv) (prompt_file_of argv) (model_of argv) w)
          = inl e
       /\ last (stdout (snd (main E argv w))) = Some (error_prefix ++ exn_str e).
Proof.
  intros Hlen Ht _ Hdir.
  destruct (found_run E argv T Dir w Hlen Ht Hdir)
    as [[c [prompt [w1 [Hc _]]]]|[e [w1 [_ [He [Heq [Hfs Hcs]]]]]]];
    [discriminate Hc|].
  rewrite (read_file_dir _ w (transcript_path_nonempty T) Hdir) in He.
  injection He as <-.
  rewrite (main_aborted E argv _ w w1 Hlen Heq). cbn [fst snd fs stdout calls].
  split; [exact Hfs|]. split; [exact Hcs|].
  eexists. split; [|split; [rewrite Heq; reflexivity | apply last_snoc]].
  reflexivity.
Qed.

Lemma directory_at_transcript_path_blocks_run_witness :
  calls (snd (main (env_ok (lit "hello")) argv0
                (World {[transcript_path talk_title := Dir]} [] [])))
  = [CallExtractInfo (video_url_of (lit "abc123"))].
Proof.
  destruct (directory_at_transcript_path_blocks_run (env_ok (lit "hello")) argv0
              talk_title (World {[transcript_path talk_title := Dir]} [] []))
    as [_ [H _]].
  - simpl. lia.
  - reflexivity.
  - apply (talk_text_ok _ _ talk_info); reflexivity.
  - vm_compute. reflexivity.
  - exact H.
Defined.

(** ** What the helpers print and call *)


(** X4: choosing the prompt calls nobody.  It prints nothing when no path is
    given, when the path is the empty string, or when the file is read;
    when a non-empty path gives no text it prints the warning with the
    error that reading raised and then the line announcing the default
    prompt.  That error is a [FileNotFoundError] for a file that is missing
    from a directory that is there, under a name the system accepts, an
    [IsADirectoryError] for a directory and the [UnicodeDecodeError] of a
    file that is not valid UTF-8. *)
Theorem choose_prompt_logging (prompt_file : option str) (w : world) :
  calls (snd (choose_prompt prompt_file w)) = calls w
  /\ (prompt_file = None \/ prompt_file = Some [] ->
        choose_prompt prompt_file w = (inr DEFAULT_PROMPT, w))
  /\ (forall p c, prompt_file = Some p -> p <> [] -> fs w !! p = Some (File c) ->
        choose_prompt prompt_file w = (inr (strip (universal_newlines c)), w))
  /\ (forall p, prompt_file = Some p -> p <> [] ->
        (forall c, fs w !! p <> Some (File c)) ->
        exists e,
          fst (read_file p w) = inl e
          /\ choose_prompt prompt_file w
             = (inr DEFAULT_PROMPT,
                World (fs w)
                  (stdout w ++ [prompt_warning e; lit "Using default prompt instead."])
                  (calls w))
          /\ (fs w !! p = None -> path_error p = None ->
              (forall a, In a (dirs_to p) -> fs w !! a = Some Dir) ->
              exn_kind e = FileNotFoundError)
          /\ (fs w !! p = Some Dir -> exn_kind e = IsADirectoryError)
          /\ (forall why, fs w !! p = Some (Binary why) ->
                          e = Exn UnicodeDecodeError why)).
Proof.
  split.
  { destruct (choose_prompt_run prompt_file w) as [prompt [out [-> _]]]. reflexivity. }
  split.
  { intros [-> | ->]; reflexivity. }
  split.
  { intros p c -> Hp Hc. destruct p as [|a p]; [congruence|].
    unfold choose_prompt, load_prompt, try_except, bind.
    rewrite (read_file_ok _ c w Hp Hc). reflexivity. }
  intros p -> Hp Hn. destruct p as [|a p]; [congruence|].
  destruct (read_file_cases (a :: p) w) as [[c [_ [Hc _]]]|[e [_ He]]];
    [destruct (Hn c Hc)|].
  exists e. split; [rewrite He; reflexivity|]. split.
  { unfold choose_prompt, load_prompt, try_except, bind. rewrite He.
    unfold print, ret. cbn [fs stdout calls]. rewrite <- app_assoc. reflexivity. }
  split; [|split].
  - intros Hm Hfit Hdirs. rewrite (read_file_not_found _ w Hp Hm Hfit Hdirs) in He.
    injection He as <-. reflexivity.
  - intros Hd. rewrite (read_file_dir _ w Hp Hd) in He.
    injection He as <-. reflexivity.
  - intros why Hb. rewrite (read_file_binary _ why w Hp Hb) in He.
    injection He as <-. reflexivity.
Qed.

(** X5: whatever title the video has, the resolved title holds no slash, so
    the transcript file sits directly in the transcripts directory under the
    name [title_transcript.txt]. *)
Theorem resolved_title_stays_in_transcripts (E : env) (url T : str) (w : world) :
  fst (get_video_title E url w) = inr T ->
  (forall c, In c T -> is_slash c = false)
  /\ transcript_path T = TRANSCRIPTS_DIR ++ slash :: T ++ lit "_transcript.txt"
  /\ dirname (transcript_path T) = TRANSCRIPTS_DIR.
Proof.
  intros Ht. destruct (title_of_run E url T w Ht) as [HT _].
  split; [|split; [apply transcript_path_eq | apply dirname_transcript_path]; exact HT].
  intros c Hc. pose proof (clean_no_slash T HT) as Hs.
  rewrite forallb_forall in Hs. apply negb_true_iff. apply Hs. exact Hc.
Qed.

Lemma resolved_title_stays_in_transcripts_witness :
  fst (get_video_title env_slash_title (video_url_of (lit "abc123")) world0)
  = inr (lit "....etcpasswd")
  /\ transcript_path (lit "....etcpasswd")
     = lit "transcripts/....etcpasswd_transcript.txt"
  /\ dirname (transcript_path (lit "....etcpasswd")) = TRANSCRIPTS_DIR.
Proof.
  split; [reflexivity|].
  destruct (resolved_title_stays_in_transcripts env_slash_title
              (video_url_of (lit "abc123")) (lit "....etcpasswd") world0 eq_refl)
    as [_ [H1 H2]].
  split; [exact H1 | exact H2].
Defined.

(** ** The summarizer client, in every case *)

(** X6: [summarize_with_ollama] sends exactly one request, to the fixed
    endpoint, with the model name, the prompt followed by two newlines and
    the transcript, and streaming off; whether it returns or raises, it
    prints nothing and touches no file. *)
Theorem summarize_makes_one_request (E : env) (prompt text model : str) (w : world) :
  snd (summarize_with_ollama E prompt text model w)
  = World (fs w) (stdout w)
      (calls w ++ [CallPost OLLAMA_URL
                     (Request model (prompt ++ [10; 10] ++ text) false)]).
Proof.
  unfold summarize_with_ollama, bind, requests_post, log_call, lift, bind,
    py_get, py_strip, ret, raise.
  cbn [fs stdout calls].
  destruct (post E OLLAMA_URL _) as [e|resp]; [reflexivity|].
  destruct (status_code resp =? 200)%Z; [|reflexivity].
  destruct (resp_json resp) as [e|[| | | | | |d]]; try reflexivity.
  destruct (dict_get d (lit "response") (PyStr [])); reflexivity.
Qed.

(** X7: what [summarize_with_ollama] raises besides the non-200 error: the
    error of [requests.post] itself, the decoding error of a 200 body that
    is not JSON, an [AttributeError] when the decoded body is not an object,
    and an [AttributeError] when the response field is present but not a
    string (for instance [null]). *)
Theorem summarize_failures (E : env) (prompt text model : str) (w : world) :
  (forall e, post E OLLAMA_URL (ollama_request prompt text model) = inl e ->
     fst (summarize_with_ollama E prompt text model w) = inl e)
  /\ (forall resp e,
        post E OLLAMA_URL (ollama_request prompt text model) = inr resp ->
        status_code resp = 200%Z -> resp_json resp = inl e ->
        fst (summarize_with_ollama E prompt text model w) = inl e)
  /\ (forall resp v,
        post E OLLAMA_URL (ollama_request prompt text model) = inr resp ->
        status_code resp = 200%Z -> resp_json resp = inr v ->
        (forall d, v <> PyDict d) ->
        fst (summarize_with_ollama E prompt text model w)
        = inl (no_attribute v "get"))
  /\ (forall resp d v,
        post E OLLAMA_URL (ollama_request prompt text model) = inr resp ->
        status_code resp = 200%Z -> resp_json resp = inr (PyDict d) ->
        dict_lookup d (lit "response") = Some v ->
        (forall r, v <> PyStr r) ->
        fst (summarize_with_ollama E prompt text model w)
        = inl (no_attribute v "strip")).
Proof.
  unfold summarize_with_ollama, bind, requests_post, log_call, lift, bind,
    ollama_request.
  cbn [fs stdout calls].
  split; [intros e He; rewrite He; reflexivity|].
  split; [intros resp e Hp Hs Hj; rewrite Hp, Hs; simpl; rewrite Hj; reflexivity|].
  split.
  - intros resp v Hp Hs Hj Hv. rewrite Hp, Hs. simpl. rewrite Hj.
    destruct v as [| | | | | |d]; try reflexivity.
    exfalso. apply (Hv d). reflexivity.
  - intros resp d v Hp Hs Hj Hd Hv. rewrite Hp, Hs. simpl. rewrite Hj.
    unfold py_get, dict_get, ret. rewrite Hd.
    destruct v as [| | | |r| |]; try reflexivity.
    exfalso. apply (Hv r). reflexivity.
Qed.

Lemma strip_strip (s : str) : strip (strip s) = strip s.
Proof. apply strip_id; [apply strip_head | apply strip_last]. Qed.

(** X8: a summary that [summarize_with_ollama] returns is always trimmed: it
    neither starts nor ends with whitespace, so trimming it again changes
    nothing. *)
Theorem returned_summary_is_trimmed (E : env) (prompt text model s : str)
    (w : world) :
  fst (summarize_with_ollama E prompt text model w) = inr s ->
  strip s = s
  /\ (forall c, head s = Some c -> isspace c = false)
  /\ (forall c, last s = Some c -> isspace c = false).
Proof.
  intros H.
  assert (Hs : exists r, s = strip r).
  { revert H.
    unfold summarize_with_ollama, bind, requests_post, log_call, lift, bind,
      py_get, py_strip, dict_get, ret, raise.
    cbn [fs stdout calls].
    destruct (post E OLLAMA_URL _) as [e|resp]; [discriminate|].
    destruct (status_code resp =? 200)%Z; [|discriminate].
    destruct (resp_json resp) as [e|[| | | | | |d]]; try discriminate.
    destruct (dict_lookup d (lit "response")) as [[| | | |r| |]|];
      try discriminate.
    - intros [= <-]. exists r. reflexivity.
    - intros [= <-]. exists []. reflexivity. }
  destruct Hs as [r ->].
  split; [apply strip_strip|]. split; [apply strip_head | apply strip_last].
Qed.

Lemma returned_summary_is_trimmed_witness :
  fst (summarize_with_ollama (env_ok (lit "  hello world  ")) DEFAULT_PROMPT
         (lit "hi there ") DEFAULT_OLLAMA_MODEL world0)
  = inr (lit "hello world")
  /\ strip (lit "hello world") = lit "hello world".
Proof.
  split; [reflexivity|].
  apply (returned_summary_is_trimmed (env_ok (lit "  hello world  ")) DEFAULT_PROMPT
           (lit "hi there ") DEFAULT_OLLAMA_MODEL (lit "hello world") world0).
  reflexivity.
Defined.

(** ** Saving the transcript *)



(** ** Runs that miss the cache, and the run after *)

(** A run that misses the cache and saves the transcript, to its end. *)
Lemma run_saves_transcript (E : env) (argv : list str) (T : str)
    (tr : list snippet) (w : world) :
  (2 <= length argv)%nat ->
  fst (get_video_title E (video_url_of (video_id_of argv)) w) = inr T ->
  fs w !! transcript_path T = None ->
  fetch E (video_id_of argv) = inr tr ->
  encodable (rendered tr) = true ->
  is_file (fs w !! TRANSCRIPTS_DIR) = false ->
  path_error (transcript_path T) = None ->
  exists prompt,
    fs (snd (main E argv w)) !! transcript_path T = Some (File (rendered tr))
    /\ fs (snd (main E argv w)) !! TRANSCRIPTS_DIR = Some Dir
    /\ calls (snd (main E argv w))
       = calls w ++ [CallExtractInfo (video_url_of (video_id_of argv));
                     CallFetch (video_id_of argv);
                     CallPost OLLAMA_URL
                       (ollama_request prompt (universal_newlines (rendered tr))
                          (model_of argv))].
Proof.
  intros Hlen Ht Hmiss Hf Henc Hdir Hfit.
  destruct (title_of_run E _ T w Ht) as [HT _].
  assert (Hav : transcript_available E (video_id_of argv) T (fs w)).
  { right. split; [exact Hmiss|]. split; [exists tr; auto|]. auto. }
  destruct (main_try_prefix E (video_id_of argv) (model_of argv) T
              (prompt_file_of argv) w Ht Hav)
    as [c [prompt [w1 [pre [Heq [Hcs [Htp [_ [_ [Hm _]]]]]]]]]].
  destruct (Hm tr Hmiss Hf) as [-> [Hfs1 ->]].
  destruct (summarize_and_save_frame E T (model_of argv) prompt
              (universal_newlines (rendered tr)) w1 HT) as [Hc3 Hf3].
  destruct (try_print_frame
              (main_try E (video_id_of argv) (prompt_file_of argv) (model_of argv))
              error_prefix w) as [Hfr Hkr].
  exists prompt. rewrite (main_run E argv w Hlen). cbn [snd].
  rewrite Hfr, Hkr, Heq. split; [|split].
  - rewrite Hf3; [exact Htp|].
    rewrite (transcript_path_head T HT). discriminate.
  - rewrite Hf3 by discriminate. rewrite Hfs1.
    rewrite lookup_insert_ne; [apply lookup_insert_eq|].
    intros H. apply (transcript_path_not_dir T HT). exact H.
  - rewrite Hc3, Hcs, <- !app_assoc. reflexivity.
Qed.

(** X10: on a cache miss, with a transcript file that can be created and
    texts that can be printed and written, the run calls the title lookup,
    then the transcript service once with the raw video identifier, then
    the model once with the saved text, read back in text mode, after the
    prompt; the transcripts directory exists afterwards.  This holds
    whatever the model answers. *)
Theorem miss_run_fetches_then_posts (E : env) (argv : list str) (T : str)
    (tr : list snippet) (w : world) :
  (2 <= length argv)%nat ->
  fst (get_video_title E (video_url_of (video_id_of argv)) w) = inr T ->
  run_text_ok E argv T ->
  fs w !! transcript_path T = None ->
  fetch E (video_id_of argv) = inr tr ->
  encodable (rendered tr) = true ->
  is_file (fs w !! TRANSCRIPTS_DIR) = false ->
  path_error (transcript_path T) = None ->
  exists prompt,
    calls (snd (main E argv w))
    = calls w ++ [CallExtractInfo (video_url_of (video_id_of argv));
                  CallFetch (video_id_of argv);
                  CallPost OLLAMA_URL
                    (ollama_request prompt (universal_newlines (rendered tr))
                       (model_of argv))]
    /\ fs (snd (main E argv w)) !! TRANSCRIPTS_DIR = Some Dir.
Proof.
  intros Hlen Ht _ Hmiss Hf Henc Hdir Hfit.
  destruct (run_saves_transcript E argv T tr w Hlen Ht Hmiss Hf Henc Hdir Hfit)
    as [prompt [_ [Hd Hc]]].
  exists prompt. split; assumption.
Qed.

Lemma miss_run_fetches_then_posts_witness :
  exists prompt,
    calls (snd (main env_500 argv0 world0))
    = [CallExtractInfo (video_url_of (lit "abc123"));
       CallFetch (lit "abc123");
       CallPost OLLAMA_URL
         (ollama_request prompt (lit "hi there ") DEFAULT_OLLAMA_MODEL)].
Proof.
  destruct (miss_run_fetches_then_posts env_500 argv0 talk_title talk_snippets world0)
    as [prompt [H _]].
  - simpl. lia.
  - reflexivity.
  - apply (talk_text_ok _ _ talk_info); reflexivity.
  - reflexivity.
  - reflexivity.
  - reflexivity.
  - reflexivity.
  - vm_compute. reflexivity.
  - exists prompt. exact H.
Defined.

(** X14: a run that fetched and saved the transcript makes the next run a
    cache hit even when the first one failed at the model: with a plain
    summary path and texts that can be printed and written, the second
    run, for the same title, does not call the transcript service and
    posts the text the first run saved. *)
Theorem retry_reuses_saved_transcript (E1 E2 : env) (argv : list str) (T : str)
    (tr : list snippet) (w : world) :
  (2 <= length argv)%nat ->
  fst (get_video_title E1 (video_url_of (video_id_of argv)) w) = inr T ->
  fst (get_video_title E2 (video_url_of (video_id_of argv)) w) = inr T ->
  run_text_ok E1 argv T ->
  run_text_ok E2 argv T ->
  fs w !! transcript_path T = None ->
  fetch E1 (video_id_of argv) = inr tr ->
  encodable (rendered tr) = true ->
  is_file (fs w !! TRANSCRIPTS_DIR) = false ->
  path_error (transcript_path T) = None ->
  plain (summary_path T (model_of argv)) = true ->
  exists prompt,
    calls (snd (main E2 argv (snd (main E1 argv w))))
    = calls (snd (main E1 argv w))
      ++ [CallExtractInfo (video_url_of (video_id_of argv));
          CallPost OLLAMA_URL
            (ollama_request prompt (universal_newlines (rendered tr)) (model_of argv))].
Proof.
  intros Hlen Ht1 Ht2 _ _ Hmiss Hf Henc Hdir Hfit _.
  destruct (run_saves_transcript E1 argv T tr w Hlen Ht1 Hmiss Hf Henc Hdir Hfit)
    as [_ [Hsaved _]].
  destruct (title_of_run E2 _ T w Ht2) as [HT [out Hrun]].
  set (w1 := snd (main E1 argv w)) in *.
  assert (Ht2' : fst (get_video_title E2 (video_url_of (video_id_of argv)) w1) = inr T).
  { rewrite Hrun. reflexivity. }
  destruct (found_run E2 argv T _ w1 Hlen Ht2' Hsaved)
    as [[c [prompt [w2 [Hc [Heq [_ Hcs]]]]]]|[e [w2 [Hnf _]]]];
    [|destruct (Hnf _ eq_refl)].
  injection Hc as <-.
  destruct (try_print_frame
              (main_try E2 (video_id_of argv) (prompt_file_of argv) (model_of argv))
              error_prefix w1) as [_ Hk].
  destruct (summarize_and_save_frame E2 T (model_of argv) prompt
              (universal_newlines (rendered tr)) w2 HT) as [Hk2 _].
  exists prompt. rewrite (main_run E2 argv w1 Hlen). cbn [snd].
  rewrite Hk, Heq, Hk2, Hcs, <- app_assoc. reflexivity.
Qed.

Lemma retry_reuses_saved_transcript_witness :
  exists prompt,
    calls (snd (main (env_ok (lit "hello")) argv0 (snd (main env_500 argv0 world0))))
    = calls (snd (main env_500 argv0 world0))
      ++ [CallExtractInfo (video_url_of (lit "abc123"));
          CallPost OLLAMA_URL
            (ollama_request prompt (lit "hi there ") DEFAULT_OLLAMA_MODEL)].
Proof.
  destruct (retry_reuses_saved_transcript env_500 (env_ok (lit "hello")) argv0
              talk_title talk_snippets world0) as [prompt H].
  - simpl. lia.
  - reflexivity.
  - reflexivity.
  - apply (talk_text_ok _ _ talk_info); reflexivity.
  - apply (talk_text_ok _ _ talk_info); reflexivity.
  - reflexivity.
  - reflexivity.
  - reflexivity.
  - reflexivity.
  - vm_compute. reflexivity.
  - vm_compute. reflexivity.
  - exists prompt. exact H.
Defined.

(** ** Titles and cache keys *)

(** X15: a title with no character of the class, no underscore and no
    whitespace at its ends is shown on line 77 exactly as it was: turning
    the underscores of the sanitized title back into spaces undoes the
    sanitization. *)
Theorem displayed_title_round_trip (t : str) :
  (forall c, In c t -> forbidden c = false /\ c <> 95) ->
  (forall c, head t = Some c -> isspace c = false) ->
  (forall c, last t = Some c -> isspace c = false) ->
  underscores_to_spaces (sanitize_filename t) = t.
Proof.
  intros Hc Hh Hl. unfold sanitize_filename, re_sub_forbidden.
  rewrite filter_all by (intros x Hx; apply negb_true_iff; apply (Hc x Hx)).
  rewrite (strip_id t Hh Hl).
  unfold underscores_to_spaces, replace_space. rewrite map_map.
  apply map_all. intros x Hx. destruct (Hc x Hx) as [_ Hne].
  destruct (x =? 32) eqn:E.
  - apply N.eqb_eq in E. subst x. reflexivity.
  - apply N.eqb_neq in Hne. rewrite Hne. reflexivity.
Qed.

Lemma displayed_title_round_trip_witness :
  underscores_to_spaces (sanitize_filename (lit "My Talk part 1")) = lit "My Talk part 1".
Proof.
  apply displayed_title_round_trip.
  - intros c Hc. vm_compute in Hc.
    repeat (destruct Hc as [<-|Hc]; [split; [reflexivity | discriminate]|]).
    destruct Hc.
  - intros c [= <-]. reflexivity.
  - intros c [= <-]. reflexivity.
Defined.

(** X16: the cache keys keep apart what they should: two different clean
    titles have different transcript files, two different models have
    different summary files for the same title, and no summary file is ever
    a transcript file. *)
Theorem cache_paths_distinct (T1 T2 m1 m2 : str) :
  clean T1 -> clean T2 ->
  (transcript_path T1 = transcript_path T2 -> T1 = T2)
  /\ (summary_path T1 m1 = summary_path T1 m2 -> m1 = m2)
  /\ summary_path T1 m1 <> transcript_path T2.
Proof.
  intros H1 H2. split; [|split].
  - rewrite (transcript_path_eq T1 H1), (transcript_path_eq T2 H2). intros H.
    apply (app_inv_head TRANSCRIPTS_DIR) in H.
    assert (H' : T1 ++ lit "_transcript.txt" = T2 ++ lit "_transcript.txt")
      by congruence.
    apply (app_inv_tail (lit "_transcript.txt")) in H'. exact H'.
  - rewrite !(summary_path_eq T1 _ H1). intros H.
    apply (app_inv_head SUMMARIES_DIR) in H.
    assert (H' : T1 ++ lit "_summary_" ++ m1 ++ lit ".txt"
                 = T1 ++ lit "_summary_" ++ m2 ++ lit ".txt") by congruence.
    apply (app_inv_head T1) in H'. apply (app_inv_head (lit "_summary_")) in H'.
    apply (app_inv_tail (lit ".txt")) in H'. exact H'.
  - intros H. apply (f_equal head) in H.
    destruct (summary_path_facts T1 m1 H1) as [_ [_ [_ [Hs _]]]].
    rewrite Hs, (transcript_path_head T2 H2) in H. discriminate.
Qed.

Lemma cache_paths_distinct_witness :
  summary_path talk_title (lit "gemma3") <> summary_path talk_title (lit "llama3")
  /\ summary_path talk_title (lit "gemma3") <> transcript_path talk_title.
Proof.
  destruct (cache_paths_distinct talk_title talk_title (lit "gemma3") (lit "llama3")
              eq_refl eq_refl) as [_ [H1 H2]].
  split; [|exact H2].
  intros H. apply H1 in H. discriminate H.
Defined.

(** X17: sanitizing never lengthens a name. *)
Theorem sanitize_filename_length (name : str) :
  (length (sanitize_filename name) <= length name)%nat.
Proof.
  unfold sanitize_filename, replace_space, re_sub_forbidden.
  rewrite length_map.
  destruct (strip_split (List.filter (fun c => negb (forbidden c)) name))
    as [pre [post [Heq _]]].
  pose proof (filter_length_le (fun c => negb (forbidden c)) name) as Hle.
  rewrite Heq in Hle at 1. rewrite !length_app in Hle. lia.
Qed.

(** X18: a title made only of characters of the class and of whitespace
    sanitizes to the empty string, and every such video shares the one
    transcript file [transcripts/_transcript.txt]. *)
Theorem blank_title_gives_empty_name (name : str) :
  (forall c, In c name -> forbidden c = true \/ isspace c = true) ->
  sanitize_filename name = []
  /\ transcript_path (sanitize_filename name) = lit "transcripts/_transcript.txt".
Proof.
  intros H.
  assert (Hs : sanitize_filename name = []).
  { unfold sanitize_filename, strip, rstrip, lstrip.
    assert (Hall : forallb isspace (re_sub_forbidden name) = true).
    { apply forallb_forall. intros c Hc. unfold re_sub_forbidden in Hc.
      apply filter_In in Hc. destruct Hc as [Hin Hn].
      apply negb_true_iff in Hn. destruct (H c Hin) as [Hf|Hw]; [congruence | exact Hw]. }
    rewrite <- (app_nil_r (re_sub_forbidden name)).
    rewrite (drop_while_app_all isspace _ [] Hall). reflexivity. }
  rewrite Hs. split; reflexivity.
Qed.

Lemma blank_title_gives_empty_name_witness :
  sanitize_filename (lit " ?? :: ") = []
  /\ transcript_path (sanitize_filename (lit " ?? :: ")) = lit "transcripts/_transcript.txt".
Proof.
  apply blank_title_gives_empty_name.
  intros c Hc. vm_compute in Hc.
  repeat (destruct Hc as [<-|Hc]; [first [left; reflexivity | right; reflexivity]|]).
  destruct Hc.
Defined.

(** ** Cache hits in full *)

(** X19: on a cache hit, with texts that can be printed, the one request
    to the model carries the chosen prompt, two newlines and the cached
    text, read in text mode: the trimmed text of the prompt file when the
    second argument names a text file, the default prompt when the argument
    is absent, empty, or names no text file. *)
Theorem hit_run_request (E : env) (argv : list str) (T c : str) (w : world) :
  (2 <= length argv)%nat ->
  fst (get_video_title E (video_url_of (video_id_of argv)) w) = inr T ->
  run_text_ok E argv T ->
  fs w !! transcript_path T = Some (File c) ->
  exists prompt,
    calls (snd (main E argv w))
    = calls w ++ [CallExtractInfo (video_url_of (video_id_of argv));
                  CallPost OLLAMA_URL
                    (Request (model_of argv)
                       (prompt ++ [10; 10] ++ universal_newlines c) false)]
    /\ (forall p pc, prompt_file_of argv = Some p -> p <> [] ->
                     fs w !! p = Some (File pc) ->
                     prompt = strip (universal_newlines pc))
    /\ (prompt_file_of argv = None -> prompt = DEFAULT_PROMPT)
    /\ (forall p, prompt_file_of argv = Some p ->
                  p = [] \/ fs w !! p = None \/ fs w !! p = Some Dir
                  \/ (exists why, fs w !! p = Some (Binary why)) ->
                  prompt = DEFAULT_PROMPT).
Proof.
  intros Hlen Ht _ Hc.
  destruct (title_of_run E _ T w Ht) as [HT _].
  destruct (main_try_prefix E (video_id_of argv) (model_of argv) T
              (prompt_file_of argv) w Ht (or_introl (ex_intro _ c Hc)))
    as [c' [prompt [w1 [pre [Heq [Hcs [_ [_ [Hhit [_ Hfacts]]]]]]]]]].
  destruct (Hhit c Hc) as [-> [Hfs ->]]. rewrite Hfs in Hfacts.
  destruct (try_print_frame
              (main_try E (video_id_of argv) (prompt_file_of argv) (model_of argv))
              error_prefix w) as [_ Hk].
  destruct (summarize_and_save_frame E T (model_of argv) prompt
              (universal_newlines c) w1 HT) as [Hk2 _].
  exists prompt. split; [|exact Hfacts].
  rewrite (main_run E argv w Hlen). cbn [snd].
  rewrite Hk, Heq, Hk2, Hcs, <- app_assoc. reflexivity.
Qed.

Lemma hit_run_request_witness :
  calls (snd (main (env_ok (lit "hello")) argv_with_prompt world_with_prompt))
  = [CallExtractInfo (video_url_of (lit "abc123"));
     CallPost OLLAMA_URL
       (Request DEFAULT_OLLAMA_MODEL
          (lit "Summarise in one line:" ++ [10; 10] ++ lit "old text") false)].
Proof.
  destruct (hit_run_request (env_ok (lit "hello")) argv_with_prompt talk_title
              (lit "old text") world_with_prompt)
    as [prompt [H1 [H2 _]]].
  - simpl. lia.
  - reflexivity.
  - apply (talk_text_ok _ _ talk_info); reflexivity.
  - vm_compute. reflexivity.
  - rewrite H1.
    rewrite (H2 (lit "prompt.txt") (lit "  Summarise in one line:  ") eq_refl).
    + reflexivity.
    + discriminate.
    + vm_compute. reflexivity.
Defined.

(** X20: a successful run on a cache hit with a model name without slash,
    on a file system whose paths are plain, with a plain prompt path and
    texts that can be printed and written, adds exactly two things to the
    files: the summaries directory and the summary file; its output ends
    with the announcement, the summary header, the summary itself, and the
    line saying where it was saved. *)
Theorem hit_run_success (E : env) (argv : list str) (T c r : str) (w : world) :
  (2 <= length argv)%nat ->
  fst (get_video_title E (video_url_of (video_id_of argv)) w) = inr T ->
  run_text_ok E argv T ->
  plain_prompt argv ->
  encodable r = true ->
  normal (fs w) ->
  fs w !! transcript_path T = Some (File c) ->
  summary_writable T (model_of argv) (fs w) ->
  (forall ch, In ch (model_of argv) -> is_slash ch = false) ->
  (forall req, sends E argv w req -> answers_200 E req (Some r)) ->
  fs (snd (main E argv w))
  = <[summary_path T (model_of argv) := File (strip r)]>
      (<[SUMMARIES_DIR := Dir]> (fs w))
  /\ exists before,
       stdout (snd (main E argv w))
       = before
         ++ [[10; 129504] ++ lit " Sending transcript to Ollama (" ++ model_of argv
             ++ lit ") for summarization...";
             [10; 128221] ++ lit " Summary:" ++ [10];
             strip r;
             [10; 9989] ++ lit " Summary saved as " ++ summary_path T (model_of argv)].
Proof.
  intros Hlen Ht _ _ _ _ Hc Hw Hm Hpost.
  destruct (title_of_run E _ T w Ht) as [HT _].
  destruct (main_try_prefix E (video_id_of argv) (model_of argv) T
              (prompt_file_of argv) w Ht (or_introl (ex_intro _ c Hc)))
    as [c' [prompt [w1 [pre [Heq [Hcs [_ [_ [Hhit _]]]]]]]]].
  destruct (Hhit c Hc) as [-> [Hfs ->]].
  pose proof (run_sends E argv T prompt _ _ w w1 Hlen HT Heq Hcs) as Hsent.
  assert (Hw1 : summary_writable T (model_of argv) (fs w1)) by (rewrite Hfs; exact Hw).
  pose proof (summarize_and_save_200_world E T (model_of argv) prompt
                (universal_newlines c) (Some r) w1 HT Hw1 (Hpost _ Hsent)) as Hrun.
  cbv zeta in Hrun. rewrite Hrun in Heq.
  rewrite (main_returned E argv w _ Hlen Heq).
  cbn [snd fs stdout]. split.
  - rewrite (summary_dir_flat T (model_of argv) HT Hm), Hfs. reflexivity.
  - eexists. reflexivity.
Qed.

Lemma hit_run_success_witness :
  fs (snd (main (env_ok (lit "hello")) argv_with_prompt world_with_prompt))
  = <[summary_path talk_title DEFAULT_OLLAMA_MODEL := File (lit "hello")]>
      (<[SUMMARIES_DIR := Dir]> (fs world_with_prompt)).
Proof.
  refine (proj1 (hit_run_success (env_ok (lit "hello")) argv_with_prompt talk_title
                   (lit "old text") (lit "hello") world_with_prompt
                   _ _ _ _ _ _ _ _ _ _)).
  - simpl. lia.
  - reflexivity.
  - apply (talk_text_ok _ _ talk_info); reflexivity.
  - intros p [= <-] _. vm_compute. reflexivity.
  - reflexivity.
  - intros q [n Hq]. unfold world_with_prompt in Hq. cbn [fs] in Hq.
    apply lookup_insert_Some in Hq. destruct Hq as [[<- _]|[_ Hq]];
      [vm_compute; reflexivity|].
    apply lookup_singleton_Some in Hq. destruct Hq as [<- _]. vm_compute. reflexivity.
  - vm_compute. reflexivity.
  - apply (talk_summary_writable (fs world_with_prompt)).
    + vm_compute. reflexivity.
    + vm_compute. discriminate.
  - intros ch Hch. vm_compute in Hch.
    repeat (destruct Hch as [<-|Hch]; [reflexivity|]). destruct Hch.
  - intros req _. eexists. eexists. repeat split; reflexivity.
Defined.

(** ** Names and files the system refuses *)

Lemma missing_error_too_long (m : gmap str node) (p : str) :
  arg_error p = None -> too_long p = true ->
  (forall a, In a (dirs_to p) -> m !! a = Some Dir) ->
  missing_error m p = Some (ENAMETOOLONG p).
Proof.
  intros Ha Hl Hd. unfold missing_error.
  rewrite Ha, (walk_dirs_none m p _ Hd), Hl.
  destruct (PATH_MAX <=? byte_length p); reflexivity.
Qed.

Lemma open_w_too_long (p : str) (w : world) :
  p <> [] -> fs w !! p = None ->
  arg_error p = None -> too_long p = true ->
  (forall a, In a (dirs_to p) -> fs w !! a = Some Dir) ->
  open_w p w = (inl (ENAMETOOLONG p), w).
Proof.
  intros Hp Hn Ha Hl Hd. unfold open_w. destruct p as [|c p]; [congruence|].
  rewrite Hn, (missing_error_too_long _ _ Ha Hl Hd). reflexivity.
Qed.

Lemma dirs_to_transcript_path (T : str) :
  clean T -> dirs_to (transcript_path T) = [TRANSCRIPTS_DIR].
Proof.
  intros HT. unfold dirs_to. rewrite (dirname_transcript_path T HT). reflexivity.
Qed.

Lemma save_transcript_too_long (T : str) (tr : list snippet) (w : world) :
  clean T ->
  fs w !! transcript_path T = None ->
  is_file (fs w !! TRANSCRIPTS_DIR) = false ->
  arg_error (transcript_path T) = None ->
  too_long (transcript_path T) = true ->
  save_transcript (transcript_path T) tr w
  = (inl (ENAMETOOLONG (transcript_path T)),
     World (<[TRANSCRIPTS_DIR := Dir]> (fs w)) (stdout w) (calls w)).
Proof.
  intros HT Hmiss Hdir Ha Hl. unfold save_transcript. unfold bind at 1.
  rewrite makedirs_ok.
  2:{ rewrite (dirname_transcript_path T HT). discriminate. }
  2:{ rewrite (dirname_transcript_path T HT), transcripts_chain.
      intros a [<-|[]]. split; [exact Hdir | exact transcripts_dir_fits]. }
  rewrite (dirname_transcript_path T HT), transcripts_chain.
  unfold bind at 1. rewrite open_w_too_long; [reflexivity | | | exact Ha | exact Hl |].
  - apply transcript_path_nonempty.
  - unfold set_fs. cbn [fs add_dirs fold_right].
    rewrite lookup_insert_ne; [exact Hmiss|].
    intros H. apply (transcript_path_not_dir T HT). symmetry. exact H.
  - rewrite (dirs_to_transcript_path T HT). intros a [<-|[]].
    unfold set_fs. cbn [fs add_dirs fold_right]. apply lookup_insert_eq.
Qed.

(** X22: a title whose transcript file has a name longer than the file
    system allows is never cached.  With no node at that path the run
    fetches the transcript and makes the transcripts directory; opening the
    file then fails with an [OSError], the run stops with that error
    printed last and exits with status 0: no transcript file is written
    and the model is never called. *)
Theorem long_title_stops_at_open (E : env) (argv : list str) (T : str)
    (tr : list snippet) (w : world) :
  (2 <= length argv)%nat ->
  fst (get_video_title E (video_url_of (video_id_of argv)) w) = inr T ->
  run_text_ok E argv T ->
  fs w !! transcript_path T = None ->
  fetch E (video_id_of argv) = inr tr ->
  is_file (fs w !! TRANSCRIPTS_DIR) = false ->
  arg_error (transcript_path T) = None ->
  too_long (transcript_path T) = true ->
  fst (main E argv w) = 0%Z
  /\ calls (snd (main E argv w))
     = calls w ++ [CallExtractInfo (video_url_of (video_id_of argv));
                   CallFetch (video_id_of argv)]
  /\ fs (snd (main E argv w)) !! transcript_path T = None
  /\ fs (snd (main E argv w)) !! TRANSCRIPTS_DIR = Some Dir
  /\ exists e,
       exn_kind e = OSError
       /\ fst (main_try E (video_id_of argv) (prompt_file_of argv) (model_of argv) w)
          = inl e
       /\ last (stdout (snd (main E argv w))) = Some (error_prefix ++ exn_str e).
Proof.
  intros Hlen Ht _ Hmiss Hf Hdir Ha Hl.
  destruct (title_of_run E _ T w Ht) as [HT _].
  destruct (main_try_start E (video_id_of argv) (model_of argv) T
              (prompt_file_of argv) w Ht) as [w0 [Hfs [Hcs Heq]]].
  unfold bind at 1 in Heq.
  assert (Hstep : exists out,
             fetch_or_reuse_transcript E (video_id_of argv) T w0
             = (inl (ENAMETOOLONG (transcript_path T)),
                World (<[TRANSCRIPTS_DIR := Dir]> (fs w)) out
                  (calls w0 ++ [CallFetch (video_id_of argv)]))).
  { unfold fetch_or_reuse_transcript, bind.
    rewrite (os_path_exists_run _ _ (transcript_path_nonempty T)), Hfs, Hmiss.
    cbn [bool_decide decide_rel is_Some_dec].
    unfold print, ytt_fetch, log_call, lift, bind.
    rewrite Hf. rewrite save_transcript_too_long;
      [| exact HT | cbn [fs]; rewrite Hfs; exact Hmiss
       | cbn [fs]; rewrite Hfs; exact Hdir | exact Ha | exact Hl].
    cbn [fs stdout calls]. rewrite Hfs. eexists. reflexivity. }
  destruct Hstep as [out Hstep]. rewrite Hstep in Heq.
  rewrite (main_aborted E argv _ w _ Hlen Heq). cbn [fst snd fs stdout calls].
  split; [reflexivity|]. split; [rewrite Hcs, <- app_assoc; reflexivity|].
  split.
  { rewrite lookup_insert_ne; [exact Hmiss|].
    intros H. apply (transcript_path_not_dir T HT). symmetry. exact H. }
  split; [apply lookup_insert_eq|].
  eexists. split; [|split; [rewrite Heq; reflexivity | apply last_snoc]].
  reflexivity.
Qed.

Lemma long_title_stops_at_open_witness :
  calls (snd (main env_long_title argv0 world0))
  = [CallExtractInfo (video_url_of (lit "abc123")); CallFetch (lit "abc123")]
  /\ fs (snd (main env_long_title argv0 world0)) !! transcript_path long_title = None.
Proof.
  destruct (long_title_stops_at_open env_long_title argv0 long_title talk_snippets
              world0) as [_ [H1 [H2 _]]].
  - simpl. lia.
  - vm_compute. reflexivity.
  - split; [reflexivity|]. split; [vm_compute; reflexivity|].
    split; [reflexivity|]. intros e He. discriminate He.
  - reflexivity.
  - reflexivity.
  - reflexivity.
  - vm_compute. reflexivity.
  - vm_compute. reflexivity.
  - split; [exact H1 | exact H2].
Defined.

(** X23: a transcript file whose bytes are not valid UTF-8 still counts as
    the cached transcript: the run fetches nothing, reading the file raises
    the [UnicodeDecodeError], and the run stops with that error printed
    last, changes no file and never calls the model. *)
Theorem undecodable_transcript_blocks_run (E : env) (argv : list str) (T why : str)
    (w : world) :
  (2 <= length argv)%nat ->
  fst (get_video_title E (video_url_of (video_id_of argv)) w) = inr T ->
  run_text_ok E argv T ->
  fs w !! transcript_path T = Some (Binary why) ->
  fst (main_try E (video_id_of argv) (prompt_file_of argv) (model_of argv) w)
  = inl (Exn UnicodeDecodeError why)
  /\ fs (snd (main E argv w)) = fs w
  /\ calls (snd (main E argv w))
     = calls w ++ [CallExtractInfo (video_url_of (video_id_of argv))]
  /\ last (stdout (snd (main E argv w))) = Some (error_prefix ++ why).
Proof.
  intros Hlen Ht _ Hb.
  destruct (found_run E argv T (Binary why) w Hlen Ht Hb)
    as [[c [prompt [w1 [Hc _]]]]|[e [w1 [_ [He [Heq [Hfs Hcs]]]]]]];
    [discriminate Hc|].
  rewrite (read_file_binary _ why w (transcript_path_nonempty T) Hb) in He.
  injection He as <-.
  rewrite (main_aborted E argv _ w w1 Hlen Heq). cbn [fst snd fs stdout calls].
  split; [rewrite Heq; reflexivity|]. split; [exact Hfs|]. split; [exact Hcs|].
  apply last_snoc.
Qed.

Lemma undecodable_transcript_blocks_run_witness :
  calls (snd (main (env_ok (lit "hello")) argv0
                (World {[transcript_path talk_title := Binary (lit "invalid start byte")]}
                   [] [])))
  = [CallExtractInfo (video_url_of (lit "abc123"))].
Proof.
  destruct (undecodable_transcript_blocks_run (env_ok (lit "hello")) argv0
              talk_title (lit "invalid start byte")
              (World {[transcript_path talk_title := Binary (lit "invalid start byte")]}
                 [] []))
    as [_ [_ [H _]]].
  - simpl. lia.
  - reflexivity.
  - apply (talk_text_ok _ _ talk_info); reflexivity.
  - vm_compute. reflexivity.
  - exact H.
Defined.

Lemma summaries_dir_fits : path_error SUMMARIES_DIR = None.
Proof. vm_compute. reflexivity. Qed.

Lemma write_summary_too_long (T model s : str) (w : world) :
  clean T ->
  (forall ch, In ch model -> is_slash ch = false) ->
  fs w !! summary_path T model = None ->
  is_file (fs w !! SUMMARIES_DIR) = false ->
  arg_error (summary_path T model) = None ->
  too_long (summary_path T model) = true ->
  write_summary T model s w
  = (inl (ENAMETOOLONG (summary_path T model)),
     World (<[SUMMARIES_DIR := Dir]> (fs w)) (stdout w) (calls w)).
Proof.
  intros HT Hm Hmiss Hdir Ha Hl.
  destruct (summary_path_facts T model HT) as [Hp [_ [Hnot _]]].
  pose proof (summary_dir_flat T model HT Hm) as Hflat.
  rewrite Hflat in Hnot.
  unfold write_summary. unfold bind at 1. rewrite Hflat.
  rewrite makedirs_ok; [| discriminate |].
  2:{ intros a [<-|[]]. split; [exact Hdir | exact summaries_dir_fits]. }
  unfold bind at 1. rewrite open_w_too_long; [reflexivity | exact Hp | | exact Ha | exact Hl |].
  - unfold set_fs. cbn [fs]. rewrite lookup_add_dirs_out; assumption.
  - unfold dirs_to. rewrite Hflat. intros a Hin.
    unfold set_fs. cbn [fs]. apply lookup_add_dirs_in. exact Hin.
Qed.

(** X24: the summary is printed before it is saved.  On a cache hit with a
    model name without slash, when the endpoint answers 200 with the
    response [r] but the name of the summary file is longer than the file
    system allows, the run prints the trimmed [r], makes the summaries
    directory, fails to open the file with an [OSError] that it prints
    last, and exits with status 0: the answer is shown but no summary file
    is written. *)
Theorem long_summary_name_loses_summary (E : env) (argv : list str) (T c r : str)
    (w : world) :
  (2 <= length argv)%nat ->
  fst (get_video_title E (video_url_of (video_id_of argv)) w) = inr T ->
  run_text_ok E argv T ->
  plain_prompt argv ->
  encodable r = true ->
  fs w !! transcript_path T = Some (File c) ->
  (forall ch, In ch (model_of argv) -> is_slash ch = false) ->
  fs w !! summary_path T (model_of argv) = None ->
  is_file (fs w !! SUMMARIES_DIR) = false ->
  arg_error (summary_path T (model_of argv)) = None ->
  too_long (summary_path T (model_of argv)) = true ->
  (forall req, sends E argv w req -> answers_200 E req (Some r)) ->
  fst (main E argv w) = 0%Z
  /\ (exists req, sends E argv w req)
  /\ In (strip r) (stdout (snd (main E argv w)))
  /\ fs (snd (main E argv w)) !! summary_path T (model_of argv) = None
  /\ fs (snd (main E argv w)) !! SUMMARIES_DIR = Some Dir
  /\ exists e,
       exn_kind e = OSError
       /\ fst (main_try E (video_id_of argv) (prompt_file_of argv) (model_of argv) w)
          = inl e
       /\ last (stdout (snd (main E argv w))) = Some (error_prefix ++ exn_str e).
Proof.
  intros Hlen Ht _ _ _ Hc Hm Hmiss Hdir Ha Hl Hpost.
  destruct (title_of_run E _ T w Ht) as [HT _].
  destruct (summary_path_facts T (model_of argv) HT) as [_ [_ [Hnot _]]].
  rewrite (summary_dir_flat T (model_of argv) HT Hm) in Hnot.
  destruct (main_try_prefix E (video_id_of argv) (model_of argv) T
              (prompt_file_of argv) w Ht (or_introl (ex_intro _ c Hc)))
    as [c' [prompt [w1 [pre [Heq [Hcs [_ [_ [Hhit _]]]]]]]]].
  destruct (Hhit c Hc) as [-> [Hfs ->]].
  pose proof (run_sends E argv T prompt _ _ w w1 Hlen HT Heq Hcs) as Hsent.
  destruct (Hpost _ Hsent) as [resp [d [Hp [Hs [Hj Hd]]]]].
  unfold summarize_and_save, bind in Heq. unfold print at 1 in Heq.
  rewrite (summarize_200 E prompt _ (model_of argv) resp d _ Hp Hs Hj), Hd in Heq.
  cbn [option_map] in Heq. unfold posted, print in Heq. cbn [fs stdout calls] in Heq.
  rewrite write_summary_too_long in Heq;
    [| exact HT | exact Hm | cbn [fs]; rewrite Hfs; exact Hmiss
     | cbn [fs]; rewrite Hfs; exact Hdir | exact Ha | exact Hl].
  cbn [fs stdout calls] in Heq.
  rewrite (main_aborted E argv _ w _ Hlen Heq). cbn [fst snd fs stdout calls].
  split; [reflexivity|]. split; [eexists; exact Hsent|].
  split.
  { apply in_or_app. left. apply in_or_app. right. left. reflexivity. }
  split.
  { rewrite lookup_insert_ne, Hfs; [exact Hmiss|].
    intros H. apply Hnot. left. exact H. }
  split; [apply lookup_insert_eq|].
  eexists. split; [|split; [rewrite Heq; reflexivity | apply last_snoc]].
  reflexivity.
Qed.

Lemma long_summary_name_loses_summary_witness :
  In (lit "hello") (stdout (snd (main env_cjk_title argv0 world_with_cjk)))
  /\ fs (snd (main env_cjk_title argv0 world_with_cjk))
       !! summary_path cjk_title DEFAULT_OLLAMA_MODEL = None
  /\ path_error (transcript_path cjk_title) = None.
Proof.
  destruct (long_summary_name_loses_summary env_cjk_title argv0 cjk_title
              (lit "old text") (lit "hello") world_with_cjk)
    as [_ [_ [H1 [H2 _]]]].
  - simpl. lia.
  - vm_compute. reflexivity.
  - split; [reflexivity|]. split; [vm_compute; reflexivity|].
    split; [reflexivity|]. intros e He. discriminate He.
  - intros p Hp. discriminate Hp.
  - reflexivity.
  - vm_compute. reflexivity.
  - intros ch Hch. vm_compute in Hch.
    repeat (destruct Hch as [<-|Hch]; [reflexivity|]). destruct Hch.
  - vm_compute. reflexivity.
  - vm_compute. reflexivity.
  - vm_compute. reflexivity.
  - vm_compute. reflexivity.
  - intros req _. eexists. eexists. repeat split; reflexivity.
  - split; [exact H1|]. split; [exact H2|]. vm_compute. reflexivity.
Defined.

(** ** Arguments and snippets *)

(** X21: the saved transcript has at least one character for each snippet,
    so it is empty exactly when the transcript has no snippet: a snippet of
    whitespace only still leaves a space. *)
Theorem rendered_empty_iff (tr : list snippet) :
  (length tr <= length (rendered tr))%nat
  /\ (rendered tr = [] <-> tr = []).
Proof.
  assert (Hlen : (length tr <= length (rendered tr))%nat).
  { induction tr as [|snip tr IH]; [reflexivity|].
    change (rendered (snip :: tr))
      with ((strip (text snip) ++ lit " ") ++ rendered tr).
    rewrite !length_app. simpl. lia. }
  split; [exact Hlen|]. split.
  - intros H. rewrite H in Hlen. destruct tr; [reflexivity | simpl in Hlen; lia].
  - intros ->. reflexivity.
Qed.
